(** * Chronic-Disease-Prevention-Tracker: the rule engines

    A shallow embedding of the metrics engine (models/data_processor.py),
    the risk engine's entry point (models/risk_models.py), the alert engine
    (utils/alerts.py), the intervention catalog
    (components/intervention_engine.py), the stored history
    (data/health_data.py) and the progress insights
    (components/progress_tracker.py), with the properties the specification
    states about them and further properties of the code.

    Numbers.  The program computes with Python ints and IEEE doubles inside
    pandas frames.  Readings are modelled as exact rationals extended with
    the two infinities and NaN (the missing-value marker of pandas);
    rounding and signed zeros are not modelled.  A timestamp is the
    rational number of days since the epoch, NaN standing for NaT.

    The library.  Where a result depends on a choice that pandas or
    scikit-learn makes and the program does not, the choice is a parameter:
    the classifier, the formatting of numbers, the order in which
    [sort_values] leaves records with equal keys, the rounded mean that
    [detect_trends] compares, and whether [DataFrame.at] accepts a value. *)

From Stdlib Require Import QArith Qcanon ZArith Lqa.
From stdpp Require Import gmap strings list fin_maps numbers sorting.

Open Scope string_scope.
Open Scope list_scope.
Open Scope Z_scope.

(* stdpp's set_solver clears hypotheses by name; the notice is harmless. *)
Set Warnings "-clear-no-such-hyp".

(** ** Numeric values *)

Inductive value : Type :=
  | Fin (q : Qc)
  | PInf
  | NInf
  | NaN.

#[global] Instance value_eq_dec : EqDecision value.
Proof. solve_decision. Defined.

#[global] Instance value_inhabited : Inhabited value := populate NaN.

Definition QZ (z : Z) : Qc := Q2Qc (inject_Z z).
Definition QF (n : Z) (d : positive) : Qc := Q2Qc (n # d).

Coercion num (z : Z) : value := Fin (QZ z).
Definition dec (n : Z) (d : positive) : value := Fin (QF n d).

(** Comparisons of doubles: every comparison with NaN is false. *)
Definition vlt (a b : value) : bool :=
  match a, b with
  | Fin x, Fin y => bool_decide (x < y)%Qc
  | NInf, Fin _ | NInf, PInf | Fin _, PInf => true
  | _, _ => false
  end.

Definition vle (a b : value) : bool :=
  match a, b with
  | Fin x, Fin y => bool_decide (x <= y)%Qc
  | NInf, Fin _ | NInf, PInf | Fin _, PInf | NInf, NInf | PInf, PInf => true
  | _, _ => false
  end.

Definition vgt (a b : value) : bool := vlt b a.
Definition vge (a b : value) : bool := vle b a.

Definition veqb (a b : value) : bool :=
  match a, b with
  | NaN, _ | _, NaN => false
  | _, _ => bool_decide (a = b)
  end.

Definition notna (a : value) : bool :=
  match a with NaN => false | _ => true end.

Infix "<." := vlt (at level 70, no associativity).
Infix "<=." := vle (at level 70, no associativity).
Infix ">." := vgt (at level 70, no associativity).
Infix ">=." := vge (at level 70, no associativity).
Infix "==." := veqb (at level 70, no associativity).

(** Arithmetic of doubles on the extended rationals. *)
Definition qsign (q : Qc) : comparison := (q ?= 0)%Qc.

Definition vneg (a : value) : value :=
  match a with
  | Fin x => Fin (- x)%Qc
  | PInf => NInf
  | NInf => PInf
  | NaN => NaN
  end.

Definition vadd (a b : value) : value :=
  match a, b with
  | NaN, _ | _, NaN => NaN
  | Fin x, Fin y => Fin (x + y)%Qc
  | PInf, NInf | NInf, PInf => NaN
  | PInf, _ | _, PInf => PInf
  | NInf, _ | _, NInf => NInf
  end.

Definition vsub (a b : value) : value := vadd a (vneg b).

Definition vabs (a : value) : value :=
  match a with
  | Fin x => Fin (if bool_decide (x < 0)%Qc then - x else x)%Qc
  | PInf | NInf => PInf
  | NaN => NaN
  end.

(** The sign of a non-NaN value: [Lt] negative, [Eq] zero, [Gt] positive. *)
Definition vsign (a : value) : comparison :=
  match a with
  | Fin x => qsign x
  | PInf => Gt
  | NInf => Lt
  | NaN => Eq
  end.

Definition signed_inf (s t : comparison) : value :=
  match s, t with
  | Eq, _ | _, Eq => NaN
  | Lt, Lt | Gt, Gt => PInf
  | _, _ => NInf
  end.

Definition vmul (a b : value) : value :=
  match a, b with
  | NaN, _ | _, NaN => NaN
  | Fin x, Fin y => Fin (x * y)%Qc
  | _, _ => signed_inf (vsign a) (vsign b)
  end.

(** Division of doubles does not raise: a zero divisor gives an infinity,
    or NaN for 0/0. *)
Definition vdiv (a b : value) : value :=
  match a, b with
  | NaN, _ | _, NaN => NaN
  | Fin x, Fin y =>
      if bool_decide (y = 0%Qc) then
        match qsign x with Eq => NaN | Gt => PInf | Lt => NInf end
      else Fin (x / y)%Qc
  | Fin _, _ => Fin 0%Qc
  | _, Fin y =>
      match qsign y with
      | Lt => vneg a
      | _ => a
      end
  | _, _ => NaN
  end.

(** [Timedelta.days]: whole days, rounded towards minus infinity. *)
Definition qfloor (q : Qc) : Z := (Qnum q / Z.pos (Qden q))%Z.

Definition vdays (a : value) : value :=
  match a with
  | Fin x => Fin (QZ (qfloor x))
  | _ => NaN
  end.

Definition vsum (xs : list value) : value := foldl vadd (Fin 0%Qc) xs.

Definition vlen (xs : list value) : value := Fin (QZ (Z.of_nat (length xs))).

(** [numpy.mean]: NaN propagates; the mean of nothing is NaN. *)
Definition np_mean (xs : list value) : value :=
  match xs with
  | [] => NaN
  | _ => vdiv (vsum xs) (vlen xs)
  end.

Definition dropna (xs : list value) : list value := filter (λ v, notna v = true) xs.

(** [Series.mean], [Series.max]: missing values are skipped. *)
Definition mean (xs : list value) : value := np_mean (dropna xs).

Definition vmax2 (a b : value) : value := if a <. b then b else a.

Definition smax (xs : list value) : value :=
  match dropna xs with
  | [] => NaN
  | x :: rest => foldl vmax2 x rest
  end.

(** [Series.head(n)] and [Series.tail(n)]. *)
Definition head {A} (n : nat) (xs : list A) : list A := take n xs.
Definition tail {A} (n : nat) (xs : list A) : list A := drop (length xs - n) xs.

(** ** Frames

    A [DataFrame] is a set of column labels and a list of rows.  A cell of a
    column that a row does not bind is missing (NaN), as in a frame built
    from a list of dictionaries; bindings of a row outside [columns] are not
    part of the frame. *)

Record DataFrame : Type := mkDF {
  columns : gset string;
  rows : list (gmap string value)
}.

#[global] Instance DataFrame_eq_dec : EqDecision DataFrame.
Proof. solve_decision. Defined.

(** A row of a frame, or a dictionary read through the same interface:
    [index] is the set of labels. *)
Record Series : Type := mkSeries {
  index : gset string;
  cells : gmap string value
}.

Inductive exn : Type :=
  | KeyError (k : string)
  | IndexError
  | DanglingReference.

Inductive result (A : Type) : Type :=
  | Ok (a : A)
  | Raise (e : exn).
Arguments Ok {A} a.
Arguments Raise {A} e.

Definition len (df : DataFrame) : nat := length (rows df).

(** [DataFrame.empty]: some axis has length zero. *)
Definition empty (df : DataFrame) : bool :=
  bool_decide (columns df = ∅) || bool_decide (rows df = []).

Definition cell (r : gmap string value) (k : string) : value := default NaN (r !! k).

(** [data.iloc[-1]] *)
Definition iloc_last (df : DataFrame) : result Series :=
  match list.last (rows df) with
  | Some r => Ok (mkSeries (columns df) r)
  | None => Raise IndexError
  end.

(** [k in series] and [series.get(k, d)] *)
Definition contains (s : Series) (k : string) : bool := bool_decide (k ∈ index s).

Definition get (s : Series) (k : string) (d : value) : value :=
  if contains s k then cell (cells s) k else d.

(** [k in data.columns] and [data[k]] *)
Definition has_column (df : DataFrame) (k : string) : bool := bool_decide (k ∈ columns df).

Definition column (df : DataFrame) (k : string) : result (list value) :=
  if has_column df k then Ok ((λ r, cell r k) <$> rows df) else Raise (KeyError k).

(** [data[k] = v] for a scalar and for a sequence aligned with the rows;
    every sequence the engines assign has one entry per row. *)
Definition set_scalar (k : string) (v : value) (df : DataFrame) : DataFrame :=
  mkDF ({[k]} ∪ columns df) ((λ r, <[k:=v]> r) <$> rows df).

Definition set_column (k : string) (vs : list value) (df : DataFrame) : DataFrame :=
  mkDF ({[k]} ∪ columns df) (zip_with (λ r v, <[k:=v]> r) (rows df) vs).

(** Row selection by a boolean mask computed from each row. *)
Definition select (p : gmap string value → bool) (df : DataFrame) : DataFrame :=
  mkDF (columns df) (filter (λ r, p r = true) (rows df)).

(** ** The store

    Frames are objects: callers and callees share them by reference.  A
    computation takes the store, may raise, and leaves a store behind. *)

Abbreviation loc := nat (only parsing).
Abbreviation heap := (gmap nat DataFrame) (only parsing).

Definition M (A : Type) : Type := heap → result A * heap.

Definition ret {A} (a : A) : M A := λ h, (Ok a, h).

Definition bind {A B} (m : M A) (k : A → M B) : M B :=
  λ h, match m h with
       | (Ok a, h') => k a h'
       | (Raise e, h') => (Raise e, h')
       end.

Definition lift {A} (r : result A) : M A := λ h, (r, h).

Definition load (l : loc) : M DataFrame :=
  λ h, match h !! l with
       | Some df => (Ok df, h)
       | None => (Raise DanglingReference, h)
       end.

Definition store (l : loc) (df : DataFrame) : M unit :=
  λ h, (Ok tt, <[l:=df]> h).

Definition fresh_loc (h : heap) : loc := fresh (dom h).

Definition alloc (df : DataFrame) : M loc :=
  λ h, let l := fresh_loc h in (Ok l, <[l:=df]> h).

(** [data[k] = ...] on the object behind a reference. *)
Definition modify (l : loc) (f : DataFrame → DataFrame) : M unit :=
  bind (load l) (λ df, store l (f df)).

Declare Scope py_scope.
Delimit Scope py_scope with py.
Notation "'let*' x ':=' m 'in' k" := (bind m (λ x, k))
  (at level 10, x name, m at level 100, k at level 200) : py_scope.
Notation "m ';;' k" := (bind m (λ _, k))
  (at level 100, k at level 200, right associativity) : py_scope.
Open Scope py_scope.

Fixpoint for_each {A} (xs : list A) (body : A → M unit) : M unit :=
  match xs with
  | [] => ret tt
  | x :: rest => body x ;; for_each rest body
  end.

(** A loop that updates a local variable [s]. *)
Fixpoint for_fold {A S} (xs : list A) (s : S) (body : S → A → M S) : M S :=
  match xs with
  | [] => ret s
  | x :: rest => let* s' := body s x in for_fold rest s' body
  end.

(** [data[k]] and [data[k] = vs] through a reference. *)
Definition read_column (l : loc) (k : string) : M (list value) :=
  let* df := load l in lift (column df k).

Definition assign (l : loc) (k : string) (vs : list value) : M unit :=
  modify l (set_column k vs).

Definition assign_scalar (l : loc) (k : string) (v : value) : M unit :=
  modify l (set_scalar k v).

(** A pure computation that may raise. *)
Definition rbind {A B} (r : result A) (k : A → result B) : result B :=
  match r with
  | Ok a => k a
  | Raise e => Raise e
  end.
Notation "'let?' x ':=' r 'in' k" := (rbind r (λ x, k))
  (at level 10, x name, r at level 100, k at level 200) : py_scope.

(** ** models/data_processor.py *)

Module DataProcessor.

Definition required_columns : list string :=
  ["date"; "age"; "bmi"; "systolic_bp"; "diastolic_bp"; "glucose_fasting";
   "total_cholesterol"; "hdl_cholesterol"; "ldl_cholesterol"; "triglycerides";
   "waist_circumference"; "exercise_minutes_per_week"; "sleep_hours";
   "stress_level"; "smoking_status"; "alcohol_consumption"].

(** *** validate_health_data

    [data] is the dictionary of the input form. One test per checked field:
    the key is absent, or the value lies outside the range. *)
Definition out_of_bounds (data : gmap string value) (k : string)
    (below above : value → bool) : bool :=
  match data !! k with
  | None => true
  | Some v => below v || above v
  end.

Definition validate_health_data (data : gmap string value) : list string :=
  let errors := [] in
  let errors :=
    if out_of_bounds data "age" (λ v, v <=. 0) (λ v, v >. 150)
    then errors ++ ["Age must be between 1 and 150 years"] else errors in
  let errors :=
    if out_of_bounds data "bmi" (λ v, v <. 10) (λ v, v >. 60)
    then errors ++ ["BMI must be between 10 and 60"] else errors in
  let errors :=
    if out_of_bounds data "systolic_bp" (λ v, v <. 70) (λ v, v >. 250)
    then errors ++ ["Systolic blood pressure must be between 70 and 250 mmHg"] else errors in
  let errors :=
    if out_of_bounds data "diastolic_bp" (λ v, v <. 40) (λ v, v >. 150)
    then errors ++ ["Diastolic blood pressure must be between 40 and 150 mmHg"] else errors in
  let errors :=
    if out_of_bounds data "glucose_fasting" (λ v, v <. 50) (λ v, v >. 400)
    then errors ++ ["Fasting glucose must be between 50 and 400 mg/dL"] else errors in
  let errors :=
    if out_of_bounds data "total_cholesterol" (λ v, v <. 100) (λ v, v >. 500)
    then errors ++ ["Total cholesterol must be between 100 and 500 mg/dL"] else errors in
  errors.

(** *** clean_data

    The argument is a dictionary or a frame; [now] is the clock reading of
    [datetime.now()].  A date cell already is a timestamp, so
    [pd.to_datetime] keeps the cells it is given. *)
Inductive frame_or_dict : Type :=
  | Dict (d : gmap string value)
  | Frame (l : loc).

Definition to_datetime (vs : list value) : list value := vs.

Definition fillna (d : value) (vs : list value) : list value :=
  (λ v, if notna v then v else d) <$> vs.

Definition defaults : list (string * value) :=
  [("age", num 40); ("bmi", num 25); ("systolic_bp", num 120);
   ("diastolic_bp", num 80); ("glucose_fasting", num 90);
   ("total_cholesterol", num 200); ("hdl_cholesterol", num 50);
   ("ldl_cholesterol", num 100); ("triglycerides", num 150);
   ("waist_circumference", num 80); ("exercise_minutes_per_week", num 150);
   ("sleep_hours", num 7); ("stress_level", num 5); ("smoking_status", num 0);
   ("alcohol_consumption", num 0)].

(** The body of the loop over [defaults.items()]. *)
Definition fill_default (data : loc) (cd : string * value) : M unit :=
  let col := cd.1 in
  let default_val := cd.2 in
  let* df := load data in
  if negb (has_column df col) then assign_scalar data col default_val
  else let* vs := read_column data col in assign data col (fillna default_val vs).

Definition clean_data (now : value) (data : frame_or_dict) : M loc :=
  let* data :=
    match data with
    | Dict d => alloc (mkDF (dom d) [d])
    | Frame l => ret l
    end in
  let* df := load data in
  (if negb (has_column df "date") then assign_scalar data "date" now else ret tt) ;;
  (let* dates := read_column data "date" in assign data "date" (to_datetime dates)) ;;
  for_each defaults (fill_default data) ;;
  ret data.

(** *** calculate_derived_metrics *)

Definition scale (c : value) (xs : list value) : list value := (λ x, vmul x c) <$> xs.

Definition calculate_derived_metrics (data : loc) : M loc :=
  let* df := load data in
  if empty df then ret data else
  (let* systolic_bp := read_column data "systolic_bp" in
   let* diastolic_bp := read_column data "diastolic_bp" in
   assign data "pulse_pressure" (zip_with vsub systolic_bp diastolic_bp)) ;;
  (let* total_cholesterol := read_column data "total_cholesterol" in
   let* hdl_cholesterol := read_column data "hdl_cholesterol" in
   assign data "total_hdl_ratio" (zip_with vdiv total_cholesterol hdl_cholesterol)) ;;
  (let* ldl_cholesterol := read_column data "ldl_cholesterol" in
   let* hdl_cholesterol := read_column data "hdl_cholesterol" in
   assign data "ldl_hdl_ratio" (zip_with vdiv ldl_cholesterol hdl_cholesterol)) ;;
  (let* age := read_column data "age" in
   let* bmi := read_column data "bmi" in
   let* systolic_bp := read_column data "systolic_bp" in
   let* total_cholesterol := read_column data "total_cholesterol" in
   let* smoking_status := read_column data "smoking_status" in
   assign data "cv_risk_score"
     (zip_with vadd
       (zip_with vadd
         (zip_with vadd
           (zip_with vadd (scale (dec 1 10) age) (scale (dec 2 10) bmi))
           (scale (dec 5 100) systolic_bp))
         (scale (dec 1 100) total_cholesterol))
       (scale (num 10) smoking_status))) ;;
  ret data.

(** *** detect_trends *)

(** [sort_values]: ascending, missing keys last, a new frame.

    pandas sorts with its default kind, quicksort, which is not stable: the
    order in which rows with equal keys come out is the library's choice.
    The sort is therefore a parameter, [sort_kind]; what is known of it is
    that it is [ascending]: it rearranges the rows it is given so that no
    row sorts before one that stands in front of it. *)
Definition sorts_before (a b : value) : bool :=
  match a, b with
  | NaN, _ => false
  | _, NaN => true
  | _, _ => a <. b
  end.

Definition not_after (k : string) (a b : gmap string value) : Prop :=
  sorts_before (cell b k) (cell a k) = false.

Definition ascending
    (sort_kind : string → list (gmap string value) → list (gmap string value)) : Prop :=
  ∀ k rs, sort_kind k rs ≡ₚ rs ∧ StronglySorted (not_after k) (sort_kind k rs).

(** One ascending sort, by insertion: the order every ascending sort
    gives when the keys are pairwise distinct. *)
Fixpoint insert_by (k : string) (r : gmap string value)
    (sorted : list (gmap string value)) : list (gmap string value) :=
  match sorted with
  | [] => [r]
  | r' :: rest =>
      if sorts_before (cell r k) (cell r' k) then r :: r' :: rest
      else r' :: insert_by k r rest
  end.

Definition sort_rows (k : string) (rs : list (gmap string value)) :
    list (gmap string value) :=
  foldl (λ sorted r, insert_by k r sorted) [] rs.

Definition sort_values
    (sort_kind : string → list (gmap string value) → list (gmap string value))
    (k : string) (df : DataFrame) : result DataFrame :=
  if has_column df k then Ok (mkDF (columns df) (sort_kind k (rows df)))
  else Raise (KeyError k).

(** [Series.rolling(window=w).mean()]: a position has a value once [w]
    observations are in its window and none of them is missing. *)
Definition rolling_mean (w : nat) (xs : list value) : list value :=
  (λ i, if bool_decide (i + 1 < w)%nat then NaN
        else let win := take w (drop (i + 1 - w) xs) in
             if forallb notna win then np_mean win else NaN)
  <$> seq 0 (length xs).

Record Trend : Type := mkTrend {
  direction : string;
  magnitude : value;
  recent_avg : value;
  historical_avg : value
}.

Definition metrics : list string :=
  ["bmi"; "systolic_bp"; "diastolic_bp"; "glucose_fasting"; "total_cholesterol"].

(** [Series.mean] of [detect_trends] adds and divides doubles, with
    their rounding, which decides a comparison of two means that are equal or
    nearly so.  It is a parameter, [series_mean], as is the sort. *)
Section Trends.
Variable sort_kind : string → list (gmap string value) → list (gmap string value).
Variable series_mean : list value → value.

(** The body of the loop over [metrics]; [data] is the sorted copy. *)
Definition trend_step (data : loc) (window : nat) (trends : gmap string Trend)
    (metric : string) : M (gmap string Trend) :=
  let* df := load data in
  if has_column df metric then
    (let* vs := read_column data metric in
     assign data (metric +:+ "_trend") (rolling_mean (min window (len df)) vs)) ;;
    let* df := load data in
    if bool_decide (2 ≤ len df)%nat then
      let* vs := read_column data metric in
      let recent_avg := series_mean (tail 5 vs) in
      let* vs' := read_column data metric in
      let historical_avg :=
        if bool_decide (10 ≤ len df)%nat then series_mean (head 5 vs')
        else series_mean vs' in
      let trend_direction :=
        if recent_avg >. historical_avg then "increasing" else "decreasing" in
      let trend_magnitude :=
        vmul (vdiv (vabs (vsub recent_avg historical_avg)) historical_avg) (num 100) in
      ret (<[metric := mkTrend trend_direction trend_magnitude recent_avg historical_avg]>
             trends)
    else ret trends
  else ret trends.

Definition detect_trends (data : loc) (window : nat) : M (gmap string Trend) :=
  let* df := load data in
  if empty df || bool_decide (len df < 2)%nat then ret ∅ else
  let* sorted := lift (sort_values sort_kind "date" df) in
  let* data := alloc sorted in
  let trends : gmap string Trend := ∅ in
  for_fold metrics trends (trend_step data window).

End Trends.

(** *** calculate_health_score

    One function per commented block of the source; each takes the running
    [score] and returns it updated. *)

Definition bmi_penalty (latest_data : Series) (score : Z) : Z :=
  let bmi := get latest_data "bmi" 25 in
  if bmi >. 30 then score - 20
  else if bmi >. 25 then score - 10
  else if bmi <. dec 185 10 then score - 15
  else score.

Definition blood_pressure_penalty (latest_data : Series) (score : Z) : Z :=
  let systolic := get latest_data "systolic_bp" 120 in
  let diastolic := get latest_data "diastolic_bp" 80 in
  if (systolic >. 140) || (diastolic >. 90) then score - 25
  else if (systolic >. 130) || (diastolic >. 80) then score - 15
  else score.

Definition glucose_penalty (latest_data : Series) (score : Z) : Z :=
  let glucose := get latest_data "glucose_fasting" 90 in
  if glucose >. 126 then score - 30
  else if glucose >. 100 then score - 15
  else score.

Definition cholesterol_penalty (latest_data : Series) (score : Z) : Z :=
  let total_chol := get latest_data "total_cholesterol" 200 in
  let hdl_chol := get latest_data "hdl_cholesterol" 50 in
  let score := if total_chol >. 240 then score - 15 else score in
  let score := if hdl_chol <. 40 then score - 10 else score in
  score.

Definition lifestyle (latest_data : Series) (score : Z) : Z :=
  let exercise := get latest_data "exercise_minutes_per_week" 150 in
  let score :=
    if exercise >=. 150 then score + 5
    else if exercise <. 75 then score - 10
    else score in
  let sleep := get latest_data "sleep_hours" 7 in
  let score :=
    if (sleep >=. 7) && (sleep <=. 8) then score + 5
    else if (sleep <. 6) || (sleep >. 9) then score - 10
    else score in
  let stress := get latest_data "stress_level" 5 in
  let score :=
    if stress <=. 3 then score + 5
    else if stress >=. 8 then score - 15
    else score in
  let smoking := get latest_data "smoking_status" 0 in
  let score := if smoking ==. 1 then score - 20 else score in
  score.

Definition calculate_health_score (data : loc) : M Z :=
  let* df := load data in
  if empty df then ret 0 else
  let* latest_data := lift (iloc_last df) in
  let score := 100 in
  let score := bmi_penalty latest_data score in
  let score := blood_pressure_penalty latest_data score in
  let score := glucose_penalty latest_data score in
  let score := cholesterol_penalty latest_data score in
  let score := lifestyle latest_data score in
  ret (Z.max 0 (Z.min 100 score)).

(** *** get_health_insights

    [format_1f] and [format_str] are Python's renderings of a number for
    [{x:.1f}] and [{x}]. *)

Record Insight : Type := mkInsight {
  insight_type : string;
  insight_message : string;
  insight_recommendation : string
}.

Section Insights.
Variables format_1f format_str : value → string.

Definition get_health_insights (data : DataFrame) : result (list Insight) :=
  if empty data then Ok [] else
  let insights := [] in
  let? latest_data := iloc_last data in
  let bmi := get latest_data "bmi" 25 in
  let insights :=
    if bmi >. 30 then
      insights ++
      [mkInsight "warning"
         ("Your BMI (" +:+ format_1f bmi
          +:+ ") indicates obesity. Consider consulting a healthcare provider.")
         "Focus on balanced diet and regular exercise."]
    else if bmi >. 25 then
      insights ++
      [mkInsight "info"
         ("Your BMI (" +:+ format_1f bmi +:+ ") indicates overweight status.")
         "Consider lifestyle modifications to reach healthy weight."]
    else insights in
  let systolic := get latest_data "systolic_bp" 120 in
  let diastolic := get latest_data "diastolic_bp" 80 in
  let insights :=
    if (systolic >. 140) || (diastolic >. 90) then
      insights ++
      [mkInsight "warning"
         ("Your blood pressure (" +:+ format_str systolic +:+ "/"
          +:+ format_str diastolic +:+ ") is in hypertensive range.")
         "Consult healthcare provider immediately."]
    else if (systolic >. 130) || (diastolic >. 80) then
      insights ++
      [mkInsight "info"
         ("Your blood pressure (" +:+ format_str systolic +:+ "/"
          +:+ format_str diastolic +:+ ") is elevated.")
         "Monitor closely and consider lifestyle changes."]
    else insights in
  let glucose := get latest_data "glucose_fasting" 90 in
  let insights :=
    if glucose >. 126 then
      insights ++
      [mkInsight "warning"
         ("Your fasting glucose (" +:+ format_str glucose
          +:+ " mg/dL) is in diabetic range.")
         "Consult healthcare provider for diabetes management."]
    else if glucose >. 100 then
      insights ++
      [mkInsight "info"
         ("Your fasting glucose (" +:+ format_str glucose
          +:+ " mg/dL) is in pre-diabetic range.")
         "Consider diet and exercise modifications."]
    else insights in
  Ok insights.

End Insights.

End DataProcessor.

(** The remaining engines only read the frame they are given; they are
    written as functions of its value. *)

Fixpoint concat_map_r {A B} (f : A → result (list B)) (xs : list A) : result (list B) :=
  match xs with
  | [] => Ok []
  | x :: rest =>
      let? ys := f x in
      let? zs := concat_map_r f rest in
      Ok (ys ++ zs)
  end.

(** ** models/risk_models.py *)

Module RiskAssessmentModel.
Section Classifier.

(** The scaler and the fitted forest of a condition (sklearn), applied to a
    feature row: the positive-class probability, or [None] when the call
    raises. *)
Variable predict_proba : string → list value → option value.

Definition feature_columns : list string :=
  ["age"; "bmi"; "systolic_bp"; "diastolic_bp"; "glucose_fasting";
   "total_cholesterol"; "hdl_cholesterol"; "ldl_cholesterol"; "triglycerides";
   "waist_circumference"; "exercise_minutes_per_week"; "sleep_hours";
   "stress_level"; "smoking_status"; "alcohol_consumption"].

(** The keys of [self.models], in insertion order. *)
Definition conditions : list string :=
  ["pre_diabetes"; "hypertension"; "metabolic_syndrome"].

Definition feature_defaults : list (string * value) :=
  [("age", num 40); ("bmi", num 25); ("systolic_bp", num 120);
   ("diastolic_bp", num 80); ("glucose_fasting", num 90);
   ("total_cholesterol", num 200); ("hdl_cholesterol", num 50);
   ("ldl_cholesterol", num 100); ("triglycerides", num 150);
   ("waist_circumference", num 80); ("exercise_minutes_per_week", num 150);
   ("sleep_hours", num 7); ("stress_level", num 5); ("smoking_status", num 0);
   ("alcohol_consumption", num 0)].

Definition dict_get {V} (d : list (string * V)) (k : string) (default : V) : V :=
  match list_find (λ kv, kv.1 = k) d with
  | Some (_, kv) => kv.2
  | None => default
  end.

Definition _prepare_features (data_row : Series) : list value :=
  (λ col, if contains data_row col then cell (cells data_row) col
          else dict_get feature_defaults col (num 0))
  <$> feature_columns.

Definition calculate_risk_scores (health_data : DataFrame) :
    result (list (string * value)) :=
  if empty health_data then
    Ok [("pre_diabetes", num 0); ("hypertension", num 0); ("metabolic_syndrome", num 0)]
  else
    let? data_row := iloc_last health_data in
    let features := _prepare_features data_row in
    Ok ((λ condition,
           (condition,
            match predict_proba condition features with
            | Some prob => prob
            | None => num 0
            end)) <$> conditions).

End Classifier.

(** *** analyze_risk_factors

    The labels written are pairwise distinct, so every assignment
    [risk_factors[label] = x] adds an entry at the end. *)
Definition analyze_risk_factors (health_data : DataFrame) : result (list (string * value)) :=
  if empty health_data then Ok [] else
  let? latest_data := iloc_last health_data in
  let risk_factors := [] in
  let bmi := get latest_data "bmi" 25 in
  let risk_factors :=
    if bmi >. 30 then risk_factors ++ [("Obesity", dec 8 10)]
    else if bmi >. 25 then risk_factors ++ [("Overweight", dec 5 10)]
    else risk_factors in
  let systolic := get latest_data "systolic_bp" 120 in
  let diastolic := get latest_data "diastolic_bp" 80 in
  let risk_factors :=
    if (systolic >. 140) || (diastolic >. 90) then
      risk_factors ++ [("High Blood Pressure", dec 9 10)]
    else if (systolic >. 130) || (diastolic >. 80) then
      risk_factors ++ [("Elevated Blood Pressure", dec 6 10)]
    else risk_factors in
  let glucose := get latest_data "glucose_fasting" 90 in
  let risk_factors :=
    if glucose >. 126 then risk_factors ++ [("High Glucose", dec 9 10)]
    else if glucose >. 100 then risk_factors ++ [("Elevated Glucose", dec 6 10)]
    else risk_factors in
  let total_chol := get latest_data "total_cholesterol" 200 in
  let hdl_chol := get latest_data "hdl_cholesterol" 50 in
  let risk_factors :=
    if total_chol >. 240 then risk_factors ++ [("High Cholesterol", dec 7 10)]
    else risk_factors in
  let risk_factors :=
    if hdl_chol <. 40 then risk_factors ++ [("Low HDL", dec 6 10)] else risk_factors in
  let exercise := get latest_data "exercise_minutes_per_week" 150 in
  let risk_factors :=
    if exercise <. 75 then risk_factors ++ [("Insufficient Exercise", dec 5 10)]
    else risk_factors in
  let smoking := get latest_data "smoking_status" 0 in
  let risk_factors :=
    if smoking ==. 1 then risk_factors ++ [("Smoking", dec 8 10)] else risk_factors in
  Ok risk_factors.

End RiskAssessmentModel.

(** ** utils/alerts.py *)

Module AlertSystem.

(** The keys of an alert besides severity, metric and recommendation. The
    message is a rendering of these fields as text and is left out; the
    coefficient of variation is a square root and is not carried. *)
Inductive details : Type :=
  | Reading (value threshold : value)
  | RapidChange (change threshold : value)
  | Change (change : value)
  | DaysSinceLast (days_since_last : value)
  | AverageGap (average_gap : value)
  | MissingMetrics (missing : list string)
  | Variability.

Record Alert : Type := mkAlert {
  severity : string;
  metric : string;
  recommendation : string;
  payload : details
}.

#[global] Instance details_eq_dec : EqDecision details.
Proof. solve_decision. Defined.
#[global] Instance Alert_eq_dec : EqDecision Alert.
Proof. solve_decision. Defined.

(** [_define_alert_thresholds]: three tables in insertion order. *)
Definition critical : list (string * value) :=
  [("systolic_bp", num 180); ("diastolic_bp", num 120); ("glucose_fasting", num 250);
   ("total_cholesterol", num 300); ("bmi", num 40); ("resting_heart_rate", num 120)].

Definition warning : list (string * value) :=
  [("systolic_bp", num 140); ("diastolic_bp", num 90); ("glucose_fasting", num 126);
   ("total_cholesterol", num 240); ("bmi", num 30); ("resting_heart_rate", num 100);
   ("hdl_cholesterol_low", num 40); ("triglycerides", num 200)].

Definition info : list (string * value) :=
  [("systolic_bp", num 130); ("diastolic_bp", num 80); ("glucose_fasting", num 100);
   ("total_cholesterol", num 200); ("bmi", num 25);
   ("exercise_minutes_per_week_low", num 150); ("sleep_hours_low", num 6);
   ("sleep_hours_high", num 9); ("stress_level_high", num 7)].

(** [_define_trend_thresholds]['rapid_increase'] *)
Definition rapid_increase : list (string * value) :=
  [("bmi", num 2); ("systolic_bp", num 20); ("glucose_fasting", num 30);
   ("total_cholesterol", num 50)].

(** [str.replace] for a non-empty pattern: occurrences are replaced from the
    left and do not overlap. [skip] counts the characters of a matched
    occurrence still to be dropped. *)
Fixpoint replace_from (old new s : string) (skip : nat) : string :=
  match s with
  | EmptyString => EmptyString
  | String c rest =>
      match skip with
      | S n => replace_from old new rest n
      | O =>
          if String.prefix old s
          then new +:+ replace_from old new rest (String.length old - 1)
          else String c (replace_from old new rest 0)
      end
  end.

Definition replace (old new s : string) : string := replace_from old new s 0.

(** *** _check_value_alerts *)

Definition _check_value_alerts (health_data : DataFrame) : result (list Alert) :=
  let? latest_data := iloc_last health_data in
  let alerts := [] in
  let alerts := alerts ++
    flat_map (λ mt,
      let metric := mt.1 in
      let threshold := mt.2 in
      if contains latest_data metric then
        let value := cell (cells latest_data) metric in
        if notna value && (value >=. threshold) then
          [mkAlert "Critical" metric "Seek immediate medical attention"
             (Reading value threshold)]
        else []
      else []) critical in
  let alerts := alerts ++
    flat_map (λ mt,
      let metric := mt.1 in
      let threshold := mt.2 in
      if contains latest_data metric then
        let value := cell (cells latest_data) metric in
        if notna value then
          if bool_decide (metric = "hdl_cholesterol_low") then
            if value <=. threshold then
              [mkAlert "Warning" "hdl_cholesterol"
                 "Consider lifestyle changes to increase HDL" (Reading value threshold)]
            else []
          else if value >=. threshold then
            [mkAlert "Warning" metric "Monitor closely and consider intervention"
               (Reading value threshold)]
          else []
        else []
      else []) warning in
  let alerts := alerts ++
    flat_map (λ mt,
      let metric := mt.1 in
      let threshold := mt.2 in
      if contains latest_data metric then
        let value := cell (cells latest_data) metric in
        if notna value then
          if bool_decide (metric ∈ ["exercise_minutes_per_week_low"; "sleep_hours_low"]) then
            if value <=. threshold then
              [mkAlert "Info" (replace "_low" "" metric)
                 "Consider increasing to meet recommended levels" (Reading value threshold)]
            else []
          else if bool_decide (metric = "sleep_hours_high") then
            if value >=. threshold then
              [mkAlert "Info" "sleep_hours"
                 "Excessive sleep may indicate underlying health issues"
                 (Reading value threshold)]
            else []
          else if bool_decide (metric = "stress_level_high") then
            if value >=. threshold then
              [mkAlert "Info" "stress_level" "Consider stress management techniques"
                 (Reading value threshold)]
            else []
          else if value >=. threshold then
            [mkAlert "Info" metric "Consider lifestyle modifications"
               (Reading value threshold)]
          else []
        else []
      else []) info in
  Ok alerts.

(** *** _check_trend_alerts *)

Definition first_value (vs : list value) : value := default NaN (vs !! 0%nat).
Definition last_value (vs : list value) : value := default NaN (list.last vs).

Definition _check_trend_alerts (health_data : DataFrame) : result (list Alert) :=
  if bool_decide (len health_data < 2)%nat then Ok [] else
  let? rapid :=
    concat_map_r (λ mt,
      let metric := mt.1 in
      let threshold := mt.2 in
      if has_column health_data metric then
        let? dates := column health_data "date" in
        let cutoff_date := vsub (smax dates) (num 30) in
        let recent_data := select (λ r, cell r "date" >. cutoff_date) health_data in
        if bool_decide (2 ≤ len recent_data)%nat then
          let? vs := column recent_data metric in
          let value_change := vsub (last_value vs) (first_value vs) in
          if value_change >=. threshold then
            Ok [mkAlert "Warning" metric
                  "Monitor closely and consider medical evaluation"
                  (RapidChange value_change threshold)]
          else Ok []
        else Ok []
      else Ok []) rapid_increase in
  let? exercise := column health_data "exercise_minutes_per_week" in
  let exercise_data := dropna exercise in
  let declining :=
    if bool_decide (2 ≤ length exercise_data)%nat then
      let recent_exercise := mean (tail 5 exercise_data) in
      let historical_exercise := mean (head 5 exercise_data) in
      if (historical_exercise >. 0)
         && (vdiv recent_exercise historical_exercise <. dec 5 10) then
        [mkAlert "Info" "exercise_minutes_per_week"
           "Consider factors affecting exercise routine and gradually increase activity"
           (Change (vsub recent_exercise historical_exercise))]
      else []
    else [] in
  Ok (rapid ++ declining).

(** *** _check_pattern_alerts; [now] is the reading of [datetime.now()] *)

Fixpoint gaps (dates : list value) : list value :=
  match dates with
  | d0 :: (d1 :: _) as rest => vdays (vsub d1 d0) :: gaps rest
  | _ => []
  end.

Definition required_metrics : list string :=
  ["systolic_bp"; "diastolic_bp"; "glucose_fasting"; "bmi"].

Definition all_missing (health_data : DataFrame) (metric : string) : bool :=
  negb (has_column health_data metric)
  || forallb (λ r, negb (notna (cell r metric))) (rows health_data).

Definition _check_pattern_alerts (now : value) (health_data : DataFrame) :
    result (list Alert) :=
  let alerts := [] in
  let? dates := column health_data "date" in
  let last_measurement := smax dates in
  let days_since_last := vdays (vsub now last_measurement) in
  let alerts :=
    if days_since_last >. 30 then
      alerts ++ [mkAlert "Info" "measurement_frequency"
                   "Regular monitoring is important for tracking progress"
                   (DaysSinceLast days_since_last)]
    else alerts in
  let? dates := column health_data "date" in
  let measurement_gaps := gaps dates in
  let alerts :=
    match measurement_gaps with
    | [] => alerts
    | _ =>
        let avg_gap := np_mean measurement_gaps in
        if avg_gap >. 14 then
          alerts ++ [mkAlert "Info" "measurement_consistency"
                       "Consider more frequent monitoring for better trend analysis"
                       (AverageGap avg_gap)]
        else alerts
    end in
  let missing_metrics := List.filter (all_missing health_data) required_metrics in
  let alerts :=
    match missing_metrics with
    | [] => alerts
    | _ =>
        alerts ++ [mkAlert "Info" "missing_metrics"
                     "Consider adding these metrics for comprehensive health monitoring"
                     (MissingMetrics missing_metrics)]
    end in
  Ok alerts.

(** *** _check_adherence_alerts

    [std / mean > t] for the sample standard deviation, decided without
    the square root: an infinite reading makes the deviation NaN. *)
Definition finite_values (vs : list value) : option (list Qc) :=
  mapM (λ v, match v with Fin q => Some q | _ => None end) vs.

Definition qsum (qs : list Qc) : Qc := foldl Qcplus 0%Qc qs.
Definition qmean (qs : list Qc) : Qc := (qsum qs / QZ (Z.of_nat (length qs)))%Qc.

Definition sample_variance (qs : list Qc) : Qc :=
  let m := qmean qs in
  (qsum ((λ x, (x - m) * (x - m)) <$> qs) / QZ (Z.of_nat (length qs) - 1))%Qc.

Definition cv_exceeds (vs : list value) (t : Qc) : bool :=
  match finite_values vs with
  | None => false
  | Some qs =>
      let m := qmean qs in
      let var := sample_variance qs in
      if bool_decide (0 < m)%Qc then bool_decide ((t * m) * (t * m) < var)%Qc
      else if bool_decide (m = 0%Qc) then bool_decide (0 < var)%Qc
      else false
  end.

Definition _check_adherence_alerts (health_data : DataFrame) : result (list Alert) :=
  if bool_decide (5 ≤ len health_data)%nat then
    let? systolic := column health_data "systolic_bp" in
    let? diastolic := column health_data "diastolic_bp" in
    let bp_measurements :=
      List.filter (λ sd, notna sd.1 && notna sd.2) (zip systolic diastolic) in
    if bool_decide (5 ≤ length bp_measurements)%nat then
      if cv_exceeds (bp_measurements.*1) (QF 2 10) then
        Ok [mkAlert "Info" "bp_variability"
              "Ensure consistent measurement conditions and medication adherence"
              Variability]
      else Ok []
    else Ok []
  else Ok [].

(** *** check_alerts *)

Definition severity_order (s : string) : nat :=
  if bool_decide (s = "Critical") then 0
  else if bool_decide (s = "Warning") then 1
  else if bool_decide (s = "Info") then 2
  else 3.

(** [list.sort(key=...)] is stable. *)
Fixpoint insert_alert (a : Alert) (sorted : list Alert) : list Alert :=
  match sorted with
  | [] => [a]
  | b :: rest =>
      if bool_decide (severity_order (severity a) < severity_order (severity b))%nat
      then a :: b :: rest
      else b :: insert_alert a rest
  end.

Definition sort_alerts (alerts : list Alert) : list Alert :=
  foldl (λ sorted a, insert_alert a sorted) [] alerts.

Definition check_alerts (now : value) (health_data : DataFrame) : result (list Alert) :=
  let alerts := [] in
  if empty health_data then Ok alerts else
  let? value_alerts := _check_value_alerts health_data in
  let alerts := alerts ++ value_alerts in
  let? trend_alerts := _check_trend_alerts health_data in
  let alerts := alerts ++ trend_alerts in
  let? pattern_alerts := _check_pattern_alerts now health_data in
  let alerts := alerts ++ pattern_alerts in
  let? adherence_alerts := _check_adherence_alerts health_data in
  let alerts := alerts ++ adherence_alerts in
  Ok (sort_alerts alerts).

(** *** get_alert_summary *)

Record Summary : Type := mkSummary {
  total_alerts : nat;
  critical_alerts : nat;
  warning_alerts : nat;
  info_alerts : nat;
  most_recent : option Alert
}.

Definition count_severity (s : string) (alerts : list Alert) : nat :=
  length (List.filter (λ a, bool_decide (severity a = s)) alerts).

Definition get_alert_summary (now : value) (health_data : DataFrame) : result Summary :=
  let? alerts := check_alerts now health_data in
  Ok {| total_alerts := length alerts;
        critical_alerts := count_severity "Critical" alerts;
        warning_alerts := count_severity "Warning" alerts;
        info_alerts := count_severity "Info" alerts;
        most_recent := match alerts with a :: _ => Some a | [] => None end |}.

(** *** get_alert_recommendations *)

Record Recommendation : Type := mkRecommendation {
  rec_priority : string;
  rec_metric : string;
  rec_text : string
}.

(** [if metric not in d: d[metric] = []] followed by [d[metric].append(alert)]
    on a dictionary in insertion order. *)
Fixpoint group_append (metric : string) (alert : Alert)
    (metric_alerts : list (string * list Alert)) : list (string * list Alert) :=
  match metric_alerts with
  | [] => [(metric, [alert])]
  | (m, alerts_list) :: rest =>
      if bool_decide (m = metric) then (m, alerts_list ++ [alert]) :: rest
      else (m, alerts_list) :: group_append metric alert rest
  end.

Definition group_by_metric (alerts : list Alert) : list (string * list Alert) :=
  foldl (λ metric_alerts alert, group_append (metric alert) alert metric_alerts) [] alerts.

Definition get_alert_recommendations (alerts : list Alert) : list Recommendation :=
  let metric_alerts := group_by_metric alerts in
  flat_map (λ ma,
    let metric := ma.1 in
    let alerts_list := ma.2 in
    if bool_decide (1 < length alerts_list)%nat then
      let severity_levels := severity <$> alerts_list in
      if bool_decide ("Critical" ∈ severity_levels) then
        [mkRecommendation "Critical" metric
           ("Immediate medical attention required for " +:+ replace "_" " " metric)]
      else if bool_decide ("Warning" ∈ severity_levels) then
        [mkRecommendation "High" metric
           ("Monitor " +:+ replace "_" " " metric
            +:+ " closely and consider intervention")]
      else []
    else
      match alerts_list with
      | alert :: _ =>
          [mkRecommendation (severity alert) metric (recommendation alert)]
      | [] => []
      end) metric_alerts.

End AlertSystem.

(** ** components/intervention_engine.py *)

Module InterventionEngine.

Record Intervention : Type := mkIntervention {
  title : string;
  priority : string;
  evidence_level : string;
  description : string;
  expected_outcome : string;
  action_steps : list string;
  target_conditions : list string;
  duration : string;
  personalized_note : option string
}.

#[global] Instance Intervention_eq_dec : EqDecision Intervention.
Proof. solve_decision. Defined.

(** The entries of the catalog, one list per category. *)
Definition dietary_interventions : list Intervention :=
  [{| title := "Mediterranean Diet Adoption";
     priority := "High";
     evidence_level := "Strong";
     description :=
       "Adopt a Mediterranean-style diet rich in fruits, vegetables, whole grains, lean proteins, and healthy fats.";
     expected_outcome :=
       "Reduce cardiovascular risk by 20-30%, improve insulin sensitivity";
     action_steps :=
      ["Increase olive oil consumption to 2-3 tablespoons daily";
       "Eat fish 2-3 times per week";
       "Consume 5-7 servings of fruits and vegetables daily";
       "Choose whole grains over refined carbohydrates";
       "Include nuts and seeds in daily diet"];
     target_conditions := ["pre_diabetes"; "hypertension"; "metabolic_syndrome"];
     duration := "3-6 months";
     personalized_note := None |};
   {| title := "DASH Diet Implementation";
     priority := "High";
     evidence_level := "Strong";
     description :=
       "Follow Dietary Approaches to Stop Hypertension (DASH) diet to reduce blood pressure.";
     expected_outcome :=
       "Reduce systolic BP by 8-14 mmHg";
     action_steps :=
      ["Limit sodium intake to less than 2,300mg daily";
       "Increase potassium-rich foods (bananas, spinach, beans)";
       "Consume 4-5 servings of fruits and vegetables daily";
       "Choose low-fat dairy products";
       "Limit red meat and processed foods"];
     target_conditions := ["hypertension"];
     duration := "2-4 weeks to see initial results";
     personalized_note := None |};
   {| title := "Carbohydrate Counting";
     priority := "Medium";
     evidence_level := "Moderate";
     description :=
       "Learn to count carbohydrates to better manage blood glucose levels.";
     expected_outcome :=
       "Improve glucose control and reduce HbA1c by 0.5-1%";
     action_steps :=
      ["Track carbohydrate intake for 2 weeks";
       "Aim for 45-60g carbs per meal";
       "Choose complex carbohydrates over simple sugars";
       "Use measuring cups and food scales initially";
       "Keep a food diary"];
     target_conditions := ["pre_diabetes"];
     duration := "4-8 weeks";
     personalized_note := None |}].

Definition exercise_interventions : list Intervention :=
  [{| title := "Progressive Aerobic Exercise Program";
     priority := "High";
     evidence_level := "Strong";
     description :=
       "Structured aerobic exercise program starting with low intensity and gradually increasing.";
     expected_outcome :=
       "Reduce cardiovascular risk, improve insulin sensitivity, lower blood pressure";
     action_steps :=
      ["Start with 10-15 minutes of walking daily";
       "Gradually increase to 30 minutes, 5 days per week";
       "Include activities like swimming, cycling, or dancing";
       "Monitor heart rate during exercise";
       "Track progress weekly"];
     target_conditions := ["pre_diabetes"; "hypertension"; "metabolic_syndrome"];
     duration := "8-12 weeks";
     personalized_note := None |};
   {| title := "Resistance Training Program";
     priority := "Medium";
     evidence_level := "Moderate";
     description :=
       "Add resistance training to improve muscle mass and metabolic health.";
     expected_outcome :=
       "Increase muscle mass, improve glucose metabolism, enhance bone density";
     action_steps :=
      ["Perform resistance exercises 2-3 times per week";
       "Start with bodyweight exercises (push-ups, squats)";
       "Progress to light weights or resistance bands";
       "Focus on major muscle groups";
       "Allow 48 hours rest between sessions"];
     target_conditions := ["pre_diabetes"; "metabolic_syndrome"];
     duration := "6-8 weeks";
     personalized_note := None |};
   {| title := "High-Intensity Interval Training (HIIT)";
     priority := "Medium";
     evidence_level := "Moderate";
     description :=
       "Short bursts of high-intensity exercise followed by recovery periods.";
     expected_outcome :=
       "Improve cardiovascular fitness, enhance insulin sensitivity";
     action_steps :=
      ["Start with 2-3 HIIT sessions per week";
       "Alternate 30 seconds high intensity with 90 seconds recovery";
       "Total session duration: 15-20 minutes";
       "Include exercises like burpees, mountain climbers, jumping jacks";
       "Gradually increase intensity and duration"];
     target_conditions := ["pre_diabetes"; "metabolic_syndrome"];
     duration := "4-6 weeks";
     personalized_note := None |}].

Definition lifestyle_interventions : list Intervention :=
  [{| title := "Stress Management Program";
     priority := "High";
     evidence_level := "Moderate";
     description :=
       "Implement stress reduction techniques to improve overall health outcomes.";
     expected_outcome :=
       "Reduce cortisol levels, improve sleep quality, lower blood pressure";
     action_steps :=
      ["Practice mindfulness meditation 10-15 minutes daily";
       "Try deep breathing exercises during stressful moments";
       "Engage in relaxing activities (yoga, tai chi, reading)";
       "Maintain social connections and support networks";
       "Consider professional counseling if needed"];
     target_conditions := ["hypertension"; "metabolic_syndrome"];
     duration := "6-8 weeks";
     personalized_note := None |};
   {| title := "Sleep Hygiene Improvement";
     priority := "Medium";
     evidence_level := "Moderate";
     description :=
       "Optimize sleep quality and duration to support metabolic health.";
     expected_outcome :=
       "Improve insulin sensitivity, reduce appetite hormones, lower stress";
     action_steps :=
      ["Maintain consistent sleep schedule (7-9 hours nightly)";
       "Create a relaxing bedtime routine";
       "Limit screen time 1 hour before bed";
       "Keep bedroom cool, dark, and quiet";
       "Avoid caffeine and large meals before bedtime"];
     target_conditions := ["pre_diabetes"; "metabolic_syndrome"];
     duration := "2-4 weeks";
     personalized_note := None |};
   {| title := "Smoking Cessation Program";
     priority := "Critical";
     evidence_level := "Strong";
     description :=
       "Comprehensive smoking cessation program with behavioral and pharmacological support.";
     expected_outcome :=
       "Dramatically reduce cardiovascular risk, improve lung function";
     action_steps :=
      ["Set a quit date within 2 weeks";
       "Remove smoking triggers from environment";
       "Consider nicotine replacement therapy";
       "Join a smoking cessation support group";
       "Develop alternative coping strategies"];
     target_conditions := ["hypertension"; "metabolic_syndrome"];
     duration := "12-16 weeks";
     personalized_note := None |}].

Definition monitoring_interventions : list Intervention :=
  [{| title := "Home Blood Pressure Monitoring";
     priority := "High";
     evidence_level := "Strong";
     description :=
       "Regular home blood pressure monitoring to track hypertension management.";
     expected_outcome :=
       "Better blood pressure control, early detection of changes";
     action_steps :=
      ["Measure blood pressure twice daily at same times";
       "Use validated home blood pressure monitor";
       "Record readings in log or app";
       "Report concerning readings to healthcare provider";
       "Bring logs to medical appointments"];
     target_conditions := ["hypertension"];
     duration := "Ongoing";
     personalized_note := None |};
   {| title := "Glucose Self-Monitoring";
     priority := "Medium";
     evidence_level := "Moderate";
     description :=
       "Regular blood glucose monitoring to track diabetes prevention efforts.";
     expected_outcome :=
       "Better glucose control awareness, early intervention";
     action_steps :=
      ["Check fasting glucose 2-3 times per week";
       "Monitor post-meal glucose occasionally";
       "Track patterns in glucose readings";
       "Correlate readings with diet and exercise";
       "Share data with healthcare provider"];
     target_conditions := ["pre_diabetes"];
     duration := "Ongoing";
     personalized_note := None |};
   {| title := "Weight Management Tracking";
     priority := "Medium";
     evidence_level := "Moderate";
     description :=
       "Regular weight monitoring and body composition tracking.";
     expected_outcome :=
       "Maintain healthy weight, track progress";
     action_steps :=
      ["Weigh yourself weekly at same time of day";
       "Measure waist circumference monthly";
       "Track BMI changes over time";
       "Monitor clothing fit as additional indicator";
       "Set realistic weight loss goals (1-2 lbs/week)"];
     target_conditions := ["pre_diabetes"; "metabolic_syndrome"];
     duration := "Ongoing";
     personalized_note := None |}].

(** [_build_intervention_library]: the four categories, in source order. *)
Definition intervention_library : list (string * list Intervention) :=
  [("dietary_interventions", dietary_interventions);
   ("exercise_interventions", exercise_interventions);
   ("lifestyle_interventions", lifestyle_interventions);
   ("monitoring_interventions", monitoring_interventions)].

(** [d[category].append(e)] on a dictionary of lists. *)
Fixpoint append_to (category : string) (e : Intervention)
    (d : list (string * list Intervention)) : result (list (string * list Intervention)) :=
  match d with
  | [] => Raise (KeyError category)
  | (c, entries) :: rest =>
      if bool_decide (c = category) then Ok ((c, entries ++ [e]) :: rest)
      else let? rest' := append_to category e rest in Ok ((c, entries) :: rest')
  end.

Definition join (sep : string) (xs : list string) : string := String.concat sep xs.

Definition with_priority (p : string) (i : Intervention) : Intervention :=
  mkIntervention (title i) p (evidence_level i) (description i) (expected_outcome i)
    (action_steps i) (target_conditions i) (duration i) (personalized_note i).

Definition with_note (n : string) (i : Intervention) : Intervention :=
  mkIntervention (title i) (priority i) (evidence_level i) (description i)
    (expected_outcome i) (action_steps i) (target_conditions i) (duration i) (Some n).

Section Formatting.

(** Python's rendering of a number in an f-string: [format_1f] for
    [{x:.1f}], [format_str] for [{x}]. *)
Variables format_1f format_str : value → string.

Definition _add_specific_recommendations
    (interventions : list (string * list Intervention)) (latest_data : Series) :
    result (list (string * list Intervention)) :=
  let bmi := get latest_data "bmi" 25 in
  let? interventions :=
    if bmi >. 30 then
      append_to "dietary_interventions"
        {| title := "Calorie Restriction for Weight Loss";
           priority := "High";
           evidence_level := "Strong";
           description :=
             "Implement moderate calorie restriction to achieve healthy weight loss.";
           expected_outcome := "Lose 1-2 pounds per week, improve metabolic health";
           action_steps :=
             ["Reduce daily calorie intake by 500-750 calories";
              "Focus on portion control";
              "Use smaller plates and bowls";
              "Eat slowly and mindfully";
              "Track food intake with app or journal"];
           target_conditions := ["pre_diabetes"; "metabolic_syndrome"];
           duration := "3-6 months";
           personalized_note := Some ("Recommended due to BMI of " +:+ format_1f bmi) |}
        interventions
    else Ok interventions in
  let systolic_bp := get latest_data "systolic_bp" 120 in
  let? interventions :=
    if systolic_bp >. 130 then
      append_to "lifestyle_interventions"
        {| title := "Sodium Reduction Protocol";
           priority := "High";
           evidence_level := "Strong";
           description := "Aggressive sodium reduction to lower blood pressure.";
           expected_outcome := "Reduce systolic BP by 2-8 mmHg";
           action_steps :=
             ["Limit sodium to less than 1,500mg daily";
              "Read nutrition labels carefully";
              "Cook meals at home more often";
              "Use herbs and spices instead of salt";
              "Avoid processed and restaurant foods"];
           target_conditions := ["hypertension"];
           duration := "2-4 weeks";
           personalized_note :=
             Some ("Recommended due to systolic BP of " +:+ format_str systolic_bp
                   +:+ " mmHg") |}
        interventions
    else Ok interventions in
  let glucose := get latest_data "glucose_fasting" 90 in
  let? interventions :=
    if glucose >. 100 then
      append_to "dietary_interventions"
        {| title := "Glycemic Index Management";
           priority := "High";
           evidence_level := "Moderate";
           description := "Focus on low glycemic index foods to improve glucose control.";
           expected_outcome := "Stabilize blood glucose levels, reduce post-meal spikes";
           action_steps :=
             ["Choose foods with GI less than 55";
              "Pair carbohydrates with protein or healthy fats";
              "Avoid high-GI foods (white bread, sugary drinks)";
              "Eat regular, smaller meals throughout the day";
              "Monitor blood glucose response to different foods"];
           target_conditions := ["pre_diabetes"];
           duration := "4-6 weeks";
           personalized_note :=
             Some ("Recommended due to fasting glucose of " +:+ format_str glucose
                   +:+ " mg/dL") |}
        interventions
    else Ok interventions in
  let exercise_minutes := get latest_data "exercise_minutes_per_week" 150 in
  let? interventions :=
    if exercise_minutes <. 150 then
      append_to "exercise_interventions"
        {| title := "Physical Activity Increase Plan";
           priority := "High";
           evidence_level := "Strong";
           description :=
             "Gradual increase in physical activity to meet recommended guidelines.";
           expected_outcome := "Improve cardiovascular health, enhance insulin sensitivity";
           action_steps :=
             ["Increase weekly exercise from " +:+ format_str exercise_minutes
                +:+ " to 150 minutes";
              "Add 10-15 minutes of activity every week";
              "Include activities you enjoy (dancing, hiking, sports)";
              "Use fitness tracker or app to monitor progress";
              "Find exercise buddy for accountability"];
           target_conditions := ["pre_diabetes"; "hypertension"; "metabolic_syndrome"];
           duration := "6-8 weeks";
           personalized_note :=
             Some ("Current activity level: " +:+ format_str exercise_minutes
                   +:+ " minutes/week") |}
        interventions
    else Ok interventions in
  Ok interventions.

(** The body of the loop over the entries of one category: the entries it
    appends for [intervention]. *)
Definition personalize (high_risk_conditions medium_risk_conditions : list string)
    (intervention : Intervention) : list Intervention :=
  let target_conditions := target_conditions intervention in
  if existsb (λ condition, bool_decide (condition ∈ high_risk_conditions))
       target_conditions then
    let intervention_copy := intervention in
    let intervention_copy := with_priority "Critical" intervention_copy in
    let intervention_copy :=
      with_note ("High priority due to elevated risk in "
                 +:+ join ", " high_risk_conditions) intervention_copy in
    [intervention_copy]
  else if existsb (λ condition, bool_decide (condition ∈ medium_risk_conditions))
            target_conditions then
    let intervention_copy := intervention in
    let intervention_copy :=
      with_note ("Recommended due to moderate risk in "
                 +:+ join ", " medium_risk_conditions) intervention_copy in
    [intervention_copy]
  else if bool_decide (priority intervention ∈ ["High"; "Critical"]) then
    let intervention_copy := intervention in
    let intervention_copy := with_note "General health maintenance" intervention_copy in
    [intervention_copy]
  else [].

(** [risk_scores] is a dictionary in insertion order. *)
Definition get_interventions (health_data : DataFrame)
    (risk_scores : list (string * value)) :
    result (list (string * list Intervention)) :=
  if empty health_data then Ok [] else
  let? latest_data := iloc_last health_data in
  let high_risk_conditions :=
    (List.filter (λ cs, cs.2 >. dec 7 10) risk_scores).*1 in
  let medium_risk_conditions :=
    (List.filter (λ cs, (dec 4 10 <. cs.2) && (cs.2 <=. dec 7 10)) risk_scores).*1 in
  let personalized_interventions :=
    (λ ci, (ci.1, flat_map (personalize high_risk_conditions medium_risk_conditions) ci.2))
    <$> intervention_library in
  _add_specific_recommendations personalized_interventions latest_data.

End Formatting.

(** *** get_intervention_progress_template; [now] reads the clock *)

Record WeeklyGoal : Type := mkWeeklyGoal {
  week : nat;
  goal : string;
  completed : bool
}.

Record ProgressTemplate : Type := mkProgressTemplate {
  intervention_title : string;
  start_date : value;
  target_duration : string;
  progress_metrics : list string;
  weekly_goals : list WeeklyGoal;
  completion_status : string
}.

Definition category_metrics : list (string * list string) :=
  [("dietary_interventions",
    ["weight"; "waist_circumference"; "glucose_fasting"; "cholesterol"]);
   ("exercise_interventions",
    ["exercise_minutes_per_week"; "resting_heart_rate"; "weight"; "bmi"]);
   ("lifestyle_interventions",
    ["sleep_hours"; "stress_level"; "systolic_bp"; "diastolic_bp"]);
   ("monitoring_interventions", ["measurement_frequency"; "target_range_adherence"])].

Definition lookup_metrics (category : string) (default : list string) : list string :=
  match list_find (λ cm, cm.1 = category) category_metrics with
  | Some (_, cm) => cm.2
  | None => default
  end.

(** The first category, in catalog order, one of whose entries equals
    [intervention] key for key. *)
Fixpoint find_category (intervention : Intervention)
    (library : list (string * list Intervention)) : option string :=
  match library with
  | [] => None
  | (category, interventions) :: rest =>
      if bool_decide (intervention ∈ interventions) then Some category
      else find_category intervention rest
  end.

Definition _get_progress_metrics (intervention : Intervention) : list string :=
  match find_category intervention intervention_library with
  | Some category => lookup_metrics category ["weight"; "bmi"]
  | None => ["weight"; "bmi"]
  end.

Definition _get_weekly_goals (intervention : Intervention) : list WeeklyGoal :=
  imap (λ i step, mkWeeklyGoal (i + 1) step false) (take 4 (action_steps intervention)).

Definition get_intervention_progress_template (now : value)
    (intervention : Intervention) : ProgressTemplate :=
  {| intervention_title := title intervention;
     start_date := now;
     target_duration := duration intervention;
     progress_metrics := _get_progress_metrics intervention;
     weekly_goals := _get_weekly_goals intervention;
     completion_status := "Not Started" |}.

End InterventionEngine.

(** ** data/health_data.py

    The manager holds the history in memory and rewrites a file after every
    change.  The operations are functions of the history they find and
    return what they leave; writing the file is [save], which answers whether
    it succeeded. *)

Module HealthDataManager.

(** [pd.DataFrame()] *)
Definition no_data : DataFrame := mkDF ∅ [].

(** The cells of a row that belong to the columns of its frame. *)
Definition restrict (cols : gset string) (r : gmap string value) : gmap string value :=
  filter (λ kv, kv.1 ∈ cols) r.

(** [pd.concat([a, b], ignore_index=True)]: the union of the columns, the
    rows of [a] followed by those of [b]. *)
Definition concat (a b : DataFrame) : DataFrame :=
  mkDF (columns a ∪ columns b)
    ((restrict (columns a) <$> rows a) ++ (restrict (columns b) <$> rows b)).

(** [df.at[index, k] = v]: a label that is no column yet becomes one,
    missing in the other rows. *)
Definition set_at (index : nat) (k : string) (v : value) (df : DataFrame) : DataFrame :=
  mkDF ({[k]} ∪ columns df)
    (imap (λ j r, if bool_decide (j = index) then <[k:=v]> r
                  else if bool_decide (k ∈ columns df) then r else delete k r)
       (rows df)).

Section Storage.
Variable save : DataFrame → bool.
Variable sort_kind : string → list (gmap string value) → list (gmap string value).

(** The answer, the history left behind, and the caller's dictionary,
    which receives the date when it had none. *)
Definition add_health_data (now : value) (data : gmap string value)
    (health_data : DataFrame) : bool * DataFrame * gmap string value :=
  let data := if bool_decide ("date" ∈ dom data) then data else <["date" := now]> data in
  let new_row := mkDF (dom data) [data] in
  let health_data :=
    if empty health_data then new_row else concat health_data new_row in
  match DataProcessor.sort_values sort_kind "date" health_data with
  | Ok sorted => (save sorted, sorted, data)
  | Raise _ => (false, health_data, data)
  end.

Definition get_latest_data (health_data : DataFrame) : DataFrame :=
  if empty health_data then no_data
  else mkDF (columns health_data) (tail 1 (rows health_data)).

(** [df.at[index, key] = value] raises when pandas refuses the value for
    the column (a value that the column's dtype cannot hold); whether it
    does is the library's decision, [accepts].  The loop over
    [data.items()] writes into the history itself, so the writes made before
    a refused one stay; the [except] then answers False without saving. *)
Variable accepts : DataFrame → nat → string → value → bool.

Fixpoint write_items (index : nat) (data : list (string * value))
    (health_data : DataFrame) : bool * DataFrame :=
  match data with
  | [] => (true, health_data)
  | (key, value) :: rest =>
      if accepts health_data index key value
      then write_items index rest (set_at index key value health_data)
      else (false, health_data)
  end.

Definition update_health_data (index : Z) (data : list (string * value))
    (health_data : DataFrame) : bool * DataFrame :=
  if (index <? 0) || (Z.of_nat (len health_data) <=? index) then (false, health_data)
  else
    match write_items (Z.to_nat index) data health_data with
    | (true, health_data) => (save health_data, health_data)
    | (false, health_data) => (false, health_data)
    end.

Definition delete_health_data (index : Z) (health_data : DataFrame) : bool * DataFrame :=
  if (index <? 0) || (Z.of_nat (len health_data) <=? index) then (false, health_data)
  else
    let health_data :=
      mkDF (columns health_data) (delete (Z.to_nat index) (rows health_data)) in
    (save health_data, health_data).

End Storage.

(** *** update_intervention_progress

    A tracked intervention is a dictionary; only its "title" is read, and a
    dictionary without one raises a KeyError that the function answers with
    False. *)
Section Tracking.
Context {T : Type} (title_of : T → option string) (save_interventions : list T → bool).

(** The loop over [enumerate(self.active_interventions)]: the list after
    the first assignment, or [None] when the loop ends or raises without
    one. *)
Fixpoint replace_first_titled (intervention : T) (active : list T) : option (list T) :=
  match active with
  | [] => None
  | active_intervention :: rest =>
      match title_of active_intervention, title_of intervention with
      | Some t, Some t' =>
          if bool_decide (t = t') then Some (intervention :: rest)
          else (active_intervention ::.) <$> replace_first_titled intervention rest
      | _, _ => None
      end
  end.

Definition update_intervention_progress (intervention : T) (active : list T) :
    bool * list T :=
  match replace_first_titled intervention active with
  | Some active' => (save_interventions active', active')
  | None => (false, active)
  end.

End Tracking.
End HealthDataManager.

(** ** components/progress_tracker.py: the progress insights *)

Module ProgressTracker.

Record ProgressInsight : Type := mkProgressInsight {
  kind : string;
  heading : string;
  text : string;
  advice : string
}.

Definition watched : list string := ["bmi"; "systolic_bp"; "diastolic_bp"; "glucose_fasting"].

(** [trends.items()] lists the tracked metrics in the order in which
    [detect_trends] wrote them, the order of [DataProcessor.metrics]. *)
Definition items (trends : gmap string DataProcessor.Trend) :
    list (string * DataProcessor.Trend) :=
  omap (λ m, (m,.) <$> trends !! m) DataProcessor.metrics.

Definition with_direction (d : string) (trends : gmap string DataProcessor.Trend) :
    list string :=
  (List.filter (λ mt, bool_decide (DataProcessor.direction mt.2 = d)
                      && bool_decide (mt.1 ∈ watched)) (items trends)).*1.

Section Progress.
Variable sort_kind : string → list (gmap string value) → list (gmap string value).
Variable series_mean : list value → value.

(** [_display_progress_insights]: the insights it goes on to display. *)
Definition progress_insights (all_data : loc) : M (list ProgressInsight) :=
  let* df := load all_data in
  if bool_decide (len df < 3)%nat then ret [] else
  let* trends := DataProcessor.detect_trends sort_kind series_mean all_data 30 in
  let insights := [] in
  let improving_metrics := with_direction "decreasing" trends in
  let insights :=
    match improving_metrics with
    | [] => insights
    | _ =>
        insights ++
        [mkProgressInsight "success" "Improving Trends"
           ("Great progress! Your " +:+ InterventionEngine.join ", " improving_metrics
            +:+ " are trending in the right direction.")
           "Keep up the good work with your current interventions."]
    end in
  let worsening_metrics := with_direction "increasing" trends in
  let insights :=
    match worsening_metrics with
    | [] => insights
    | _ =>
        insights ++
        [mkProgressInsight "warning" "Areas of Concern"
           ("Your " +:+ InterventionEngine.join ", " worsening_metrics
            +:+ " are trending upward.")
           "Consider reviewing your current interventions and consulting with a healthcare provider."]
    end in
  ret insights.

End Progress.

End ProgressTracker.

(** * Properties *)

(** ** Order reasoning on values *)

Ltac qc_order :=
  unfold Qclt, Qcle, QZ, QF in *; cbn [this Q2Qc] in *;
  repeat match goal with
  | H : context [Qred ?q] |- _ =>
      let q' := eval vm_compute in (Qred q) in change (Qred q) with q' in H
  | |- context [Qred ?q] =>
      let q' := eval vm_compute in (Qred q) in change (Qred q) with q'
  end;
  lra.

Ltac cmp_cases :=
  unfold vgt, vge, vlt, vle, dec, num in *;
  repeat case_bool_decide; simpl in *; try discriminate; try lia.

(** ** Reading a frame from the store *)

Lemma load_ok (h : heap) (l : loc) (df : DataFrame) :
  h !! l = Some df → load l h = (Ok df, h).
Proof. intros H. unfold load. by rewrite H. Qed.

Lemma empty_false_last (df : DataFrame) :
  empty df = false → ∃ r rs, rows df = rs ++ [r] ∧ iloc_last df = Ok (mkSeries (columns df) r).
Proof.
  unfold empty, iloc_last. intros H.
  apply orb_false_iff in H as [_ H]. apply bool_decide_eq_false in H.
  destruct (rows df) as [|r0 rs0 _] using rev_ind; [done|].
  exists r0, rs0. by rewrite last_snoc.
Qed.

(** ** Reading the latest record *)

Section Latest.
Context (cols : gset string) (r : gmap string value) (k : string) (x : value).

Lemma get_written (d : value) :
  get (mkSeries ({[k]} ∪ cols) (<[k:=x]> r)) k d = x.
Proof.
  unfold get, contains, cell; simpl.
  rewrite bool_decide_eq_true_2 by set_solver.
  by rewrite lookup_insert_eq.
Qed.

Lemma get_other (k' : string) (d : value) :
  k' ≠ k →
  get (mkSeries ({[k]} ∪ cols) (<[k:=x]> r)) k' d = get (mkSeries cols r) k' d.
Proof.
  intros Hne. unfold get, contains, cell; simpl.
  rewrite lookup_insert_ne by done.
  destruct (decide (k' ∈ cols)).
  - rewrite !bool_decide_eq_true_2 by set_solver. done.
  - rewrite !bool_decide_eq_false_2 by set_solver. done.
Qed.
End Latest.

Import DataProcessor.

(** ** The health score *)

Definition clamp (score : Z) : Z := Z.max 0 (Z.min 100 score).

Lemma bmi_penalty_shift s score : bmi_penalty s score = score + bmi_penalty s 0.
Proof. unfold bmi_penalty. repeat case_match; lia. Qed.

Lemma blood_pressure_penalty_shift s score :
  blood_pressure_penalty s score = score + blood_pressure_penalty s 0.
Proof. unfold blood_pressure_penalty. repeat case_match; lia. Qed.

Lemma glucose_penalty_shift s score : glucose_penalty s score = score + glucose_penalty s 0.
Proof. unfold glucose_penalty. repeat case_match; lia. Qed.

Lemma cholesterol_penalty_shift s score :
  cholesterol_penalty s score = score + cholesterol_penalty s 0.
Proof. unfold cholesterol_penalty. repeat case_match; lia. Qed.

Lemma lifestyle_shift s score : lifestyle s score = score + lifestyle s 0.
Proof. unfold lifestyle. repeat case_match; lia. Qed.

(** The sum of the bonuses and penalties of one record. *)
Definition adjustments (s : Series) : Z :=
  bmi_penalty s 0 + blood_pressure_penalty s 0 + glucose_penalty s 0
  + cholesterol_penalty s 0 + lifestyle s 0.

Lemma calculate_health_score_latest (h : heap) (data : loc) (df : DataFrame) (s : Series) :
  h !! data = Some df → empty df = false → iloc_last df = Ok s →
  calculate_health_score data h = (Ok (clamp (100 + adjustments s)), h).
Proof.
  intros Hl He Hs. unfold calculate_health_score, bind.
  rewrite (load_ok _ _ _ Hl), He. unfold lift. rewrite Hs. unfold ret.
  do 2 f_equal. unfold clamp, adjustments.
  rewrite (lifestyle_shift s (cholesterol_penalty _ _)),
    (cholesterol_penalty_shift s (glucose_penalty _ _)),
    (glucose_penalty_shift s (blood_pressure_penalty _ _)),
    (blood_pressure_penalty_shift s (bmi_penalty _ _)),
    (bmi_penalty_shift s 100).
  f_equal. f_equal. lia.
Qed.

(** C1: for every history the health score is returned and lies in
    [0,100]; it is the clamped sum of 100 and the bonuses and penalties of
    the most recent record alone, and it is 0 for an empty history. *)
Theorem health_score_bounded (h : heap) (data : loc) (df : DataFrame) :
  h !! data = Some df →
  ∃ score : Z,
    calculate_health_score data h = (Ok score, h) ∧
    0 ≤ score ≤ 100 ∧
    (empty df = true → score = 0) ∧
    (∀ s, empty df = false → iloc_last df = Ok s →
          score = Z.max 0 (Z.min 100 (100 + adjustments s))).
Proof.
  intros Hl. destruct (empty df) eqn:He.
  - exists 0. split_and!; [|lia|lia|done|done].
    unfold calculate_health_score, bind. by rewrite (load_ok _ _ _ Hl), He.
  - destruct (empty_false_last df He) as (r & rs & _ & Hs).
    exists (clamp (100 + adjustments (mkSeries (columns df) r))).
    split_and!.
    + by apply (calculate_health_score_latest h data df).
    + unfold clamp. lia.
    + unfold clamp. lia.
    + done.
    + intros s _ Hs'. rewrite Hs in Hs'. by injection Hs' as <-.
Qed.

(** A record without any penalty: the three bonuses are cut off at 100. *)
Definition record_healthy : gmap string value :=
  list_to_map
    [("date", num 19000); ("systolic_bp", num 120); ("diastolic_bp", num 80);
     ("glucose_fasting", num 90); ("bmi", num 22); ("total_cholesterol", num 180);
     ("hdl_cholesterol", num 55); ("exercise_minutes_per_week", num 150);
     ("sleep_hours", dec 75 10); ("stress_level", num 2); ("smoking_status", num 0)].

Example healthy_record_scores_100 :
  calculate_health_score 0%nat {[0%nat := mkDF (dom record_healthy) [record_healthy]]}
  = (Ok 100, {[0%nat := mkDF (dom record_healthy) [record_healthy]]}).
Proof. reflexivity. Qed.

(** *** Monotonicity *)

Lemma bmi_penalty_antitone (s1 s2 : Series) :
  (num 25 <=. get s1 "bmi" 25) = true →
  (get s1 "bmi" 25 <=. get s2 "bmi" 25) = true →
  bmi_penalty s2 0 ≤ bmi_penalty s1 0.
Proof.
  unfold bmi_penalty.
  destruct (get s1 "bmi" 25) as [x1| | |], (get s2 "bmi" 25) as [x2| | |];
    intros; cmp_cases; exfalso; qc_order.
Qed.

Lemma blood_pressure_penalty_antitone (s1 s2 : Series) :
  get s1 "diastolic_bp" 80 = get s2 "diastolic_bp" 80 →
  (get s1 "systolic_bp" 120 <=. get s2 "systolic_bp" 120) = true →
  blood_pressure_penalty s2 0 ≤ blood_pressure_penalty s1 0.
Proof.
  unfold blood_pressure_penalty. intros ->.
  destruct (get s1 "systolic_bp" 120) as [x1| | |],
    (get s2 "systolic_bp" 120) as [x2| | |],
    (get s2 "diastolic_bp" 80) as [d| | |];
    intros; cmp_cases; exfalso; qc_order.
Qed.

Lemma glucose_penalty_antitone (s1 s2 : Series) :
  (get s1 "glucose_fasting" 90 <=. get s2 "glucose_fasting" 90) = true →
  glucose_penalty s2 0 ≤ glucose_penalty s1 0.
Proof.
  unfold glucose_penalty.
  destruct (get s1 "glucose_fasting" 90) as [x1| | |],
    (get s2 "glucose_fasting" 90) as [x2| | |];
    intros; cmp_cases; exfalso; qc_order.
Qed.

(** The first threshold at which each of the three metrics starts to cost
    points, as the branches of [calculate_health_score] have them. *)
Definition penalty_thresholds : list (string * value) :=
  [("systolic_bp", num 130); ("glucose_fasting", num 100); ("bmi", num 25)].

(** The history [rs ++ [r]] with field [k] of its latest record set to [x]. *)
Definition latest_set (cols : gset string) (rs : list (gmap string value))
    (r : gmap string value) (k : string) (x : value) : DataFrame :=
  mkDF ({[k]} ∪ cols) (rs ++ [<[k:=x]> r]).

Lemma latest_set_score (h : heap) (data : loc) cols rs r k x :
  calculate_health_score data (<[data := latest_set cols rs r k x]> h)
  = (Ok (clamp (100 + adjustments (mkSeries ({[k]} ∪ cols) (<[k:=x]> r)))),
     <[data := latest_set cols rs r k x]> h).
Proof.
  apply (calculate_health_score_latest _ _ (latest_set cols rs r k x)).
  - apply lookup_insert_eq.
  - unfold empty, latest_set; simpl. apply orb_false_iff. split.
    + apply bool_decide_eq_false. set_solver.
    + apply bool_decide_eq_false. by destruct rs.
  - unfold iloc_last, latest_set; simpl. by rewrite last_snoc.
Qed.

(** A block that does not read the changed field gives the same points. *)
Ltac unchanged f :=
  match goal with
  | Hsame : ∀ k' d, k' ≠ _ → get ?s1 k' d = get ?s2 k' d |- _ =>
      assert (f s1 0 = f s2 0) as -> by (unfold f; rewrite !Hsame by done; done)
  end.

(** C6: with every other field of the latest record fixed, the health
    score does not increase when systolic blood pressure, fasting glucose or
    BMI grows from a value at or beyond its penalty threshold. *)
Theorem health_score_antitone (h : heap) (data : loc) (cols : gset string)
    (rs : list (gmap string value)) (r : gmap string value)
    (k : string) (threshold x1 x2 : value) :
  (k, threshold) ∈ penalty_thresholds →
  (threshold <=. x1) = true →
  (x1 <=. x2) = true →
  ∃ score1 score2 : Z,
    (calculate_health_score data (<[data := latest_set cols rs r k x1]> h)).1 = Ok score1 ∧
    (calculate_health_score data (<[data := latest_set cols rs r k x2]> h)).1 = Ok score2 ∧
    score2 ≤ score1.
Proof.
  intros Hk Ht Hx. rewrite !latest_set_score. simpl.
  eexists _, _. split_and!; [done..|].
  unfold clamp, adjustments.
  set (s1 := mkSeries ({[k]} ∪ cols) (<[k:=x1]> r)).
  set (s2 := mkSeries ({[k]} ∪ cols) (<[k:=x2]> r)).
  assert (Hsame : ∀ k' d, k' ≠ k → get s1 k' d = get s2 k' d).
  { intros k' d Hne. unfold s1, s2. by rewrite !get_other. }
  assert (Hx1 : ∀ d, get s1 k d = x1) by (intros; apply get_written).
  assert (Hx2 : ∀ d, get s2 k d = x2) by (intros; apply get_written).
  unfold penalty_thresholds in Hk.
  apply elem_of_cons in Hk as [Hk|Hk]; [|apply elem_of_cons in Hk as [Hk|Hk];
    [|apply list_elem_of_singleton in Hk]]; injection Hk as -> ->.
  - unchanged lifestyle. unchanged cholesterol_penalty.
    unchanged bmi_penalty. unchanged glucose_penalty.
    assert (blood_pressure_penalty s2 0 ≤ blood_pressure_penalty s1 0).
    { apply blood_pressure_penalty_antitone; [by apply Hsame|]. by rewrite Hx1, Hx2. }
    lia.
  - unchanged lifestyle. unchanged cholesterol_penalty.
    unchanged bmi_penalty. unchanged blood_pressure_penalty.
    assert (glucose_penalty s2 0 ≤ glucose_penalty s1 0).
    { apply glucose_penalty_antitone. by rewrite Hx1, Hx2. }
    lia.
  - unchanged lifestyle. unchanged cholesterol_penalty.
    unchanged glucose_penalty. unchanged blood_pressure_penalty.
    assert (bmi_penalty s2 0 ≤ bmi_penalty s1 0).
    { apply bmi_penalty_antitone; by rewrite ?Hx1, ?Hx2. }
    lia.
Qed.

(** ** Validation *)

(** The six checked fields as the specification lists them: the field, its
    admitted range and the text reported for it.  The lower bound of the age
    is excluded, the other bounds are included. *)
Record checked_field : Type := mkChecked {
  field : string;
  lower : value;
  lower_excluded : bool;
  upper : value;
  report : string
}.

Definition checked_fields : list checked_field :=
  [mkChecked "age" 0 true 150 "Age must be between 1 and 150 years";
   mkChecked "bmi" 10 false 60 "BMI must be between 10 and 60";
   mkChecked "systolic_bp" 70 false 250
     "Systolic blood pressure must be between 70 and 250 mmHg";
   mkChecked "diastolic_bp" 40 false 150
     "Diastolic blood pressure must be between 40 and 150 mmHg";
   mkChecked "glucose_fasting" 50 false 400
     "Fasting glucose must be between 50 and 400 mg/dL";
   mkChecked "total_cholesterol" 100 false 500
     "Total cholesterol must be between 100 and 500 mg/dL"].

(** A reading is out of range when it is below the lower or above the upper
    bound. *)
Definition out_of_range (c : checked_field) (v : value) : bool :=
  (if lower_excluded c then v <=. lower c else v <. lower c) || (v >. upper c).

Definition missing_or_out_of_range (data : gmap string value) (c : checked_field) : bool :=
  match data !! field c with
  | None => true
  | Some v => out_of_range c v
  end.

Definition expected_errors (data : gmap string value) : list string :=
  report <$> List.filter (missing_or_out_of_range data) checked_fields.

Lemma validate_health_data_expected (data : gmap string value) :
  validate_health_data data = expected_errors data.
Proof.
  unfold validate_health_data, expected_errors, checked_fields.
  cbn [List.filter].
  change (out_of_bounds data "age" _ _)
    with (missing_or_out_of_range data
            (mkChecked "age" 0 true 150 "Age must be between 1 and 150 years")).
  change (out_of_bounds data "bmi" _ _)
    with (missing_or_out_of_range data
            (mkChecked "bmi" 10 false 60 "BMI must be between 10 and 60")).
  change (out_of_bounds data "systolic_bp" _ _)
    with (missing_or_out_of_range data
            (mkChecked "systolic_bp" 70 false 250
               "Systolic blood pressure must be between 70 and 250 mmHg")).
  change (out_of_bounds data "diastolic_bp" _ _)
    with (missing_or_out_of_range data
            (mkChecked "diastolic_bp" 40 false 150
               "Diastolic blood pressure must be between 40 and 150 mmHg")).
  change (out_of_bounds data "glucose_fasting" _ _)
    with (missing_or_out_of_range data
            (mkChecked "glucose_fasting" 50 false 400
               "Fasting glucose must be between 50 and 400 mg/dL")).
  change (out_of_bounds data "total_cholesterol" _ _)
    with (missing_or_out_of_range data
            (mkChecked "total_cholesterol" 100 false 500
               "Total cholesterol must be between 100 and 500 mg/dL")).
  repeat match goal with
  | |- context [missing_or_out_of_range data ?c] =>
      destruct (missing_or_out_of_range data c)
  end; reflexivity.
Qed.

Lemma filter_nil_iff {A} (p : A → bool) (xs : list A) :
  List.filter p xs = [] ↔ ∀ x, x ∈ xs → p x = false.
Proof.
  induction xs as [|x xs IH]; simpl.
  - split; [intros _ y Hy; by apply elem_of_nil in Hy|done].
  - destruct (p x) eqn:Hp.
    + split; [done|]. intros H. specialize (H x (list_elem_of_here _ _)). congruence.
    + rewrite IH. split.
      * intros H y Hy. apply elem_of_cons in Hy as [->|Hy]; auto.
      * intros H y Hy. apply H. by apply list_elem_of_further.
Qed.

(** C8: validation is a total function to a list of texts (it cannot
    raise): the list holds, in order, the text of each checked field that is
    missing or out of range, and it is empty exactly when every one of the six
    fields is present and passes its range check. *)
Theorem validate_health_data_errors (data : gmap string value) :
  validate_health_data data
    = report <$> List.filter (missing_or_out_of_range data) checked_fields
  ∧ (validate_health_data data = [] ↔
     ∀ c, c ∈ checked_fields →
          ∃ v, data !! field c = Some v ∧ out_of_range c v = false).
Proof.
  split; [apply validate_health_data_expected|].
  rewrite validate_health_data_expected. unfold expected_errors.
  assert (Hnil : ∀ l : list checked_field, report <$> l = [] ↔ l = []).
  { intros l. split; [apply fmap_nil_inv|by intros ->]. }
  rewrite Hnil, filter_nil_iff.
  split; intros H c Hc; specialize (H c Hc); unfold missing_or_out_of_range in *.
  - destruct (data !! field c) as [v|]; [eauto|done].
  - destruct H as (v & -> & H). done.
Qed.

(** ** Alerts *)

Import AlertSystem.

Definition by_severity (a b : Alert) : Prop :=
  (severity_order (severity a) ≤ severity_order (severity b))%nat.

Lemma insert_alert_perm (a : Alert) (l : list Alert) : insert_alert a l ≡ₚ a :: l.
Proof.
  induction l as [|b l IH]; simpl; [done|].
  case_bool_decide; [done|]. rewrite IH. apply Permutation_swap.
Qed.

Lemma sort_alerts_perm (l : list Alert) : sort_alerts l ≡ₚ l.
Proof.
  unfold sort_alerts.
  assert (H : ∀ acc, foldl (λ sorted a, insert_alert a sorted) acc l ≡ₚ acc ++ l).
  { induction l as [|a l IH]; intros acc; simpl.
    - by rewrite app_nil_r.
    - rewrite IH, insert_alert_perm. simpl. apply Permutation_middle. }
  apply (H []).
Qed.

Lemma insert_alert_sorted (a : Alert) (l : list Alert) :
  StronglySorted by_severity l → StronglySorted by_severity (insert_alert a l).
Proof.
  induction l as [|b l IH]; simpl; intros Hs.
  - repeat constructor.
  - apply StronglySorted_inv in Hs as [Hl Hb].
    case_bool_decide as Hlt.
    + constructor; [by constructor|].
      constructor; [unfold by_severity; lia|].
      eapply Forall_impl; [exact Hb|]. unfold by_severity. intros; simpl in *; lia.
    + constructor; [by apply IH|].
      rewrite insert_alert_perm. constructor; [unfold by_severity; lia|done].
Qed.

Lemma sort_alerts_sorted (l : list Alert) : StronglySorted by_severity (sort_alerts l).
Proof.
  unfold sort_alerts.
  assert (H : ∀ acc, StronglySorted by_severity acc →
            StronglySorted by_severity (foldl (λ sorted a, insert_alert a sorted) acc l)).
  { induction l as [|a l IH]; intros acc Hacc; simpl; [done|].
    apply IH. by apply insert_alert_sorted. }
  apply H. constructor.
Qed.


(** *** When the checks run to completion

    The columns the checks index without a guard: the date always, the
    exercise column from two records on, both pressures from five on. *)
Definition alert_columns (df : DataFrame) : Prop :=
  "date" ∈ columns df ∧
  ((2 ≤ len df)%nat → "exercise_minutes_per_week" ∈ columns df) ∧
  ((5 ≤ len df)%nat → "systolic_bp" ∈ columns df ∧ "diastolic_bp" ∈ columns df).

Lemma column_ok (df : DataFrame) (k : string) :
  k ∈ columns df → column df k = Ok ((λ r, cell r k) <$> rows df).
Proof. intros H. unfold column, has_column. by rewrite bool_decide_eq_true_2. Qed.

Lemma concat_map_r_ok {A B} (f : A → result (list B)) (xs : list A) :
  (∀ x, x ∈ xs → ∃ ys, f x = Ok ys) → ∃ zs, concat_map_r f xs = Ok zs.
Proof.
  induction xs as [|x xs IH]; intros H; simpl; [by eexists|].
  destruct (H x) as [ys ->]; [by left|].
  destruct IH as [zs ->]; [intros y Hy; apply H; by right|].
  simpl. by eexists.
Qed.

Lemma _check_trend_alerts_ok (df : DataFrame) :
  alert_columns df → ∃ alerts, _check_trend_alerts df = Ok alerts.
Proof.
  intros (Hdate & Hex & _). unfold _check_trend_alerts.
  case_bool_decide as Hlen; [by eexists|].
  match goal with
  | |- context [concat_map_r ?f ?xs] =>
      destruct (concat_map_r_ok f xs) as [rapid ->]
  end; last first.
  - rewrite (column_ok df "exercise_minutes_per_week") by (apply Hex; lia).
    simpl. by eexists.
  - intros [metric threshold] _. simpl.
    destruct (has_column df metric) eqn:Hm; [|by eexists].
    rewrite (column_ok df "date") by done. simpl.
    case_bool_decide; [|by eexists].
    unfold column at 1. unfold has_column in *. simpl. rewrite Hm. simpl.
    case_match; by eexists.
Qed.

Lemma _check_pattern_alerts_ok (now : value) (df : DataFrame) :
  alert_columns df → ∃ alerts, _check_pattern_alerts now df = Ok alerts.
Proof.
  intros (Hdate & _). unfold _check_pattern_alerts.
  rewrite (column_ok df "date") by done. simpl. by eexists.
Qed.

Lemma _check_adherence_alerts_ok (df : DataFrame) :
  alert_columns df → ∃ alerts, _check_adherence_alerts df = Ok alerts.
Proof.
  intros (_ & _ & Hbp). unfold _check_adherence_alerts.
  case_bool_decide as Hlen; [|by eexists].
  destruct (Hbp Hlen) as [Hs Hd].
  rewrite (column_ok df "systolic_bp"), (column_ok df "diastolic_bp") by done. simpl.
  repeat case_match; by eexists.
Qed.

Lemma _check_value_alerts_ok (df : DataFrame) :
  empty df = false → ∃ alerts, _check_value_alerts df = Ok alerts.
Proof.
  intros He. destruct (empty_false_last df He) as (r & rs & _ & Hs).
  unfold _check_value_alerts. rewrite Hs. simpl. by eexists.
Qed.

(** On a non-empty history with these columns every check returns, and
    the result is the severity-sorted merge that starts with the value
    alerts. *)
Lemma check_alerts_ok (now : value) (df : DataFrame) :
  empty df = false → alert_columns df →
  ∃ value_alerts others,
    _check_value_alerts df = Ok value_alerts ∧
    check_alerts now df = Ok (sort_alerts (value_alerts ++ others)).
Proof.
  intros He Hc. unfold check_alerts. rewrite He.
  destruct (_check_value_alerts_ok df He) as [va Hva].
  destruct (_check_trend_alerts_ok df Hc) as [ta Hta].
  destruct (_check_pattern_alerts_ok now df Hc) as [pa Hpa].
  destruct (_check_adherence_alerts_ok df Hc) as [aa Haa].
  rewrite Hva, Hta, Hpa, Haa. simpl.
  exists va, (ta ++ pa ++ aa). split; [done|]. by rewrite <- !app_assoc.
Qed.

(** *** Value alerts of one metric *)

Section ValueAlerts.
Context (df : DataFrame) (rs : list (gmap string value)) (r : gmap string value).
Context (Hrows : rows df = rs ++ [r]).

Lemma critical_alert (m : string) (t v : value) :
  (m, t) ∈ critical → m ∈ columns df → cell r m = v →
  notna v = true → (v >=. t) = true →
  ∃ alerts, _check_value_alerts df = Ok alerts ∧
    mkAlert "Critical" m "Seek immediate medical attention" (Reading v t) ∈ alerts.
Proof.
  intros Hm Hcol Hv Hn Hge. unfold _check_value_alerts, iloc_last.
  rewrite Hrows, last_snoc. cbn [rbind app]. eexists. split; [reflexivity|].
  rewrite !elem_of_app. left. left. rewrite list_elem_of_In, in_flat_map.
  exists (m, t). split; [by rewrite <- list_elem_of_In|]. cbn [fst snd].
  unfold contains; cbn [index cells]. rewrite bool_decide_eq_true_2 by done.
  rewrite Hv, Hn, Hge. simpl. by left.
Qed.

Lemma warning_alert (m : string) (t v : value) :
  (m, t) ∈ warning → m ≠ "hdl_cholesterol_low" → m ∈ columns df → cell r m = v →
  notna v = true → (v >=. t) = true →
  ∃ alerts, _check_value_alerts df = Ok alerts ∧
    mkAlert "Warning" m "Monitor closely and consider intervention" (Reading v t)
      ∈ alerts.
Proof.
  intros Hm Hne Hcol Hv Hn Hge. unfold _check_value_alerts, iloc_last.
  rewrite Hrows, last_snoc. cbn [rbind app]. eexists. split; [reflexivity|].
  rewrite !elem_of_app. left. right. rewrite list_elem_of_In, in_flat_map.
  exists (m, t). split; [by rewrite <- list_elem_of_In|]. cbn [fst snd].
  unfold contains; cbn [index cells]. rewrite bool_decide_eq_true_2 by done.
  rewrite Hv, Hn, Hge. rewrite bool_decide_eq_false_2 by done. by left.
Qed.

Lemma info_alert (m : string) (t v : value) :
  (m, t) ∈ info →
  m ∉ ["exercise_minutes_per_week_low"; "sleep_hours_low"; "sleep_hours_high";
       "stress_level_high"] →
  m ∈ columns df → cell r m = v →
  notna v = true → (v >=. t) = true →
  ∃ alerts, _check_value_alerts df = Ok alerts ∧
    mkAlert "Info" m "Consider lifestyle modifications" (Reading v t) ∈ alerts.
Proof.
  intros Hm Hne Hcol Hv Hn Hge. unfold _check_value_alerts, iloc_last.
  rewrite Hrows, last_snoc. cbn [rbind app]. eexists. split; [reflexivity|].
  rewrite !elem_of_app. right. rewrite list_elem_of_In, in_flat_map.
  exists (m, t). split; [by rewrite <- list_elem_of_In|]. cbn [fst snd].
  unfold contains; cbn [index cells]. rewrite bool_decide_eq_true_2 by done.
  rewrite Hv, Hn, Hge.
  rewrite !bool_decide_eq_false_2; [by left|set_solver..].
Qed.
End ValueAlerts.

Lemma rows_snoc_not_empty (df : DataFrame) rs r (m : string) :
  rows df = rs ++ [r] → m ∈ columns df → empty df = false.
Proof.
  intros Hr Hm. unfold empty. apply orb_false_iff.
  split; apply bool_decide_eq_false; [set_solver|].
  rewrite Hr. by destruct rs.
Qed.

Lemma vge_notna (v t : value) : (v >=. t) = true → notna v = true.
Proof. by destruct v, t. Qed.

Lemma vge_trans (v t t' : value) :
  (v >=. t) = true → (t >=. t') = true → (v >=. t') = true.
Proof.
  destruct v, t, t'; intros; cmp_cases; exfalso; qc_order.
Qed.

Lemma sort_alerts_elem (a : Alert) (l : list Alert) : a ∈ sort_alerts l ↔ a ∈ l.
Proof. by rewrite sort_alerts_perm. Qed.

(** Sample histories of one record, taken on day 19000 of the epoch. *)
Definition record_systolic_185 : gmap string value :=
  list_to_map [("date", num 19000); ("systolic_bp", num 185)].
Definition history_systolic_185 : DataFrame :=
  mkDF (dom record_systolic_185) [record_systolic_185].

Definition record_low_hdl : gmap string value :=
  list_to_map [("date", num 19000); ("systolic_bp", num 118); ("diastolic_bp", num 76);
               ("glucose_fasting", num 88); ("bmi", num 22); ("hdl_cholesterol", num 35)].
Definition history_low_hdl : DataFrame := mkDF (dom record_low_hdl) [record_low_hdl].

Definition record_heart_rate_125 : gmap string value :=
  list_to_map [("date", num 19000); ("resting_heart_rate", num 125)].
Definition history_heart_rate_125 : DataFrame :=
  mkDF (dom record_heart_rate_125) [record_heart_rate_125].

Definition empty_history : DataFrame := mkDF ∅ [].





Lemma health_score_bounded_witness :
  ∃ score : Z,
    calculate_health_score 0%nat {[0%nat := history_low_hdl]}
      = (Ok score, {[0%nat := history_low_hdl]}) ∧
    0 ≤ score ≤ 100 ∧
    (empty history_low_hdl = true → score = 0) ∧
    (∀ s, empty history_low_hdl = false → iloc_last history_low_hdl = Ok s →
          score = Z.max 0 (Z.min 100 (100 + adjustments s))).
Proof.
  apply (health_score_bounded {[0%nat := history_low_hdl]} 0%nat history_low_hdl).
  reflexivity.
Defined.

Lemma health_score_antitone_witness :
  ∃ score1 score2 : Z,
    (calculate_health_score 0%nat
       (<[0%nat := latest_set (dom record_low_hdl) [] record_low_hdl "bmi" (num 27)]> ∅)).1
      = Ok score1 ∧
    (calculate_health_score 0%nat
       (<[0%nat := latest_set (dom record_low_hdl) [] record_low_hdl "bmi" (num 31)]> ∅)).1
      = Ok score2 ∧
    score2 ≤ score1.
Proof.
  apply (health_score_antitone ∅ 0%nat (dom record_low_hdl) [] record_low_hdl
           "bmi" (num 25) (num 27) (num 31)).
  - compute_done.
  - reflexivity.
  - reflexivity.
Defined.

(** C2: every engine answers an empty history with its empty or zero
    result: no alerts, the three risk scores at 0, a health score of 0. *)
Theorem empty_history_results (predict_proba : string → list value → option value)
    (now : value) (h : heap) (data : loc) (df : DataFrame) :
  h !! data = Some df →
  empty df = true →
  check_alerts now df = Ok [] ∧
  RiskAssessmentModel.calculate_risk_scores predict_proba df
    = Ok [("pre_diabetes", num 0); ("hypertension", num 0); ("metabolic_syndrome", num 0)] ∧
  calculate_health_score data h = (Ok 0, h).
Proof.
  intros Hl He. split_and!.
  - unfold check_alerts. by rewrite He.
  - unfold RiskAssessmentModel.calculate_risk_scores. by rewrite He.
  - unfold calculate_health_score, bind. by rewrite (load_ok _ _ _ Hl), He.
Qed.

Lemma empty_history_results_witness :
  check_alerts (num 19001) empty_history = Ok [] ∧
  RiskAssessmentModel.calculate_risk_scores (λ _ _, None) empty_history
    = Ok [("pre_diabetes", num 0); ("hypertension", num 0); ("metabolic_syndrome", num 0)] ∧
  calculate_health_score 0%nat {[0%nat := empty_history]}
    = (Ok 0, {[0%nat := empty_history]}).
Proof.
  apply (empty_history_results (λ _ _, None) (num 19001)
           {[0%nat := empty_history]} 0%nat empty_history); reflexivity.
Defined.

(** C4: a latest HDL reading of 35, below the warning threshold of 40,
    raises no alert at all for "hdl_cholesterol": the warning table keys the
    threshold as "hdl_cholesterol_low" and the check looks that key up in the
    record, which stores the reading under "hdl_cholesterol". *)
Theorem low_hdl_raises_no_alert :
  cell record_low_hdl "hdl_cholesterol" = num 35 ∧
  ∃ alerts : list Alert,
    check_alerts (num 19001) history_low_hdl = Ok alerts ∧
    ∀ a, a ∈ alerts → metric a ≠ "hdl_cholesterol".
Proof.
  split; [reflexivity|].
  eexists. split; [vm_compute; reflexivity|].
  intros a Ha. apply elem_of_nil in Ha. done.
Qed.

(** C10, as stated, fails for the resting heart rate: a reading of 125 is
    at or above its Critical threshold of 120 and no Info alert for
    "resting_heart_rate" is raised. *)
Lemma heart_rate_has_no_info_alert :
  ("resting_heart_rate", num 120) ∈ critical ∧
  (cell record_heart_rate_125 "resting_heart_rate" >=. num 120) = true ∧
  ∃ alerts : list Alert,
    check_alerts (num 19001) history_heart_rate_125 = Ok alerts ∧
    ¬ ∃ a, a ∈ alerts ∧ severity a = "Info" ∧ metric a = "resting_heart_rate".
Proof.
  split; [compute_done|]. split; [reflexivity|].
  eexists. split; [vm_compute; reflexivity|].
  intros (a & Ha & Hs & Hm).
  repeat (apply elem_of_cons in Ha as [->|Ha]; [simpl in *; discriminate|]).
  by apply elem_of_nil in Ha.
Qed.

(** The entry of a written-out table with a given key. *)
Ltac find_entry :=
  unfold critical, warning, info;
  repeat first [apply list_elem_of_here | apply list_elem_of_further].

(** C10, amended: value alerts are not merged across tiers. On a history
    that has the columns the checks read without a guard (the date; the
    exercise minutes from two records on; both pressures from five records
    on), a latest reading at or above the Critical threshold of its metric
    raises a Critical and a Warning alert for that metric, each with the
    reading and the threshold of its tier, and an Info alert as well for
    every metric but the resting heart rate, for which the Info table has no
    entry. *)
Theorem value_alerts_in_every_tier (now : value) (df : DataFrame)
    (rs : list (gmap string value)) (r : gmap string value)
    (m : string) (tc v : value) :
  rows df = rs ++ [r] →
  m ∈ columns df →
  alert_columns df →
  (m, tc) ∈ critical →
  cell r m = v →
  (v >=. tc) = true →
  ∃ alerts : list Alert,
    check_alerts now df = Ok alerts ∧
    (∃ a, a ∈ alerts ∧ severity a = "Critical" ∧ metric a = m
          ∧ payload a = Reading v tc) ∧
    (∃ a tw, a ∈ alerts ∧ (m, tw) ∈ warning ∧ severity a = "Warning" ∧ metric a = m
          ∧ payload a = Reading v tw) ∧
    (m ≠ "resting_heart_rate" →
     ∃ a ti, a ∈ alerts ∧ (m, ti) ∈ info ∧ severity a = "Info" ∧ metric a = m
          ∧ payload a = Reading v ti) ∧
    (∀ ti, ("resting_heart_rate", ti) ∉ info).
Proof.
  intros Hrows Hcol Hc Hm Hv Hge.
  destruct (check_alerts_ok now df (rows_snoc_not_empty _ _ _ _ Hrows Hcol) Hc)
    as (va & others & Hva & ->).
  pose proof (vge_notna _ _ Hge) as Hn.
  assert (Hin : ∀ a, (∃ va', _check_value_alerts df = Ok va' ∧ a ∈ va') →
                     a ∈ sort_alerts (va ++ others)).
  { intros a (va' & Hva' & Ha). rewrite Hva in Hva'. injection Hva' as <-.
    apply sort_alerts_elem, elem_of_app. by left. }
  eexists. split; [reflexivity|]. split_and!.
  - eexists. split; [apply Hin, (critical_alert df rs r Hrows m tc v); done|done].
  - assert (∃ tw, (m, tw) ∈ warning ∧ m ≠ "hdl_cholesterol_low" ∧ (tc >=. tw) = true)
      as (tw & Hw & Hne & Htw).
    { unfold critical in Hm.
      repeat (apply elem_of_cons in Hm as [Hm|Hm];
              [injection Hm as -> ->; eexists; split_and!;
               [find_entry|discriminate|reflexivity]|]).
      by apply elem_of_nil in Hm. }
    eexists _, tw. split.
    + apply Hin, (warning_alert df rs r Hrows m tw v); try done.
      by apply (vge_trans v tc tw).
    + done.
  - intros Hhr.
    assert (∃ ti, (m, ti) ∈ info ∧
              (m ∉ ["exercise_minutes_per_week_low"; "sleep_hours_low";
                    "sleep_hours_high"; "stress_level_high"]) ∧ (tc >=. ti) = true)
      as (ti & Hi & Hne & Hti).
    { unfold critical in Hm.
      repeat (apply elem_of_cons in Hm as [Hm|Hm];
              [injection Hm as -> ->;
               first [done|eexists; split_and!; [find_entry|compute_done|reflexivity]]|]).
      by apply elem_of_nil in Hm. }
    eexists _, ti. split.
    + apply Hin, (info_alert df rs r Hrows m ti v); try done.
      by apply (vge_trans v tc ti).
    + done.
  - intros ti Hti. unfold info in Hti.
    repeat (apply elem_of_cons in Hti as [Hti|Hti]; [discriminate|]).
    by apply elem_of_nil in Hti.
Qed.

Lemma value_alerts_in_every_tier_witness :
  ∃ alerts : list Alert,
    check_alerts (num 19001) history_systolic_185 = Ok alerts ∧
    (∃ a, a ∈ alerts ∧ severity a = "Critical" ∧ metric a = "systolic_bp"
          ∧ payload a = Reading (num 185) (num 180)) ∧
    (∃ a tw, a ∈ alerts ∧ ("systolic_bp", tw) ∈ warning ∧ severity a = "Warning"
          ∧ metric a = "systolic_bp" ∧ payload a = Reading (num 185) tw) ∧
    ("systolic_bp" ≠ "resting_heart_rate" →
     ∃ a ti, a ∈ alerts ∧ ("systolic_bp", ti) ∈ info ∧ severity a = "Info"
          ∧ metric a = "systolic_bp" ∧ payload a = Reading (num 185) ti) ∧
    (∀ ti, ("resting_heart_rate", ti) ∉ info).
Proof.
  apply (value_alerts_in_every_tier (num 19001) history_systolic_185
           [] record_systolic_185 "systolic_bp" (num 180) (num 185)).
  - reflexivity.
  - compute_done.
  - split_and!; [compute_done|intros H; exfalso; vm_compute in H; lia..].
  - compute_done.
  - reflexivity.
  - reflexivity.
Defined.

(** ** Interventions *)

Import InterventionEngine.

(** The risk scores of the example. *)
Definition sample_risk_scores : list (string * value) :=
  [("pre_diabetes", dec 8 10); ("hypertension", dec 2 10);
   ("metabolic_syndrome", dec 1 10)].

(** [needle in s] for texts. *)
Fixpoint mentions (needle s : string) : bool :=
  String.prefix needle s ||
  match s with
  | EmptyString => false
  | String _ rest => mentions needle rest
  end.

Definition catalog : list Intervention :=
  dietary_interventions ++ exercise_interventions ++ lifestyle_interventions
  ++ monitoring_interventions.

(** The titles of the entries that [_add_specific_recommendations] writes. *)
Definition specific_titles : list string :=
  ["Calorie Restriction for Weight Loss"; "Sodium Reduction Protocol";
   "Glycemic Index Management"; "Physical Activity Increase Plan"].

Lemma catalog_titles_distinct (e e' : Intervention) :
  e ∈ catalog → e' ∈ catalog → title e = title e' → e = e'.
Proof.
  assert (H : Forall (λ e, Forall (λ e', title e = title e' → e = e') catalog) catalog)
    by compute_done.
  rewrite Forall_forall in H. intros He He'.
  specialize (H e He). rewrite Forall_forall in H. by apply H.
Qed.

Lemma catalog_titles_not_specific (e : Intervention) :
  e ∈ catalog → title e ∉ specific_titles.
Proof.
  assert (H : Forall (λ e, title e ∉ specific_titles) catalog) by compute_done.
  rewrite Forall_forall in H. apply H.
Qed.

Lemma library_in_catalog (category : string) (entries : list Intervention)
    (e : Intervention) :
  (category, entries) ∈ intervention_library → e ∈ entries → e ∈ catalog.
Proof.
  unfold intervention_library, catalog. intros Hc He.
  rewrite !elem_of_app.
  repeat (apply elem_of_cons in Hc as [Hc|Hc]; [injection Hc as -> ->; tauto|]).
  by apply elem_of_nil in Hc.
Qed.

(** What the loop body does with one entry. *)
Lemma personalize_elem (high medium : list string) (e x : Intervention) :
  x ∈ personalize high medium e →
  title x = title e ∧
  ((∃ c, c ∈ target_conditions e ∧ (c ∈ high ∨ c ∈ medium)) ∨
   priority e ∈ ["High"; "Critical"]).
Proof.
  unfold personalize. intros Hx.
  destruct (existsb _ (target_conditions e)) eqn:Hh.
  - apply list_elem_of_singleton in Hx as ->. split; [done|]. left.
    apply existsb_exists in Hh as (c & Hc & Hin).
    apply bool_decide_eq_true in Hin. exists c. rewrite list_elem_of_In. auto.
  - destruct (existsb _ (target_conditions e)) eqn:Hm in Hx.
    + apply list_elem_of_singleton in Hx as ->. split; [done|]. left.
      apply existsb_exists in Hm as (c & Hc & Hin).
      apply bool_decide_eq_true in Hin. exists c. rewrite list_elem_of_In. auto.
    + case_bool_decide as Hp; [|by apply elem_of_nil in Hx].
      apply list_elem_of_singleton in Hx as ->. split; [done|]. by right.
Qed.

Lemma personalize_high (high medium : list string) (e : Intervention) (c : string) :
  c ∈ target_conditions e → c ∈ high →
  personalize high medium e
  = [with_note ("High priority due to elevated risk in " +:+ join ", " high)
       (with_priority "Critical" e)].
Proof.
  intros Hc Hh. unfold personalize.
  assert (existsb (λ condition, bool_decide (condition ∈ high)) (target_conditions e)
          = true) as ->; [|done].
  apply existsb_exists. exists c. rewrite <- list_elem_of_In.
  split; [done|]. by apply bool_decide_eq_true.
Qed.

Section AppendTo.
Context (c : bool) (e : Intervention) (l1 l2 l3 l4 : list Intervention).

Lemma append_to_dietary :
  (if c then
     append_to "dietary_interventions" e
       [("dietary_interventions", l1); ("exercise_interventions", l2);
        ("lifestyle_interventions", l3); ("monitoring_interventions", l4)]
   else Ok [("dietary_interventions", l1); ("exercise_interventions", l2);
            ("lifestyle_interventions", l3); ("monitoring_interventions", l4)])
  = Ok [("dietary_interventions", l1 ++ (if c then [e] else []));
        ("exercise_interventions", l2);
        ("lifestyle_interventions", l3); ("monitoring_interventions", l4)].
Proof. destruct c; rewrite ?app_nil_r; reflexivity. Qed.

Lemma append_to_exercise :
  (if c then
     append_to "exercise_interventions" e
       [("dietary_interventions", l1); ("exercise_interventions", l2);
        ("lifestyle_interventions", l3); ("monitoring_interventions", l4)]
   else Ok [("dietary_interventions", l1); ("exercise_interventions", l2);
            ("lifestyle_interventions", l3); ("monitoring_interventions", l4)])
  = Ok [("dietary_interventions", l1);
        ("exercise_interventions", l2 ++ (if c then [e] else []));
        ("lifestyle_interventions", l3); ("monitoring_interventions", l4)].
Proof. destruct c; rewrite ?app_nil_r; reflexivity. Qed.

Lemma append_to_lifestyle :
  (if c then
     append_to "lifestyle_interventions" e
       [("dietary_interventions", l1); ("exercise_interventions", l2);
        ("lifestyle_interventions", l3); ("monitoring_interventions", l4)]
   else Ok [("dietary_interventions", l1); ("exercise_interventions", l2);
            ("lifestyle_interventions", l3); ("monitoring_interventions", l4)])
  = Ok [("dietary_interventions", l1); ("exercise_interventions", l2);
        ("lifestyle_interventions", l3 ++ (if c then [e] else []));
        ("monitoring_interventions", l4)].
Proof. destruct c; rewrite ?app_nil_r; reflexivity. Qed.
End AppendTo.

(** The result of [get_interventions]: per category, the personalized
    catalog entries followed by the entries written for single readings. *)
Lemma get_interventions_shape (format_1f format_str : value → string)
    (df : DataFrame) (risk_scores : list (string * value)) :
  empty df = false →
  ∃ (high medium : list string) (d1 d2 d3 : list Intervention),
    high = (List.filter (λ cs, cs.2 >. dec 7 10) risk_scores).*1 ∧
    medium = (List.filter (λ cs, (dec 4 10 <. cs.2) && (cs.2 <=. dec 7 10))
                risk_scores).*1 ∧
    Forall (λ x, title x ∈ specific_titles) (d1 ++ d2 ++ d3) ∧
    get_interventions format_1f format_str df risk_scores
    = Ok [("dietary_interventions",
           flat_map (personalize high medium) dietary_interventions ++ d1);
          ("exercise_interventions",
           flat_map (personalize high medium) exercise_interventions ++ d2);
          ("lifestyle_interventions",
           flat_map (personalize high medium) lifestyle_interventions ++ d3);
          ("monitoring_interventions",
           flat_map (personalize high medium) monitoring_interventions)].
Proof.
  intros He. destruct (empty_false_last df He) as (r & rs & _ & Hs).
  unfold get_interventions. rewrite He, Hs. cbn [rbind].
  set (high := (List.filter _ risk_scores).*1).
  set (medium := (List.filter _ risk_scores).*1).
  exists high, medium.
  unfold intervention_library. cbn [fmap list_fmap fst snd].
  generalize (flat_map (personalize high medium) dietary_interventions).
  generalize (flat_map (personalize high medium) exercise_interventions).
  generalize (flat_map (personalize high medium) lifestyle_interventions).
  generalize (flat_map (personalize high medium) monitoring_interventions).
  intros l4 l3 l2 l1. unfold _add_specific_recommendations.
  rewrite append_to_dietary; cbn [rbind].
  rewrite append_to_lifestyle; cbn [rbind].
  rewrite append_to_dietary; cbn [rbind].
  rewrite append_to_exercise; cbn [rbind].
  rewrite <- app_assoc.
  eexists _, _, _. split_and!; [reflexivity..| |reflexivity].
  destruct (get _ "bmi" _ >. 30), (get _ "systolic_bp" _ >. 130),
    (get _ "glucose_fasting" _ >. 100), (get _ "exercise_minutes_per_week" _ <. 150);
    repeat constructor; compute_done.
Qed.

Lemma elem_of_filter_keys (p : string * value → bool) (scores : list (string * value))
    (c : string) :
  c ∈ (List.filter p scores).*1 → ∃ s, (c, s) ∈ scores ∧ p (c, s) = true.
Proof.
  intros H. apply list_elem_of_fmap in H as ([c' s] & -> & H).
  apply list_elem_of_In, filter_In in H as [H Hp].
  exists s. by rewrite list_elem_of_In.
Qed.

Lemma above_07_above_04 (s : value) : (s >. dec 7 10) = true → (s >. dec 4 10) = true.
Proof. destruct s; intros; cmp_cases; exfalso; qc_order. Qed.

(** C7: for a non-empty history and the risk scores pre_diabetes 0.8,
    hypertension 0.2, metabolic_syndrome 0.1, every catalog entry that
    targets "pre_diabetes" is returned in its category as a copy with
    priority "Critical" and a note that mentions "pre_diabetes"; and, whatever
    the risk scores, a returned entry of the catalog none of whose target
    conditions scores above 0.4 has base priority High or Critical. *)
Theorem get_interventions_escalates (format_1f format_str : value → string)
    (df : DataFrame) :
  empty df = false →
  (∃ result,
     get_interventions format_1f format_str df sample_risk_scores = Ok result ∧
     ∀ category entries e,
       (category, entries) ∈ intervention_library → e ∈ entries →
       "pre_diabetes" ∈ target_conditions e →
       ∃ out note,
         (category, out) ∈ result ∧
         with_note note (with_priority "Critical" e) ∈ out ∧
         mentions "pre_diabetes" note = true) ∧
  (∀ risk_scores, ∃ result,
     get_interventions format_1f format_str df risk_scores = Ok result ∧
     ∀ category out x e,
       (category, out) ∈ result → x ∈ out →
       e ∈ catalog → title x = title e →
       (∀ c s, c ∈ target_conditions e → (c, s) ∈ risk_scores →
               (s >. dec 4 10) = false) →
       priority e ∈ ["High"; "Critical"]).
Proof.
  intros He. split.
  - destruct (get_interventions_shape format_1f format_str df sample_risk_scores He)
      as (high & medium & d1 & d2 & d3 & Hh & _ & _ & ->).
    assert (high = ["pre_diabetes"]) as -> by (rewrite Hh; reflexivity).
    eexists. split; [reflexivity|].
    intros category entries e Hc Hin Ht.
    assert (Hx : with_note "High priority due to elevated risk in pre_diabetes"
                   (with_priority "Critical" e)
                 ∈ flat_map (personalize ["pre_diabetes"] medium) entries).
    { rewrite list_elem_of_In, in_flat_map. exists e.
      split; [by rewrite <- list_elem_of_In|].
      rewrite (personalize_high _ _ e "pre_diabetes") by (done || set_solver).
      by left. }
    unfold intervention_library in Hc.
    repeat (apply elem_of_cons in Hc as [Hc|Hc];
            [injection Hc as -> ->; eexists _, _; split_and!;
             [find_entry|rewrite ?elem_of_app; eauto|reflexivity]|]).
    by apply elem_of_nil in Hc.
  - intros risk_scores.
    destruct (get_interventions_shape format_1f format_str df risk_scores He)
      as (high & medium & d1 & d2 & d3 & Hh & Hm & Hd & ->).
    eexists. split; [reflexivity|].
    intros category out x e Hc Hx He' Ht Hlow.
    assert (Hcat : ∀ entries, (∃ c, (c, entries) ∈ intervention_library) →
              x ∈ flat_map (personalize high medium) entries →
              priority e ∈ ["High"; "Critical"]).
    { intros entries [c Hlib] Hxin.
      rewrite list_elem_of_In, in_flat_map in Hxin. destruct Hxin as (e0 & He0 & Hxe0).
      rewrite <- !list_elem_of_In in *.
      apply personalize_elem in Hxe0 as [Ht0 Hwhy].
      assert (e = e0) as <-.
      { apply catalog_titles_distinct; [done| |congruence].
        by apply (library_in_catalog c entries). }
      destruct Hwhy as [(t & Htin & Hrisk)|Hp]; [exfalso|done].
      destruct Hrisk as [Hr|Hr]; rewrite ?Hh, ?Hm in Hr;
        apply elem_of_filter_keys in Hr as (s & Hs & Hp); cbn [snd] in Hp;
        specialize (Hlow t s Htin Hs).
      - apply above_07_above_04 in Hp. congruence.
      - apply andb_true_iff in Hp as [Hp _]. unfold vgt in Hlow. congruence. }
    assert (Hspec : ∀ d, d ⊆ d1 ++ d2 ++ d3 → x ∈ d → priority e ∈ ["High"; "Critical"]).
    { intros d Hsub Hxd. exfalso.
      rewrite Forall_forall in Hd. specialize (Hd x (Hsub x Hxd)).
      rewrite Ht in Hd. by apply (catalog_titles_not_specific e). }
    assert (Hlib : ∀ entries, (∃ c, (c, entries) ∈ intervention_library) →
              ∀ d, d ⊆ d1 ++ d2 ++ d3 →
              x ∈ flat_map (personalize high medium) entries ++ d →
              priority e ∈ ["High"; "Critical"]).
    { intros entries Hentries d Hsub Hin. apply elem_of_app in Hin as [Hin|Hin].
      - by apply (Hcat entries).
      - by apply (Hspec d). }
    apply elem_of_cons in Hc as [Hc|Hc].
    { injection Hc as -> ->. apply (Hlib dietary_interventions) in Hx;
        [done| |intros y Hy; rewrite !elem_of_app; tauto].
      eexists. unfold intervention_library. find_entry. }
    apply elem_of_cons in Hc as [Hc|Hc].
    { injection Hc as -> ->. apply (Hlib exercise_interventions) in Hx;
        [done| |intros y Hy; rewrite !elem_of_app; tauto].
      eexists. unfold intervention_library. find_entry. }
    apply elem_of_cons in Hc as [Hc|Hc].
    { injection Hc as -> ->. apply (Hlib lifestyle_interventions) in Hx;
        [done| |intros y Hy; rewrite !elem_of_app; tauto].
      eexists. unfold intervention_library. find_entry. }
    apply list_elem_of_singleton in Hc. injection Hc as -> ->.
    apply (Hcat monitoring_interventions); [|done].
    eexists. unfold intervention_library. find_entry.
Qed.

Lemma get_interventions_escalates_witness :
  (∃ result,
     get_interventions (λ _, "") (λ _, "") history_low_hdl sample_risk_scores
       = Ok result ∧
     ∀ category entries e,
       (category, entries) ∈ intervention_library → e ∈ entries →
       "pre_diabetes" ∈ target_conditions e →
       ∃ out note,
         (category, out) ∈ result ∧
         with_note note (with_priority "Critical" e) ∈ out ∧
         mentions "pre_diabetes" note = true) ∧
  (∀ risk_scores, ∃ result,
     get_interventions (λ _, "") (λ _, "") history_low_hdl risk_scores = Ok result ∧
     ∀ category out x e,
       (category, out) ∈ result → x ∈ out →
       e ∈ catalog → title x = title e →
       (∀ c s, c ∈ target_conditions e → (c, s) ∈ risk_scores →
               (s >. dec 4 10) = false) →
       priority e ∈ ["High"; "Critical"]).
Proof.
  apply (get_interventions_escalates (λ _, "") (λ _, "") history_low_hdl).
  reflexivity.
Defined.

(** ** Frames in the store *)

Import DataProcessor.

Definition column_values (df : DataFrame) (k : string) : list value :=
  (λ r, cell r k) <$> rows df.

Lemma bind_run {A B} (m : M A) (k : A → M B) (h h' : heap) (a : A) :
  m h = (Ok a, h') → bind m k h = k a h'.
Proof. unfold bind. by intros ->. Qed.

Lemma read_column_ok (h : heap) (l : loc) (df : DataFrame) (k : string) :
  h !! l = Some df → k ∈ columns df →
  read_column l k h = (Ok (column_values df k), h).
Proof.
  intros Hl Hk. unfold read_column. rewrite (bind_run _ _ _ _ _ (load_ok _ _ _ Hl)).
  unfold lift. by rewrite column_ok.
Qed.

Lemma assign_ok (h : heap) (l : loc) (df : DataFrame) (k : string) (vs : list value) :
  h !! l = Some df → assign l k vs h = (Ok tt, <[l := set_column k vs df]> h).
Proof.
  intros Hl. unfold assign, modify. by rewrite (bind_run _ _ _ _ _ (load_ok _ _ _ Hl)).
Qed.

Lemma assign_scalar_ok (h : heap) (l : loc) (df : DataFrame) (k : string) (v : value) :
  h !! l = Some df → assign_scalar l k v h = (Ok tt, <[l := set_scalar k v df]> h).
Proof.
  intros Hl. unfold assign_scalar, modify.
  by rewrite (bind_run _ _ _ _ _ (load_ok _ _ _ Hl)).
Qed.

Lemma column_values_length (df : DataFrame) (k : string) :
  length (column_values df k) = len df.
Proof. unfold column_values, len. by rewrite length_fmap. Qed.

Lemma set_column_len (k : string) (vs : list value) (df : DataFrame) :
  length vs = len df → len (set_column k vs df) = len df.
Proof. unfold len, set_column; simpl. intros H. rewrite length_zip_with. lia. Qed.

Lemma set_column_values_ne (k k' : string) (vs : list value) (df : DataFrame) :
  k' ≠ k → length vs = len df →
  column_values (set_column k vs df) k' = column_values df k'.
Proof.
  unfold column_values, set_column, len; simpl. intros Hne.
  generalize (rows df). intros rs. revert vs.
  induction rs as [|r rs IH]; intros [|v vs] Hlen; simpl in *; try done.
  f_equal; [|apply IH; lia]. unfold cell. by rewrite lookup_insert_ne.
Qed.

Lemma set_column_values_eq (k : string) (vs : list value) (df : DataFrame) :
  length vs = len df → column_values (set_column k vs df) k = vs.
Proof.
  unfold column_values, set_column, len; simpl.
  generalize (rows df). intros rs. revert vs.
  induction rs as [|r rs IH]; intros [|v vs] Hlen; simpl in *; try done.
  f_equal; [|apply IH; lia]. unfold cell. by rewrite lookup_insert_eq.
Qed.

Lemma rolling_mean_length (w : nat) (xs : list value) :
  length (rolling_mean w xs) = length xs.
Proof. unfold rolling_mean. by rewrite length_fmap, length_seq. Qed.

(** ** Sorting

    The insertion sort is ascending, so the assumption made of the
    library's sort can be met. *)

Lemma vlt_irrefl (a : value) : a <. a = false.
Proof.
  destruct a as [x| | |]; cbn; try done.
  apply bool_decide_eq_false_2. intros H. qc_order.
Qed.

Lemma vlt_asym (a b : value) : a <. b = true → b <. a = false.
Proof.
  destruct a as [x| | |], b as [y| | |]; cbn; try done.
  rewrite bool_decide_eq_true. intros H. apply bool_decide_eq_false_2.
  intros H'. qc_order.
Qed.

Lemma vlt_cotrans (a b c : value) :
  notna b = true → a <. c = true → a <. b = true ∨ b <. c = true.
Proof.
  destruct a as [x| | |], b as [y| | |], c as [z| | |]; cbn; try done; auto.
  rewrite !bool_decide_eq_true. intros _ H.
  destruct (Qclt_le_dec x y) as [?|Hle]; [by left|right].
  qc_order.
Qed.

Lemma sorts_before_asym (a b : value) : sorts_before a b = true → sorts_before b a = false.
Proof.
  destruct a as [x| | |], b as [y| | |]; cbn [sorts_before]; try done;
    apply vlt_asym.
Qed.

Lemma sorts_before_cotrans (a b c : value) :
  sorts_before a c = true → sorts_before a b = true ∨ sorts_before b c = true.
Proof.
  destruct (notna b) eqn:Hb.
  - destruct a as [x| | |], b as [y| | |], c as [z| | |]; cbn [sorts_before];
      try done; auto; by apply vlt_cotrans.
  - destruct b; try done. destruct a; cbn [sorts_before]; auto.
Qed.

Lemma not_after_trans (k : string) (a b c : gmap string value) :
  not_after k a b → not_after k b c → not_after k a c.
Proof.
  unfold not_after. intros Hab Hbc.
  destruct (sorts_before (cell c k) (cell a k)) eqn:Hca; [|done].
  destruct (sorts_before_cotrans _ (cell b k) _ Hca); congruence.
Qed.

Lemma insert_by_perm (k : string) (r : gmap string value) (sorted : list (gmap string value)) :
  insert_by k r sorted ≡ₚ r :: sorted.
Proof.
  induction sorted as [|r' rest IH]; cbn [insert_by]; [done|].
  case_match; [done|]. rewrite IH. apply Permutation_swap.
Qed.

Lemma sort_rows_snoc (k : string) (rs : list (gmap string value)) (r : gmap string value) :
  sort_rows k (rs ++ [r]) = insert_by k r (sort_rows k rs).
Proof. unfold sort_rows. by rewrite foldl_app. Qed.

Lemma sort_rows_perm (k : string) (rs : list (gmap string value)) :
  sort_rows k rs ≡ₚ rs.
Proof.
  induction rs as [|r rs IH] using rev_ind; [done|].
  rewrite sort_rows_snoc, insert_by_perm, IH. by rewrite Permutation_cons_append.
Qed.

Lemma insert_by_sorted (k : string) (r : gmap string value) (sorted : list (gmap string value)) :
  StronglySorted (not_after k) sorted →
  StronglySorted (not_after k) (insert_by k r sorted).
Proof.
  induction 1 as [|r' rest Hs IH Hall]; cbn [insert_by].
  { repeat constructor. }
  destruct (sorts_before (cell r k) (cell r' k)) eqn:Hlt.
  - assert (Hr : not_after k r r') by (by apply sorts_before_asym).
    constructor; [by constructor|]. constructor; [done|].
    eapply Forall_impl; [exact Hall|]. intros c Hc. by apply not_after_trans with r'.
  - constructor; [done|]. rewrite insert_by_perm. by constructor.
Qed.

Lemma sort_rows_sorted (k : string) (rs : list (gmap string value)) :
  StronglySorted (not_after k) (sort_rows k rs).
Proof.
  induction rs as [|r rs IH] using rev_ind; [constructor|].
  rewrite sort_rows_snoc. by apply insert_by_sorted.
Qed.

Lemma insert_by_last (k : string) (r : gmap string value) (sorted : list (gmap string value)) :
  Forall (λ r', sorts_before (cell r' k) (cell r k) = true) sorted →
  insert_by k r sorted = sorted ++ [r].
Proof.
  induction 1 as [|r' rest Hr' _ IH]; cbn [insert_by]; [done|].
  by rewrite (sorts_before_asym _ _ Hr'), IH.
Qed.

Lemma sort_rows_ascending : ascending sort_rows.
Proof. intros k rs. split; [apply sort_rows_perm|apply sort_rows_sorted]. Qed.

(** ** Trends *)

Section TrendProperties.
Variable sort_kind : string → list (gmap string value) → list (gmap string value).
Variable series_mean : list value → value.

(** The comparison as the specification words it: the mean of the last
    five values against the mean of the first five, or of all values when
    there are fewer than ten; "increasing" only on a strict rise; the change
    in percent of the historical mean. *)
Definition trend_of (vs : list value) : Trend :=
  let recent := series_mean (tail 5 vs) in
  let historical :=
    if bool_decide (10 ≤ length vs)%nat then series_mean (head 5 vs) else series_mean vs in
  {| direction := if recent >. historical then "increasing" else "decreasing";
     magnitude := vmul (vdiv (vabs (vsub recent historical)) historical) (num 100);
     recent_avg := recent;
     historical_avg := historical |}.

(** The copy [detect_trends] works on. *)
Definition sorted_copy (df : DataFrame) : DataFrame :=
  mkDF (columns df) (sort_kind "date" (rows df)).

(** Up to five values are all "recent": both means are the same number,
    which is not greater than itself. *)
Lemma trend_of_short (vs : list value) :
  (length vs ≤ 5)%nat →
  trend_of vs
  = mkTrend "decreasing"
      (vmul (vdiv (vabs (vsub (series_mean vs) (series_mean vs))) (series_mean vs))
         (num 100))
      (series_mean vs) (series_mean vs).
Proof.
  intros Hlen. unfold trend_of, tail.
  replace (length vs - 5)%nat with 0%nat by lia. rewrite drop_0.
  rewrite bool_decide_eq_false_2 by lia.
  unfold vgt. by rewrite vlt_irrefl.
Qed.

(** The working copy still shows the sorted frame in every tracked
    column. *)
Definition agrees (sorted work : DataFrame) : Prop :=
  len work = len sorted ∧
  ∀ m, m ∈ metrics →
    (m ∈ columns work ↔ m ∈ columns sorted) ∧
    column_values work m = column_values sorted m.

Lemma trend_column_fresh (m m' : string) :
  m ∈ metrics → m' ∈ metrics → m' ≠ m +:+ "_trend".
Proof.
  assert (H : Forall (λ m, Forall (λ m', m' ≠ m +:+ "_trend") metrics) metrics)
    by compute_done.
  rewrite Forall_forall in H. intros Hm Hm'.
  specialize (H m Hm). rewrite Forall_forall in H. by apply H.
Qed.

Lemma trend_step_spec (h : heap) (l : loc) (window : nat) (trends : gmap string Trend)
    (m : string) (sorted work : DataFrame) :
  h !! l = Some work → agrees sorted work → (2 ≤ len sorted)%nat → m ∈ metrics →
  ∃ work',
    trend_step series_mean l window trends m h
    = (Ok (if has_column sorted m
           then <[m := trend_of (column_values sorted m)]> trends else trends),
       <[l := work']> h)
    ∧ agrees sorted work'.
Proof.
  intros Hl [Hlen Hag] H2 Hm. unfold trend_step.
  rewrite (bind_run _ _ _ _ _ (load_ok _ _ _ Hl)).
  destruct (Hag m Hm) as [Hcols Hvals].
  unfold has_column. destruct (decide (m ∈ columns work)) as [Hin|Hnin].
  - rewrite !bool_decide_eq_true_2 by tauto.
    set (work' := set_column (m +:+ "_trend")
                    (rolling_mean (min window (len work)) (column_values work m)) work).
    match goal with
    | |- context [bind (bind (read_column l m) ?k) _ h] =>
        assert (Hinner : bind (read_column l m) k h = (Ok tt, <[l := work']> h))
          by (rewrite (bind_run _ _ _ _ _ (read_column_ok _ _ _ _ Hl Hin));
              by apply assign_ok)
    end.
    rewrite (bind_run _ _ _ _ _ Hinner).
    assert (Hlen' : len work' = len work).
    { apply set_column_len. by rewrite rolling_mean_length, column_values_length. }
    assert (Hl' : <[l := work']> h !! l = Some work') by apply lookup_insert_eq.
    assert (Hin' : m ∈ columns work') by (unfold work', set_column; simpl; set_solver).
    assert (Hvals' : column_values work' m = column_values sorted m).
    { rewrite <- Hvals. apply set_column_values_ne.
      - by apply trend_column_fresh.
      - by rewrite rolling_mean_length, column_values_length. }
    rewrite (bind_run _ _ _ _ _ (load_ok _ _ _ Hl')).
    rewrite bool_decide_eq_true_2 by lia.
    rewrite (bind_run _ _ _ _ _ (read_column_ok _ _ _ _ Hl' Hin')).
    rewrite (bind_run _ _ _ _ _ (read_column_ok _ _ _ _ Hl' Hin')).
    exists work'. split.
    + unfold ret, trend_of. by rewrite Hvals', column_values_length, Hlen', Hlen.
    + split; [lia|]. intros m' Hm'. destruct (Hag m' Hm') as [Hc' Hv'].
      split.
      * unfold work', set_column; simpl. rewrite <- Hc'.
        pose proof (trend_column_fresh m m' Hm Hm'). set_solver.
      * rewrite <- Hv'. apply set_column_values_ne.
        -- by apply trend_column_fresh.
        -- by rewrite rolling_mean_length, column_values_length.
  - rewrite !bool_decide_eq_false_2 by tauto.
    exists work. unfold ret. rewrite insert_id by done. done.
Qed.

Lemma trend_loop_spec (ms : list string) (h : heap) (l : loc) (window : nat)
    (trends : gmap string Trend) (sorted work : DataFrame) :
  h !! l = Some work → agrees sorted work → (2 ≤ len sorted)%nat →
  (∀ m, m ∈ ms → m ∈ metrics) →
  ∃ trends' work',
    for_fold ms trends (trend_step series_mean l window) h
    = (Ok trends', <[l := work']> h) ∧
    ∀ m, trends' !! m
         = if bool_decide (m ∈ ms ∧ m ∈ columns sorted)
           then Some (trend_of (column_values sorted m)) else trends !! m.
Proof.
  revert h trends work.
  induction ms as [|m0 ms IH]; intros h trends work Hl Hag H2 Hms.
  - exists trends, work. cbn [for_fold]. unfold ret. rewrite insert_id by done.
    split; [done|]. intros m. case_bool_decide as Hm; [|done].
    destruct Hm as [Hm _]. by apply elem_of_nil in Hm.
  - destruct (trend_step_spec h l window trends m0 sorted work Hl Hag H2)
      as (work1 & Hstep & Hag1); [apply Hms; left|].
    destruct (IH (<[l := work1]> h)
                (if has_column sorted m0
                 then <[m0 := trend_of (column_values sorted m0)]> trends else trends)
                work1 (lookup_insert_eq _ _ _) Hag1 H2)
      as (trends' & work' & Hrest & Hlook); [intros m Hm; apply Hms; by right|].
    exists trends', work'. split.
    + cbn [for_fold]. rewrite (bind_run _ _ _ _ _ Hstep), Hrest.
      by rewrite insert_insert_eq.
    + intros m. rewrite Hlook. unfold has_column.
      destruct (decide (m = m0)) as [->|Hne].
      * repeat case_bool_decide; rewrite ?lookup_insert_eq; try done;
          exfalso; set_solver.
      * destruct (bool_decide (m0 ∈ columns sorted)); rewrite ?lookup_insert_ne by done;
          repeat case_bool_decide; try done; exfalso; set_solver.
Qed.

Lemma sorted_copy_ok (df : DataFrame) :
  ascending sort_kind → "date" ∈ columns df →
  sort_values sort_kind "date" df = Ok (sorted_copy df) ∧
  len (sorted_copy df) = len df ∧
  rows (sorted_copy df) ≡ₚ rows df ∧
  StronglySorted (not_after "date") (rows (sorted_copy df)).
Proof.
  intros Hsort Hdate. destruct (Hsort "date" (rows df)) as [Hperm Hsorted].
  unfold sort_values, has_column. rewrite bool_decide_eq_true_2 by done.
  split_and!; [done| |done..]. unfold len, sorted_copy. cbn [rows]. by rewrite Hperm.
Qed.

(** What [detect_trends] returns for a history of two or more dated
    records, and the store it leaves. *)
Lemma detect_trends_run (h : heap) (data : loc) (df : DataFrame) (window : nat) :
  ascending sort_kind →
  h !! data = Some df → (2 ≤ len df)%nat → "date" ∈ columns df →
  ∃ trends work,
    detect_trends sort_kind series_mean data window h
    = (Ok trends, <[fresh_loc h := work]> h) ∧
    ∀ m, trends !! m
         = if bool_decide (m ∈ metrics ∧ m ∈ columns df)
           then Some (trend_of (column_values (sorted_copy df) m)) else None.
Proof.
  intros Hsort Hl H2 Hdate.
  destruct (sorted_copy_ok df Hsort Hdate) as (Hs & Hlen & _).
  unfold detect_trends. rewrite (bind_run _ _ _ _ _ (load_ok _ _ _ Hl)).
  assert (empty df || bool_decide (len df < 2)%nat = false) as ->.
  { apply orb_false_iff. split; [|apply bool_decide_eq_false; lia].
    unfold empty. apply orb_false_iff. split; apply bool_decide_eq_false.
    - set_solver.
    - unfold len in H2. destruct (rows df); simpl in *; [lia|done]. }
  unfold lift at 1. rewrite Hs. unfold bind at 1. unfold alloc, bind at 1.
  destruct (trend_loop_spec metrics (<[fresh_loc h := sorted_copy df]> h) (fresh_loc h)
              window ∅ (sorted_copy df) (sorted_copy df))
    as (trends & work & Hrun & Hlook).
  - apply lookup_insert_eq.
  - split; [done|]. by intros.
  - lia.
  - done.
  - exists trends, work. rewrite Hrun, insert_insert_eq. split; [done|].
    intros m. rewrite Hlook. by rewrite lookup_empty.
Qed.

End TrendProperties.

Lemma trend_of_100_110 (series_mean : list value → value) :
  series_mean [num 100; num 110] = num 105 →
  trend_of series_mean [num 100; num 110]
  = mkTrend "decreasing" (num 0) (num 105) (num 105).
Proof.
  intros Hm. rewrite trend_of_short by (cbn; lia). rewrite Hm.
  f_equal; vm_compute; f_equal; apply Qc_is_canon; reflexivity.
Qed.

Lemma mean_100_110 : mean [num 100; num 110] = num 105.
Proof. vm_compute. f_equal. apply Qc_is_canon. reflexivity. Qed.

(** A history of two dated records with systolic pressures 100 and 110. *)
Definition history_100_110 : DataFrame :=
  mkDF {["date"; "systolic_bp"]}
    [list_to_map [("date", num 19000); ("systolic_bp", num 100)];
     list_to_map [("date", num 19001); ("systolic_bp", num 110)]].

(** C3, as stated, fails: for the two values 100 and 110 the reported
    direction is not "increasing", whichever ascending sort and whichever
    mean the library provides: with two records both means are the mean of
    the same two values. *)
Lemma two_records_are_a_tie :
  ¬ ∃ sort_kind series_mean trends t,
      ascending sort_kind ∧
      (detect_trends sort_kind series_mean 0%nat 30 {[0%nat := history_100_110]}).1
      = Ok trends ∧
      trends !! "systolic_bp" = Some t ∧
      direction t = "increasing".
Proof.
  intros (sort_kind & series_mean & trends & t & Hsort & Hrun & Ht & Hd).
  destruct (detect_trends_run sort_kind series_mean {[0%nat := history_100_110]} 0%nat
              history_100_110 30 Hsort) as (trends' & work & Hrun' & Hlook).
  - reflexivity.
  - unfold len. simpl. lia.
  - compute_done.
  - rewrite Hrun' in Hrun. simpl in Hrun. injection Hrun as <-.
    rewrite Hlook in Ht. rewrite bool_decide_eq_true_2 in Ht by (split; compute_done).
    rewrite trend_of_short in Ht.
    + injection Ht as <-. discriminate Hd.
    + rewrite column_values_length.
      destruct (sorted_copy_ok sort_kind history_100_110 Hsort) as (_ & -> & _);
        [compute_done|]. unfold len. simpl. lia.
Qed.

(** C3, amended: fewer than two records give the empty result; from two
    dated records on, every tracked metric that is a column is reported with
    the mean of its last five values in date order (the order in which
    [sort_values] leaves the records, any ascending one) against the mean of
    its first five, or of all of them below ten records, "increasing" only
    when the recent mean is strictly greater; up to five records both means
    are the same number and the direction is "decreasing"; for the two values
    100 and 110, whose mean is 105, the magnitude is 0. *)
Theorem detect_trends_compares_means
    (sort_kind : string → list (gmap string value) → list (gmap string value))
    (series_mean : list value → value)
    (h : heap) (data : loc) (df : DataFrame) (window : nat) :
  ascending sort_kind →
  h !! data = Some df →
  ((len df < 2)%nat → detect_trends sort_kind series_mean data window h = (Ok ∅, h)) ∧
  ((2 ≤ len df)%nat → "date" ∈ columns df →
     ∃ trends sorted,
       (detect_trends sort_kind series_mean data window h).1 = Ok trends ∧
       sort_values sort_kind "date" df = Ok sorted ∧
       columns sorted = columns df ∧
       rows sorted ≡ₚ rows df ∧
       StronglySorted (not_after "date") (rows sorted) ∧
       ∀ m, m ∈ metrics → m ∈ columns df →
         trends !! m = Some (trend_of series_mean (column_values sorted m)) ∧
         ((len df ≤ 5)%nat →
          ∃ t, trends !! m = Some t ∧ direction t = "decreasing" ∧
               recent_avg t = series_mean (column_values sorted m) ∧
               historical_avg t = series_mean (column_values sorted m)) ∧
         (column_values sorted m = [num 100; num 110] →
          series_mean [num 100; num 110] = num 105 →
          trends !! m = Some (mkTrend "decreasing" (num 0) (num 105) (num 105)))).
Proof.
  intros Hsort Hl. split.
  - intros Hlen. unfold detect_trends. rewrite (bind_run _ _ _ _ _ (load_ok _ _ _ Hl)).
    rewrite (bool_decide_eq_true_2 (len df < 2)%nat) by done.
    by rewrite orb_true_r.
  - intros H2 Hdate.
    destruct (detect_trends_run sort_kind series_mean h data df window Hsort Hl H2 Hdate)
      as (trends & work & Hrun & Hlook).
    destruct (sorted_copy_ok sort_kind df Hsort Hdate) as (Hs & Hlen & Hperm & Hsorted).
    exists trends, (sorted_copy sort_kind df). rewrite Hrun.
    split_and!; try done.
    intros m Hm Hc. rewrite Hlook, bool_decide_eq_true_2 by done.
    split_and!; [done| |].
    + intros H5. eexists. split; [reflexivity|].
      rewrite trend_of_short by (rewrite column_values_length; lia). done.
    + intros -> Hmean. by rewrite trend_of_100_110.
Qed.

Lemma detect_trends_compares_means_witness :
  ∃ trends,
    (detect_trends sort_rows mean 0%nat 30 {[0%nat := history_100_110]}).1 = Ok trends ∧
    trends !! "systolic_bp" = Some (mkTrend "decreasing" (num 0) (num 105) (num 105)).
Proof.
  destruct (detect_trends_compares_means sort_rows mean {[0%nat := history_100_110]}
              0%nat history_100_110 30 sort_rows_ascending) as [_ H]; [reflexivity|].
  destruct H as (trends & sorted & Hrun & Hs & _ & _ & _ & Hm).
  - unfold len. simpl. lia.
  - compute_done.
  - exists trends. split; [exact Hrun|].
    apply (Hm "systolic_bp"); [compute_done|compute_done| |exact mean_100_110].
    vm_compute in Hs. injection Hs as <-. reflexivity.
Defined.

(** ** What the metrics engine does to the caller's history *)

Lemma fresh_loc_fresh (h : heap) (l : loc) (df : DataFrame) :
  h !! l = Some df → l ≠ fresh_loc h.
Proof.
  intros Hl ->. unfold fresh_loc in Hl.
  pose proof (is_fresh (dom h)) as Hf. apply Hf, elem_of_dom. eauto.
Qed.

(** A computation that writes to no frame but the one behind [l]. *)
Definition writes_only {A} (l : loc) (m : M A) : Prop :=
  ∀ h l', l' ≠ l → (m h).2 !! l' = h !! l'.

Lemma writes_only_ret {A} (l : loc) (a : A) : writes_only l (ret a).
Proof. by intros h l' _. Qed.

Lemma writes_only_lift {A} (l : loc) (r : result A) : writes_only l (lift r).
Proof. by intros h l' _. Qed.

Lemma writes_only_load (l l0 : loc) : writes_only l (load l0).
Proof. intros h l' _. unfold load. by destruct (h !! l0). Qed.

Lemma writes_only_store (l : loc) (df : DataFrame) : writes_only l (store l df).
Proof. intros h l' Hne. unfold store. cbn. by rewrite lookup_insert_ne. Qed.

Lemma writes_only_bind {A B} (l : loc) (m : M A) (k : A → M B) :
  writes_only l m → (∀ a, writes_only l (k a)) → writes_only l (bind m k).
Proof.
  intros Hm Hk h l' Hne. unfold bind. specialize (Hm h l' Hne).
  destruct (m h) as [[a|e] h1]; cbn in Hm; [|done].
  by rewrite (Hk a h1 l' Hne).
Qed.

Lemma writes_only_read_column (l l0 : loc) (k : string) : writes_only l (read_column l0 k).
Proof.
  apply writes_only_bind; [apply writes_only_load|]. intros df. apply writes_only_lift.
Qed.

Lemma writes_only_assign (l : loc) (k : string) (vs : list value) :
  writes_only l (assign l k vs).
Proof.
  apply writes_only_bind; [apply writes_only_load|]. intros df. apply writes_only_store.
Qed.

Lemma writes_only_trend_step (series_mean : list value → value) (l : loc) (window : nat)
    (trends : gmap string Trend) (m : string) :
  writes_only l (trend_step series_mean l window trends m).
Proof.
  unfold trend_step.
  apply writes_only_bind; [apply writes_only_load|]. intros df.
  destruct (has_column df m); [|apply writes_only_ret].
  apply writes_only_bind.
  { apply writes_only_bind; [apply writes_only_read_column|].
    intros vs. apply writes_only_assign. }
  intros _. apply writes_only_bind; [apply writes_only_load|]. intros df1.
  case_bool_decide; [|apply writes_only_ret].
  apply writes_only_bind; [apply writes_only_read_column|]. intros vs.
  apply writes_only_bind; [apply writes_only_read_column|]. intros vs'.
  apply writes_only_ret.
Qed.

Lemma writes_only_for_fold {A S} (l : loc) (xs : list A) (s : S) (body : S → A → M S) :
  (∀ s x, writes_only l (body s x)) → writes_only l (for_fold xs s body).
Proof.
  intros Hbody. revert s. induction xs as [|x xs IH]; intros s; cbn [for_fold].
  - apply writes_only_ret.
  - apply writes_only_bind; [apply Hbody|]. intros s'. apply IH.
Qed.

(** [detect_trends] works on a sorted copy: whatever it returns, and
    whatever the sort and the mean are, every frame of the store is as it
    was. *)
Lemma detect_trends_preserves
    (sort_kind : string → list (gmap string value) → list (gmap string value))
    (series_mean : list value → value)
    (h : heap) (data : loc) (window : nat) (l : loc) (df' : DataFrame) :
  h !! l = Some df' →
  (detect_trends sort_kind series_mean data window h).2 !! l = Some df'.
Proof.
  intros Hl'. unfold detect_trends. unfold bind at 1, load.
  destruct (h !! data) as [df|]; [|done].
  destruct (empty df || _); [done|].
  unfold bind at 1, lift. destruct (sort_values sort_kind "date" df) as [sorted|e]; [|done].
  unfold bind at 1, alloc.
  rewrite (writes_only_for_fold (fresh_loc h) metrics ∅
             (trend_step series_mean (fresh_loc h) window)).
  - rewrite lookup_insert_ne; [done|]. symmetry. by eapply fresh_loc_fresh.
  - intros s x. apply writes_only_trend_step.
  - by eapply fresh_loc_fresh.
Qed.

Lemma set_scalar_len (k : string) (v : value) (df : DataFrame) :
  len (set_scalar k v df) = len df.
Proof. unfold len, set_scalar; simpl. by rewrite length_fmap. Qed.

Lemma set_scalar_values_ne (k k' : string) (v : value) (df : DataFrame) :
  k' ≠ k → column_values (set_scalar k v df) k' = column_values df k'.
Proof.
  intros Hne. unfold column_values, set_scalar; simpl.
  rewrite <- list_fmap_compose. apply list_fmap_ext. intros _ r _. simpl.
  unfold cell. by rewrite lookup_insert_ne.
Qed.

Lemma set_scalar_values_eq (k : string) (v : value) (df : DataFrame) :
  column_values (set_scalar k v df) k = replicate (len df) v.
Proof.
  unfold column_values, set_scalar, len; simpl.
  rewrite <- list_fmap_compose.
  induction (rows df) as [|r rs IH]; simpl; [done|].
  f_equal; [|done]. unfold cell. by rewrite lookup_insert_eq.
Qed.

(** The columns [calculate_derived_metrics] reads and the ones it writes. *)
Definition derived_inputs : list string :=
  ["systolic_bp"; "diastolic_bp"; "total_cholesterol"; "hdl_cholesterol";
   "ldl_cholesterol"; "age"; "bmi"; "smoking_status"].

Definition derived_columns : list string :=
  ["pulse_pressure"; "total_hdl_ratio"; "ldl_hdl_ratio"; "cv_risk_score"].

(** One assignment [data[k] = f(data[a], ...)] whose value has one entry
    per record: the column is written into the object itself. *)
Lemma assign_step (h : heap) (l : loc) (df : DataFrame) (k : string)
    (vs : list value) (m : M unit) :
  h !! l = Some df → m h = (Ok tt, <[l := set_column k vs df]> h) →
  length vs = len df →
  ∃ df', m h = (Ok tt, <[l := df']> h) ∧
    <[l := df']> h !! l = Some df' ∧
    columns df' = {[k]} ∪ columns df ∧ len df' = len df ∧
    (∀ k', k' ≠ k → column_values df' k' = column_values df k') ∧
    column_values df' k = vs.
Proof.
  intros Hl Hm Hlen. exists (set_column k vs df). split_and!.
  - done.
  - apply lookup_insert_eq.
  - done.
  - by apply set_column_len.
  - intros k' Hne. by apply set_column_values_ne.
  - by apply set_column_values_eq.
Qed.

Lemma length_zip_with_same {A B C} (f : A → B → C) (xs : list A) (ys : list B) (n : nat) :
  length xs = n → length ys = n → length (zip_with f xs ys) = n.
Proof. intros. rewrite length_zip_with. lia. Qed.

Lemma length_scale (c : value) (xs : list value) : length (scale c xs) = length xs.
Proof. unfold scale. by rewrite length_fmap. Qed.

(** Run a [data[k]] whose column is known to be there. *)
Ltac read_col Hl Hin k :=
  rewrite (bind_run _ _ _ _ _
             (read_column_ok _ _ _ k Hl (Hin k ltac:(compute_done)))).

Lemma calculate_derived_metrics_run (h : heap) (data : loc) (df : DataFrame) :
  h !! data = Some df → empty df = false →
  (∀ k, k ∈ derived_inputs → k ∈ columns df) →
  ∃ df',
    calculate_derived_metrics data h = (Ok data, <[data := df']> h) ∧
    columns df' = list_to_set derived_columns ∪ columns df ∧
    len df' = len df ∧
    (∀ k, k ∉ derived_columns → column_values df' k = column_values df k) ∧
    column_values df' "pulse_pressure"
    = zip_with vsub (column_values df "systolic_bp") (column_values df "diastolic_bp").
Proof.
  intros Hl He Hin.
  assert (Hneq : ∀ k, k ∈ derived_inputs → k ∉ derived_columns).
  { assert (H : Forall (λ k, k ∉ derived_columns) derived_inputs) by compute_done.
    by apply Forall_forall. }
  unfold calculate_derived_metrics.
  rewrite (bind_run _ _ _ _ _ (load_ok _ _ _ Hl)), He.
  (* pulse pressure *)
  match goal with
  | |- context [bind (bind (read_column data "systolic_bp") ?k) ?rest h] =>
      destruct (assign_step h data df "pulse_pressure"
                  (zip_with vsub (column_values df "systolic_bp")
                     (column_values df "diastolic_bp"))
                  (bind (read_column data "systolic_bp") k) Hl)
        as (df1 & Hrun1 & Hl1 & Hc1 & Hn1 & Hv1 & Hpp)
  end.
  { read_col Hl Hin "systolic_bp". read_col Hl Hin "diastolic_bp". by apply assign_ok. }
  { apply length_zip_with_same; apply column_values_length. }
  rewrite (bind_run _ _ _ _ _ Hrun1).
  assert (Hin1 : ∀ k, k ∈ derived_inputs → k ∈ columns df1).
  { intros k Hk. rewrite Hc1. specialize (Hin k Hk). set_solver. }
  (* total / hdl *)
  match goal with
  | |- context [bind (bind (read_column data "total_cholesterol") ?k) ?rest _] =>
      destruct (assign_step (<[data := df1]> h) data df1 "total_hdl_ratio"
                  (zip_with vdiv (column_values df1 "total_cholesterol")
                     (column_values df1 "hdl_cholesterol"))
                  (bind (read_column data "total_cholesterol") k) Hl1)
        as (df2 & Hrun2 & Hl2 & Hc2 & Hn2 & Hv2 & _)
  end.
  { read_col Hl1 Hin1 "total_cholesterol". read_col Hl1 Hin1 "hdl_cholesterol".
    by apply assign_ok. }
  { apply length_zip_with_same; apply column_values_length. }
  rewrite (bind_run _ _ _ _ _ Hrun2). rewrite insert_insert_eq in Hl2 |- *.
  assert (Hin2 : ∀ k, k ∈ derived_inputs → k ∈ columns df2).
  { intros k Hk. rewrite Hc2. specialize (Hin1 k Hk). set_solver. }
  (* ldl / hdl *)
  match goal with
  | |- context [bind (bind (read_column data "ldl_cholesterol") ?k) ?rest _] =>
      destruct (assign_step (<[data := df2]> h) data df2 "ldl_hdl_ratio"
                  (zip_with vdiv (column_values df2 "ldl_cholesterol")
                     (column_values df2 "hdl_cholesterol"))
                  (bind (read_column data "ldl_cholesterol") k) Hl2)
        as (df3 & Hrun3 & Hl3 & Hc3 & Hn3 & Hv3 & _)
  end.
  { read_col Hl2 Hin2 "ldl_cholesterol". read_col Hl2 Hin2 "hdl_cholesterol".
    by apply assign_ok. }
  { apply length_zip_with_same; apply column_values_length. }
  rewrite (bind_run _ _ _ _ _ Hrun3). rewrite insert_insert_eq in Hl3 |- *.
  assert (Hin3 : ∀ k, k ∈ derived_inputs → k ∈ columns df3).
  { intros k Hk. rewrite Hc3. specialize (Hin2 k Hk). set_solver. }
  (* cardiovascular risk score *)
  match goal with
  | |- context [bind (bind (read_column data "age") ?k) ?rest _] =>
      destruct (assign_step (<[data := df3]> h) data df3 "cv_risk_score"
                  (zip_with vadd
                     (zip_with vadd
                        (zip_with vadd
                           (zip_with vadd (scale (dec 1 10) (column_values df3 "age"))
                              (scale (dec 2 10) (column_values df3 "bmi")))
                           (scale (dec 5 100) (column_values df3 "systolic_bp")))
                        (scale (dec 1 100) (column_values df3 "total_cholesterol")))
                     (scale (num 10) (column_values df3 "smoking_status")))
                  (bind (read_column data "age") k) Hl3)
        as (df4 & Hrun4 & Hl4 & Hc4 & Hn4 & Hv4 & _)
  end.
  { read_col Hl3 Hin3 "age". read_col Hl3 Hin3 "bmi". read_col Hl3 Hin3 "systolic_bp".
    read_col Hl3 Hin3 "total_cholesterol". read_col Hl3 Hin3 "smoking_status".
    by apply assign_ok. }
  { repeat apply length_zip_with_same;
      rewrite ?length_scale; apply column_values_length. }
  rewrite (bind_run _ _ _ _ _ Hrun4). rewrite insert_insert_eq.
  exists df4. unfold ret. split_and!.
  - done.
  - rewrite Hc4, Hc3, Hc2, Hc1. unfold derived_columns. set_solver.
  - lia.
  - intros k Hk. unfold derived_columns in Hk.
    rewrite Hv4, Hv3, Hv2, Hv1; [done|set_solver..].
  - rewrite Hv4, Hv3, Hv2 by done. exact Hpp.
Qed.

Lemma bind_raise {A B} (m : M A) (k : A → M B) (h h' : heap) (e : exn) :
  m h = (Raise e, h') → bind m k h = (Raise e, h').
Proof. unfold bind. by intros ->. Qed.

Lemma read_column_missing {B} (h : heap) (l : loc) (df : DataFrame) (k : string)
    (rest : list value → M B) :
  h !! l = Some df → k ∉ columns df →
  bind (read_column l k) rest h = (Raise (KeyError k), h).
Proof.
  intros Hl Hk. apply bind_raise. unfold read_column.
  rewrite (bind_run _ _ _ _ _ (load_ok _ _ _ Hl)).
  unfold lift, column, has_column. by rewrite bool_decide_eq_false_2.
Qed.

(** What a frame that [calculate_derived_metrics] has been writing into
    still shares with the frame it was given. *)
Definition extends (df df' : DataFrame) : Prop :=
  len df' = len df ∧
  columns df ⊆ columns df' ∧
  columns df' ⊆ list_to_set derived_columns ∪ columns df ∧
  (∀ k, k ∉ derived_columns → column_values df' k = column_values df k).

Lemma extends_refl (df : DataFrame) : extends df df.
Proof. unfold extends. split_and!; [done|set_solver..|done]. Qed.

Lemma extends_step (df df1 df2 : DataFrame) (k : string) :
  extends df df1 → k ∈ derived_columns →
  columns df2 = {[k]} ∪ columns df1 → len df2 = len df1 →
  (∀ k', k' ≠ k → column_values df2 k' = column_values df1 k') →
  extends df df2.
Proof.
  intros (Hn & Hsub & Hsup & Hv) Hk Hc2 Hn2 Hv2. unfold extends. split_and!.
  - lia.
  - set_solver.
  - rewrite Hc2. apply union_subseteq. split; [|done].
    apply singleton_subseteq_l. apply elem_of_union_l. by apply elem_of_list_to_set.
  - intros k' Hk'. rewrite Hv2; [by apply Hv|]. by intros ->.
Qed.

Lemma extends_input (df df' : DataFrame) (k : string) :
  extends df df' → k ∈ derived_inputs → k ∈ columns df' ↔ k ∈ columns df.
Proof.
  intros (_ & Hsub & Hsup & _) Hk.
  assert (Hneq : k ∉ derived_columns).
  { assert (H : Forall (λ k, k ∉ derived_columns) derived_inputs) by compute_done.
    rewrite Forall_forall in H. by apply H. }
  split; [|set_solver]. intros Hin. apply Hsup in Hin.
  apply elem_of_union in Hin as [Hin|Hin]; [|done].
  by apply elem_of_list_to_set in Hin.
Qed.

(** The first read of [k] in a block fails: the block raises and the rest
    of the function is skipped. *)
Ltac block_raises first missing Hl tac :=
  match goal with
  | |- context [bind (bind (read_column ?data first) ?k) ?rest ?hc] =>
      rewrite (bind_raise (bind (read_column data first) k) rest hc hc
                 (KeyError missing));
      [|tac; apply (read_column_missing _ _ _ _ _ Hl); assumption]
  end.

Lemma calculate_derived_metrics_raises (h : heap) (data : loc) (df : DataFrame) :
  h !! data = Some df → empty df = false →
  ¬ (∀ k, k ∈ derived_inputs → k ∈ columns df) →
  ∃ k df',
    k ∈ derived_inputs ∧ k ∉ columns df ∧
    calculate_derived_metrics data h = (Raise (KeyError k), <[data := df']> h) ∧
    extends df df' ∧
    ("systolic_bp" ∈ columns df → "diastolic_bp" ∈ columns df →
     "pulse_pressure" ∈ columns df' ∧
     column_values df' "pulse_pressure"
     = zip_with vsub (column_values df "systolic_bp") (column_values df "diastolic_bp")).
Proof.
  intros Hl He Hmiss.
  unfold calculate_derived_metrics.
  rewrite (bind_run _ _ _ _ _ (load_ok _ _ _ Hl)), He.
  assert (Hid : <[data := df]> h = h) by (by apply insert_id).
  (* pulse pressure *)
  destruct (decide ("systolic_bp" ∈ columns df)) as [Hsys|Hsys].
  2:{ exists "systolic_bp", df. rewrite Hid.
      block_raises "systolic_bp" "systolic_bp" Hl idtac.
      split_and!; [compute_done|done|done|apply extends_refl|done]. }
  destruct (decide ("diastolic_bp" ∈ columns df)) as [Hdia|Hdia].
  2:{ exists "diastolic_bp", df. rewrite Hid.
      block_raises "systolic_bp" "diastolic_bp" Hl
        ltac:(rewrite (bind_run _ _ _ _ _ (read_column_ok _ _ _ _ Hl Hsys))).
      split_and!; [compute_done|done|done|apply extends_refl|done]. }
  match goal with
  | |- context [bind (bind (read_column data "systolic_bp") ?k) ?rest h] =>
      destruct (assign_step h data df "pulse_pressure"
                  (zip_with vsub (column_values df "systolic_bp")
                     (column_values df "diastolic_bp"))
                  (bind (read_column data "systolic_bp") k) Hl)
        as (df1 & Hrun1 & Hl1 & Hc1 & Hn1 & Hv1 & Hpp)
  end.
  { rewrite (bind_run _ _ _ _ _ (read_column_ok _ _ _ _ Hl Hsys)).
    rewrite (bind_run _ _ _ _ _ (read_column_ok _ _ _ _ Hl Hdia)). by apply assign_ok. }
  { apply length_zip_with_same; apply column_values_length. }
  rewrite (bind_run _ _ _ _ _ Hrun1).
  assert (He1 : extends df df1).
  { apply (extends_step df df df1 "pulse_pressure");
      [apply extends_refl|compute_done|done..]. }
  assert (Hp1 : "pulse_pressure" ∈ columns df1) by (rewrite Hc1; set_solver).
  (* total / hdl *)
  destruct (decide ("total_cholesterol" ∈ columns df)) as [Htot|Htot].
  2:{ exists "total_cholesterol", df1.
      assert ("total_cholesterol" ∉ columns df1)
        by (rewrite (extends_input df df1) by (done || compute_done); done).
      block_raises "total_cholesterol" "total_cholesterol" Hl1 idtac.
      split_and!; [compute_done|done|done|done|done]. }
  destruct (decide ("hdl_cholesterol" ∈ columns df)) as [Hhdl|Hhdl].
  2:{ exists "hdl_cholesterol", df1.
      assert ("hdl_cholesterol" ∉ columns df1)
        by (rewrite (extends_input df df1) by (done || compute_done); done).
      assert (Htot1 : "total_cholesterol" ∈ columns df1) by (apply He1; done).
      block_raises "total_cholesterol" "hdl_cholesterol" Hl1
        ltac:(rewrite (bind_run _ _ _ _ _ (read_column_ok _ _ _ _ Hl1 Htot1))).
      split_and!; [compute_done|done|done|done|done]. }
  assert (Htot1 : "total_cholesterol" ∈ columns df1) by (apply He1; done).
  assert (Hhdl1 : "hdl_cholesterol" ∈ columns df1) by (apply He1; done).
  match goal with
  | |- context [bind (bind (read_column data "total_cholesterol") ?k) ?rest _] =>
      destruct (assign_step (<[data := df1]> h) data df1 "total_hdl_ratio"
                  (zip_with vdiv (column_values df1 "total_cholesterol")
                     (column_values df1 "hdl_cholesterol"))
                  (bind (read_column data "total_cholesterol") k) Hl1)
        as (df2 & Hrun2 & Hl2 & Hc2 & Hn2 & Hv2 & _)
  end.
  { rewrite (bind_run _ _ _ _ _ (read_column_ok _ _ _ _ Hl1 Htot1)).
    rewrite (bind_run _ _ _ _ _ (read_column_ok _ _ _ _ Hl1 Hhdl1)). by apply assign_ok. }
  { apply length_zip_with_same; apply column_values_length. }
  rewrite (bind_run _ _ _ _ _ Hrun2). rewrite insert_insert_eq in Hl2 |- *.
  assert (He2 : extends df df2).
  { apply (extends_step df df1 df2 "total_hdl_ratio"); [done|compute_done|done..]. }
  assert (Hp2 : "pulse_pressure" ∈ columns df2) by (rewrite Hc2; set_solver).
  assert (Hpp2 : column_values df2 "pulse_pressure"
                 = zip_with vsub (column_values df "systolic_bp")
                     (column_values df "diastolic_bp"))
    by (by rewrite Hv2).
  (* ldl / hdl *)
  destruct (decide ("ldl_cholesterol" ∈ columns df)) as [Hldl|Hldl].
  2:{ exists "ldl_cholesterol", df2.
      assert ("ldl_cholesterol" ∉ columns df2)
        by (rewrite (extends_input df df2) by (done || compute_done); done).
      block_raises "ldl_cholesterol" "ldl_cholesterol" Hl2 idtac.
      split_and!; [compute_done|done|done|done|done]. }
  assert (Hldl2 : "ldl_cholesterol" ∈ columns df2) by (apply He2; done).
  assert (Hhdl2 : "hdl_cholesterol" ∈ columns df2) by (apply He2; done).
  match goal with
  | |- context [bind (bind (read_column data "ldl_cholesterol") ?k) ?rest _] =>
      destruct (assign_step (<[data := df2]> h) data df2 "ldl_hdl_ratio"
                  (zip_with vdiv (column_values df2 "ldl_cholesterol")
                     (column_values df2 "hdl_cholesterol"))
                  (bind (read_column data "ldl_cholesterol") k) Hl2)
        as (df3 & Hrun3 & Hl3 & Hc3 & Hn3 & Hv3 & _)
  end.
  { rewrite (bind_run _ _ _ _ _ (read_column_ok _ _ _ _ Hl2 Hldl2)).
    rewrite (bind_run _ _ _ _ _ (read_column_ok _ _ _ _ Hl2 Hhdl2)). by apply assign_ok. }
  { apply length_zip_with_same; apply column_values_length. }
  rewrite (bind_run _ _ _ _ _ Hrun3). rewrite insert_insert_eq in Hl3 |- *.
  assert (He3 : extends df df3).
  { apply (extends_step df df2 df3 "ldl_hdl_ratio"); [done|compute_done|done..]. }
  assert (Hp3 : "pulse_pressure" ∈ columns df3) by (rewrite Hc3; set_solver).
  assert (Hpp3 : column_values df3 "pulse_pressure"
                 = zip_with vsub (column_values df "systolic_bp")
                     (column_values df "diastolic_bp"))
    by (by rewrite Hv3).
  assert (Hsys3 : "systolic_bp" ∈ columns df3) by (apply He3; done).
  assert (Htot3 : "total_cholesterol" ∈ columns df3) by (apply He3; done).
  (* cardiovascular risk score *)
  destruct (decide ("age" ∈ columns df)) as [Hage|Hage].
  2:{ exists "age", df3.
      assert ("age" ∉ columns df3)
        by (rewrite (extends_input df df3) by (done || compute_done); done).
      block_raises "age" "age" Hl3 idtac.
      split_and!; [compute_done|done|done|done|done]. }
  assert (Hage3 : "age" ∈ columns df3) by (apply He3; done).
  destruct (decide ("bmi" ∈ columns df)) as [Hbmi|Hbmi].
  2:{ exists "bmi", df3.
      assert ("bmi" ∉ columns df3)
        by (rewrite (extends_input df df3) by (done || compute_done); done).
      block_raises "age" "bmi" Hl3
        ltac:(rewrite (bind_run _ _ _ _ _ (read_column_ok _ _ _ _ Hl3 Hage3))).
      split_and!; [compute_done|done|done|done|done]. }
  assert (Hbmi3 : "bmi" ∈ columns df3) by (apply He3; done).
  destruct (decide ("smoking_status" ∈ columns df)) as [Hsmo|Hsmo].
  2:{ exists "smoking_status", df3.
      assert ("smoking_status" ∉ columns df3)
        by (rewrite (extends_input df df3) by (done || compute_done); done).
      block_raises "age" "smoking_status" Hl3
        ltac:(rewrite (bind_run _ _ _ _ _ (read_column_ok _ _ _ _ Hl3 Hage3));
              rewrite (bind_run _ _ _ _ _ (read_column_ok _ _ _ _ Hl3 Hbmi3));
              rewrite (bind_run _ _ _ _ _ (read_column_ok _ _ _ _ Hl3 Hsys3));
              rewrite (bind_run _ _ _ _ _ (read_column_ok _ _ _ _ Hl3 Htot3))).
      split_and!; [compute_done|done|done|done|done]. }
  exfalso. apply Hmiss. intros k Hk. unfold derived_inputs in Hk.
  repeat (apply elem_of_cons in Hk as [->|Hk]; [done|]).
  by apply elem_of_nil in Hk.
Qed.

Lemma length_fillna (d : value) (vs : list value) : length (fillna d vs) = length vs.
Proof. unfold fillna. by rewrite length_fmap. Qed.

(** One pass of the loop of [clean_data]: the default column is written
    into the object, filled where it was missing. *)
Lemma fill_default_spec (h : heap) (l : loc) (w : DataFrame) (c : string) (d : value) :
  h !! l = Some w →
  ∃ w',
    fill_default l (c, d) h = (Ok tt, <[l := w']> h) ∧
    columns w' = {[c]} ∪ columns w ∧ len w' = len w ∧
    (∀ k, k ≠ c → column_values w' k = column_values w k) ∧
    column_values w' c
    = if bool_decide (c ∈ columns w) then fillna d (column_values w c)
      else replicate (len w) d.
Proof.
  intros Hl. unfold fill_default. cbn [fst snd].
  rewrite (bind_run _ _ _ _ _ (load_ok _ _ _ Hl)). unfold has_column.
  case_bool_decide as Hc; cbn [negb].
  - rewrite (bind_run _ _ _ _ _ (read_column_ok _ _ _ _ Hl Hc)).
    rewrite (assign_ok _ _ _ _ _ Hl).
    assert (Hlen : length (fillna d (column_values w c)) = len w)
      by (by rewrite length_fillna, column_values_length).
    eexists. split_and!; [done|done|..].
    + by apply set_column_len.
    + intros k Hk. by apply set_column_values_ne.
    + by apply set_column_values_eq.
  - rewrite (assign_scalar_ok _ _ _ _ _ Hl).
    eexists. split_and!; [done|done|..].
    + apply set_scalar_len.
    + intros k Hk. by apply set_scalar_values_ne.
    + apply set_scalar_values_eq.
Qed.

Lemma fill_defaults_spec (ds : list (string * value)) (h : heap) (l : loc)
    (w : DataFrame) :
  h !! l = Some w → NoDup ds.*1 →
  ∃ w',
    for_each ds (fill_default l) h = (Ok tt, <[l := w']> h) ∧
    columns w' = list_to_set ds.*1 ∪ columns w ∧ len w' = len w ∧
    (∀ k, k ∉ ds.*1 → column_values w' k = column_values w k) ∧
    (∀ c d, (c, d) ∈ ds →
       column_values w' c
       = if bool_decide (c ∈ columns w) then fillna d (column_values w c)
         else replicate (len w) d).
Proof.
  revert h w. induction ds as [|[c d] ds IH]; intros h w Hl Hnd.
  - exists w. cbn [for_each]. unfold ret. rewrite insert_id by done.
    split_and!; [done|set_solver|done|done|].
    intros c d Hin. by apply elem_of_nil in Hin.
  - cbn [fmap list_fmap fst] in Hnd. apply NoDup_cons in Hnd as [Hc Hnd].
    destruct (fill_default_spec h l w c d Hl) as (w1 & Hrun1 & Hc1 & Hn1 & Hv1 & Hcd).
    destruct (IH (<[l := w1]> h) w1 (lookup_insert_eq _ _ _) Hnd)
      as (w' & Hrun & Hc' & Hn' & Hv' & Hds).
    exists w'. cbn [for_each]. rewrite (bind_run _ _ _ _ _ Hrun1), Hrun.
    rewrite insert_insert_eq. split_and!.
    + done.
    + rewrite Hc', Hc1. cbn [fmap list_fmap fst list_to_set]. set_solver.
    + lia.
    + intros k Hk. cbn [fmap list_fmap fst] in Hk.
      rewrite Hv' by set_solver. apply Hv1. set_solver.
    + intros c0 d0 Hin. apply elem_of_cons in Hin as [[= -> ->]|Hin].
      * rewrite Hv' by done. exact Hcd.
      * assert (c0 ≠ c).
        { intros ->. apply Hc. apply list_elem_of_fmap. by exists (c, d0). }
        rewrite (Hds c0 d0 Hin), Hn1, (Hv1 c0) by done.
        rewrite Hc1. destruct (decide (c0 ∈ columns w)).
        -- rewrite !bool_decide_eq_true_2; [done..|set_solver].
        -- rewrite !bool_decide_eq_false_2; [done..|set_solver].
Qed.

Lemma clean_data_run (now : value) (h : heap) (data : loc) (df : DataFrame) :
  h !! data = Some df →
  ∃ df',
    clean_data now (Frame data) h = (Ok data, <[data := df']> h) ∧
    columns df' = {["date"]} ∪ list_to_set defaults.*1 ∪ columns df ∧
    len df' = len df ∧
    (∀ k, k ≠ "date" → k ∉ defaults.*1 → column_values df' k = column_values df k) ∧
    column_values df' "date"
    = (if bool_decide ("date" ∈ columns df) then column_values df "date"
       else replicate (len df) now) ∧
    (∀ c d, (c, d) ∈ defaults →
       column_values df' c
       = if bool_decide (c ∈ columns df) then fillna d (column_values df c)
         else replicate (len df) d).
Proof.
  intros Hl. unfold clean_data.
  rewrite (bind_run (ret data) _ h h data eq_refl).
  rewrite (bind_run _ _ _ _ _ (load_ok _ _ _ Hl)).
  (* the date column *)
  set (df0 := if bool_decide ("date" ∈ columns df) then df else set_scalar "date" now df).
  assert (Hrun0 : (if negb (has_column df "date") then assign_scalar data "date" now
                   else ret tt) h = (Ok tt, <[data := df0]> h)).
  { unfold has_column, df0. case_bool_decide; cbn [negb].
    - unfold ret. by rewrite insert_id.
    - by apply assign_scalar_ok. }
  rewrite (bind_run _ _ _ _ _ Hrun0).
  assert (Hl0 : <[data := df0]> h !! data = Some df0) by apply lookup_insert_eq.
  assert (Hd0 : "date" ∈ columns df0).
  { unfold df0. case_bool_decide; [done|]. unfold set_scalar; simpl. set_solver. }
  assert (Hn0 : len df0 = len df).
  { unfold df0. case_bool_decide; [done|]. apply set_scalar_len. }
  match goal with
  | |- context [bind (bind (read_column data "date") ?k) ?rest _] =>
      destruct (assign_step (<[data := df0]> h) data df0 "date"
                  (column_values df0 "date")
                  (bind (read_column data "date") k) Hl0)
        as (df1 & Hrun1 & Hl1 & Hc1 & Hn1 & Hv1 & Hdate)
  end.
  { rewrite (bind_run _ _ _ _ _ (read_column_ok _ _ _ _ Hl0 Hd0)).
    by apply assign_ok. }
  { apply column_values_length. }
  rewrite (bind_run _ _ _ _ _ Hrun1). rewrite insert_insert_eq in Hl1 |- *.
  (* the defaults *)
  assert (Hnd : NoDup defaults.*1) by compute_done.
  assert (Hnodate : "date" ∉ defaults.*1) by compute_done.
  destruct (fill_defaults_spec defaults (<[data := df1]> h) data df1 Hl1 Hnd)
    as (df' & Hrun & Hc' & Hn' & Hv' & Hds).
  rewrite (bind_run _ _ _ _ _ Hrun). rewrite insert_insert_eq.
  assert (Hcols0 : columns df1 = {["date"]} ∪ columns df).
  { rewrite Hc1. unfold df0. case_bool_decide; [set_solver|].
    unfold set_scalar; simpl. set_solver. }
  assert (Hvals0 : ∀ k, k ≠ "date" → column_values df1 k = column_values df k).
  { intros k Hk. rewrite Hv1 by done. unfold df0. case_bool_decide; [done|].
    by apply set_scalar_values_ne. }
  exists df'. unfold ret. split_and!.
  - done.
  - rewrite Hc', Hcols0.
    generalize (list_to_set (C := gset string) defaults.*1). intros X. set_solver.
  - lia.
  - intros k Hk Hk'. rewrite Hv' by done. by apply Hvals0.
  - rewrite Hv' by done. rewrite Hdate. unfold df0.
    case_bool_decide; [done|]. apply set_scalar_values_eq.
  - intros c d Hin. rewrite (Hds c d Hin).
    assert (c ≠ "date").
    { intros ->. apply Hnodate. apply list_elem_of_fmap. by exists ("date", d). }
    rewrite Hcols0, Hn1, Hn0, Hvals0 by done.
    destruct (decide (c ∈ columns df)).
    + rewrite !bool_decide_eq_true_2; [done..|set_solver].
    + rewrite !bool_decide_eq_false_2; [done..|set_solver].
Qed.

Lemma calculate_health_score_reads_only (h : heap) (data : loc) :
  (calculate_health_score data h).2 = h.
Proof.
  unfold calculate_health_score, bind, load.
  destruct (h !! data) as [df|]; [|done].
  destruct (empty df); [done|]. unfold lift. by destruct (iloc_last df).
Qed.

Lemma calculate_derived_metrics_empty (h : heap) (data : loc) (df : DataFrame) :
  h !! data = Some df → empty df = true →
  calculate_derived_metrics data h = (Ok data, h).
Proof.
  intros Hl He. unfold calculate_derived_metrics.
  by rewrite (bind_run _ _ _ _ _ (load_ok _ _ _ Hl)), He.
Qed.

(** A history of one complete record. *)
Definition record_full : gmap string value :=
  list_to_map
    [("date", num 19000); ("age", num 52); ("bmi", num 27); ("systolic_bp", num 132);
     ("diastolic_bp", num 84); ("glucose_fasting", num 96);
     ("total_cholesterol", num 210); ("hdl_cholesterol", num 50);
     ("ldl_cholesterol", num 120); ("smoking_status", num 0)].
Definition history_full : DataFrame := mkDF (dom record_full) [record_full].

(** C9, as stated, fails: after [calculate_derived_metrics] the caller's
    history is another frame, with a column "pulse_pressure" it did not
    have. *)
Lemma derived_metrics_change_the_history :
  (calculate_derived_metrics 0%nat {[0%nat := history_full]}).2 !! 0%nat
    ≠ Some history_full ∧
  ∃ df',
    (calculate_derived_metrics 0%nat {[0%nat := history_full]}).2 !! 0%nat = Some df' ∧
    "pulse_pressure" ∈ columns df' ∧
    "pulse_pressure" ∉ columns history_full.
Proof.
  destruct (calculate_derived_metrics_run {[0%nat := history_full]} 0%nat history_full)
    as (df' & Hrun & Hcols & _).
  - reflexivity.
  - reflexivity.
  - intros k Hk. unfold derived_inputs in Hk.
    repeat (apply elem_of_cons in Hk as [->|Hk]; [compute_done|]).
    by apply elem_of_nil in Hk.
  - rewrite Hrun. cbn [snd]. rewrite lookup_insert_eq.
    assert (Hin : "pulse_pressure" ∈ columns df').
    { rewrite Hcols. apply elem_of_union_l. compute_done. }
    assert (Hout : "pulse_pressure" ∉ columns history_full) by compute_done.
    split.
    + intros [= ->]. exact (Hout Hin).
    + exists df'. split_and!; [reflexivity|exact Hin|exact Hout].
Qed.

(** C9, amended: [calculate_health_score] and [detect_trends] leave the
    caller's history, and every other frame, as it was.  The other two write
    into the history they are given and return that same object.
    [calculate_derived_metrics] returns an empty history untouched; on a
    history that has the columns it reads it sets the four derived columns;
    when one of those columns is missing it raises a KeyError for a missing
    one, and the derived columns assigned before that read are already
    written into the caller's history: the pulse pressure whenever both
    pressures are columns.  [clean_data] sets the date column and fills the
    default columns.  Every write keeps the number of records and the cells
    of every other column. *)
Theorem history_effects
    (sort_kind : string → list (gmap string value) → list (gmap string value))
    (series_mean : list value → value)
    (now : value) (window : nat) (h : heap) (data : loc) (df : DataFrame) :
  h !! data = Some df →
  (calculate_health_score data h).2 = h ∧
  (∀ l df0, h !! l = Some df0 →
     (detect_trends sort_kind series_mean data window h).2 !! l = Some df0) ∧
  (empty df = true → calculate_derived_metrics data h = (Ok data, h)) ∧
  (empty df = false → (∀ k, k ∈ derived_inputs → k ∈ columns df) →
   ∃ df',
     calculate_derived_metrics data h = (Ok data, <[data := df']> h) ∧
     columns df' = list_to_set derived_columns ∪ columns df ∧
     len df' = len df ∧
     (∀ k, k ∉ derived_columns → column_values df' k = column_values df k)) ∧
  (empty df = false → ¬ (∀ k, k ∈ derived_inputs → k ∈ columns df) →
   ∃ k df',
     k ∈ derived_inputs ∧ k ∉ columns df ∧
     calculate_derived_metrics data h = (Raise (KeyError k), <[data := df']> h) ∧
     columns df ⊆ columns df' ∧
     columns df' ⊆ list_to_set derived_columns ∪ columns df ∧
     len df' = len df ∧
     (∀ k, k ∉ derived_columns → column_values df' k = column_values df k) ∧
     ("systolic_bp" ∈ columns df → "diastolic_bp" ∈ columns df →
      "pulse_pressure" ∈ columns df' ∧
      column_values df' "pulse_pressure"
      = zip_with vsub (column_values df "systolic_bp")
          (column_values df "diastolic_bp"))) ∧
  (∃ df',
     clean_data now (Frame data) h = (Ok data, <[data := df']> h) ∧
     columns df' = {["date"]} ∪ list_to_set defaults.*1 ∪ columns df ∧
     len df' = len df ∧
     (∀ k, k ≠ "date" → k ∉ defaults.*1 → column_values df' k = column_values df k) ∧
     column_values df' "date"
     = (if bool_decide ("date" ∈ columns df) then column_values df "date"
        else replicate (len df) now) ∧
     (∀ c d, (c, d) ∈ defaults →
        column_values df' c
        = if bool_decide (c ∈ columns df) then fillna d (column_values df c)
          else replicate (len df) d)).
Proof.
  intros Hl. split_and!.
  - apply calculate_health_score_reads_only.
  - intros l df0. apply detect_trends_preserves.
  - by apply calculate_derived_metrics_empty.
  - intros He Hin.
    destruct (calculate_derived_metrics_run h data df Hl He Hin)
      as (df' & Hrun & Hc & Hn & Hv & _).
    by exists df'.
  - intros He Hmiss.
    destruct (calculate_derived_metrics_raises h data df Hl He Hmiss)
      as (k & df' & Hk & Hout & Hrun & (Hn & Hsub & Hsup & Hv) & Hpp).
    by exists k, df'.
  - by apply clean_data_run.
Qed.

Lemma history_effects_witness :
  (calculate_health_score 0%nat {[0%nat := history_full]}).2 = {[0%nat := history_full]} ∧
  (∀ l df0, ({[0%nat := history_full]} : gmap nat DataFrame) !! l = Some df0 →
            (detect_trends sort_rows mean 0%nat 30 {[0%nat := history_full]}).2 !! l
            = Some df0) ∧
  (empty history_full = true →
   calculate_derived_metrics 0%nat {[0%nat := history_full]}
   = (Ok 0%nat, {[0%nat := history_full]})) ∧
  (empty history_full = false →
   (∀ k, k ∈ derived_inputs → k ∈ columns history_full) →
   ∃ df',
     calculate_derived_metrics 0%nat {[0%nat := history_full]}
     = (Ok 0%nat, <[0%nat := df']> {[0%nat := history_full]}) ∧
     columns df' = list_to_set derived_columns ∪ columns history_full ∧
     len df' = len history_full ∧
     (∀ k, k ∉ derived_columns →
           column_values df' k = column_values history_full k)) ∧
  (empty history_full = false →
   ¬ (∀ k, k ∈ derived_inputs → k ∈ columns history_full) →
   ∃ k df',
     k ∈ derived_inputs ∧ k ∉ columns history_full ∧
     calculate_derived_metrics 0%nat {[0%nat := history_full]}
     = (Raise (KeyError k), <[0%nat := df']> {[0%nat := history_full]}) ∧
     columns history_full ⊆ columns df' ∧
     columns df' ⊆ list_to_set derived_columns ∪ columns history_full ∧
     len df' = len history_full ∧
     (∀ k, k ∉ derived_columns →
           column_values df' k = column_values history_full k) ∧
     ("systolic_bp" ∈ columns history_full → "diastolic_bp" ∈ columns history_full →
      "pulse_pressure" ∈ columns df' ∧
      column_values df' "pulse_pressure"
      = zip_with vsub (column_values history_full "systolic_bp")
          (column_values history_full "diastolic_bp"))) ∧
  (∃ df',
     clean_data (num 19001) (Frame 0%nat) {[0%nat := history_full]}
     = (Ok 0%nat, <[0%nat := df']> {[0%nat := history_full]}) ∧
     columns df' = {["date"]} ∪ list_to_set defaults.*1 ∪ columns history_full ∧
     len df' = len history_full ∧
     (∀ k, k ≠ "date" → k ∉ defaults.*1 →
           column_values df' k = column_values history_full k) ∧
     column_values df' "date"
     = (if bool_decide ("date" ∈ columns history_full)
        then column_values history_full "date"
        else replicate (len history_full) (num 19001)) ∧
     (∀ c d, (c, d) ∈ defaults →
        column_values df' c
        = if bool_decide (c ∈ columns history_full)
          then fillna d (column_values history_full c)
          else replicate (len history_full) d)).
Proof.
  apply (history_effects sort_rows mean (num 19001) 30 {[0%nat := history_full]} 0%nat
           history_full).
  reflexivity.
Defined.

(** A history whose record has the pressures and no cholesterol reading:
    the call raises, and the pulse pressure is in the caller's history. *)
Definition history_pressures_only : DataFrame :=
  mkDF {["date"; "systolic_bp"; "diastolic_bp"]}
    [list_to_map [("date", num 19000); ("systolic_bp", num 132);
                  ("diastolic_bp", num 84)]].

Lemma derived_metrics_partial_write :
  ∃ df',
    calculate_derived_metrics 0%nat {[0%nat := history_pressures_only]}
    = (Raise (KeyError "total_cholesterol"), {[0%nat := df']}) ∧
    "pulse_pressure" ∈ columns df' ∧
    "pulse_pressure" ∉ columns history_pressures_only ∧
    column_values df' "pulse_pressure" = [num 48].
Proof.
  eexists. split; [vm_compute; reflexivity|].
  split_and!; [compute_done|compute_done|].
  vm_compute. repeat f_equal; apply Qc_is_canon; reflexivity.
Qed.
(** * Further properties *)

(** ** The latest record alone *)

Import HealthDataManager.

Lemma get_latest_data_empty (df : DataFrame) : empty (get_latest_data df) = empty df.
Proof.
  unfold get_latest_data. destruct (empty df) eqn:He; [reflexivity|].
  destruct (empty_false_last df He) as (r & rs & Hr & _).
  unfold empty in *. apply orb_false_iff in He as [Hc _]. cbn [columns rows].
  rewrite Hc. cbn [orb]. apply bool_decide_eq_false. rewrite Hr.
  unfold tail. rewrite length_app. cbn [length].
  replace (length rs + 1 - 1)%nat with (length rs) by lia.
  by rewrite drop_app_length.
Qed.

Lemma get_latest_data_last (df : DataFrame) :
  empty df = false → iloc_last (get_latest_data df) = iloc_last df.
Proof.
  intros He. unfold get_latest_data. rewrite He.
  destruct (empty_false_last df He) as (r & rs & Hr & ->).
  unfold iloc_last. cbn [columns rows]. rewrite Hr.
  unfold tail. rewrite length_app. cbn [length].
  replace (length rs + 1 - 1)%nat with (length rs) by lia.
  by rewrite drop_app_length.
Qed.

(** X1: the engines that read only [iloc[-1]] give the same answer on the
    whole history and on the one-record frame of [get_latest_data]: health
    score, risk scores, risk factors, insights and interventions. *)
Theorem latest_record_suffices
    (predict_proba : string → list value → option value)
    (format_1f format_str : value → string) (risk_scores : list (string * value))
    (h h' : heap) (data data' : loc) (df : DataFrame) :
  h !! data = Some df →
  h' !! data' = Some (get_latest_data df) →
  (calculate_health_score data' h').1 = (calculate_health_score data h).1 ∧
  RiskAssessmentModel.calculate_risk_scores predict_proba (get_latest_data df)
    = RiskAssessmentModel.calculate_risk_scores predict_proba df ∧
  RiskAssessmentModel.analyze_risk_factors (get_latest_data df)
    = RiskAssessmentModel.analyze_risk_factors df ∧
  get_health_insights format_1f format_str (get_latest_data df)
    = get_health_insights format_1f format_str df ∧
  get_interventions format_1f format_str (get_latest_data df) risk_scores
    = get_interventions format_1f format_str df risk_scores.
Proof.
  intros Hl Hl'.
  pose proof (get_latest_data_empty df) as He.
  assert (Hlast : empty df = false → iloc_last (get_latest_data df) = iloc_last df)
    by apply get_latest_data_last.
  split_and!.
  - unfold calculate_health_score.
    rewrite (bind_run _ _ _ _ _ (load_ok _ _ _ Hl)),
      (bind_run _ _ _ _ _ (load_ok _ _ _ Hl')), He.
    destruct (empty df); [done|]. rewrite Hlast by done.
    unfold lift, bind. by destruct (iloc_last df).
  - unfold RiskAssessmentModel.calculate_risk_scores. rewrite He.
    destruct (empty df); [done|]. by rewrite Hlast.
  - unfold RiskAssessmentModel.analyze_risk_factors. rewrite He.
    destruct (empty df); [done|]. by rewrite Hlast.
  - unfold get_health_insights. rewrite He.
    destruct (empty df); [done|]. by rewrite Hlast.
  - unfold get_interventions. rewrite He.
    destruct (empty df); [done|]. by rewrite Hlast.
Qed.

Lemma latest_record_suffices_witness :
  (calculate_health_score 0%nat {[0%nat := get_latest_data history_100_110]}).1
    = (calculate_health_score 0%nat {[0%nat := history_100_110]}).1 ∧
  RiskAssessmentModel.calculate_risk_scores (λ _ _, None) (get_latest_data history_100_110)
    = RiskAssessmentModel.calculate_risk_scores (λ _ _, None) history_100_110 ∧
  RiskAssessmentModel.analyze_risk_factors (get_latest_data history_100_110)
    = RiskAssessmentModel.analyze_risk_factors history_100_110 ∧
  get_health_insights (λ _, "") (λ _, "") (get_latest_data history_100_110)
    = get_health_insights (λ _, "") (λ _, "") history_100_110 ∧
  get_interventions (λ _, "") (λ _, "") (get_latest_data history_100_110)
      sample_risk_scores
    = get_interventions (λ _, "") (λ _, "") history_100_110 sample_risk_scores.
Proof.
  apply (latest_record_suffices (λ _ _, None) (λ _, "") (λ _, "") sample_risk_scores
           {[0%nat := history_100_110]} {[0%nat := get_latest_data history_100_110]}
           0%nat 0%nat history_100_110); reflexivity.
Defined.

(** ** Insights and the health score *)

(** X2: on a non-empty history [get_health_insights] returns at most three
    insights, each of type "warning" or "info", and it returns none exactly
    when the health score takes no points for blood pressure and glucose
    and, for the BMI, none or the 15 points of an underweight: an
    underweight is penalised but never reported. *)
Theorem insights_follow_the_penalties (format_1f format_str : value → string)
    (df : DataFrame) (s : Series) :
  empty df = false →
  iloc_last df = Ok s →
  ∃ insights,
    get_health_insights format_1f format_str df = Ok insights ∧
    (length insights ≤ 3)%nat ∧
    (∀ i, i ∈ insights → insight_type i = "warning" ∨ insight_type i = "info") ∧
    (insights = [] ↔
       blood_pressure_penalty s 0 = 0 ∧ glucose_penalty s 0 = 0 ∧
       (bmi_penalty s 0 = 0 ∨ bmi_penalty s 0 = -15)).
Proof.
  intros He Hs. unfold get_health_insights. rewrite He, Hs. cbn [rbind].
  eexists. split; [reflexivity|].
  unfold blood_pressure_penalty, glucose_penalty, bmi_penalty.
  (destruct (get s "bmi" 25 >. 30);
     [|destruct (get s "bmi" 25 >. 25); [|destruct (get s "bmi" 25 <. dec 185 10)]]);
  (destruct ((get s "systolic_bp" 120 >. 140) || (get s "diastolic_bp" 80 >. 90));
     [|destruct ((get s "systolic_bp" 120 >. 130) || (get s "diastolic_bp" 80 >. 80))]);
  (destruct (get s "glucose_fasting" 90 >. 126);
     [|destruct (get s "glucose_fasting" 90 >. 100)]);
    cbn [app length];
    (split_and!;
     [lia
     |intros i Hi;
      repeat (apply elem_of_cons in Hi as [->|Hi]; [cbn; tauto|]);
      by apply elem_of_nil in Hi
     |split; [intros H; try discriminate H; lia|intros (? & ? & [?|?]); done || lia]]).
Qed.

Lemma insights_follow_the_penalties_witness :
  ∃ insights,
    get_health_insights (λ _, "") (λ _, "") history_low_hdl = Ok insights ∧
    (length insights ≤ 3)%nat ∧
    (∀ i, i ∈ insights → insight_type i = "warning" ∨ insight_type i = "info") ∧
    (insights = [] ↔
       blood_pressure_penalty (mkSeries (columns history_low_hdl) record_low_hdl) 0 = 0 ∧
       glucose_penalty (mkSeries (columns history_low_hdl) record_low_hdl) 0 = 0 ∧
       (bmi_penalty (mkSeries (columns history_low_hdl) record_low_hdl) 0 = 0 ∨
        bmi_penalty (mkSeries (columns history_low_hdl) record_low_hdl) 0 = -15)).
Proof.
  apply (insights_follow_the_penalties (λ _, "") (λ _, "") history_low_hdl
           (mkSeries (columns history_low_hdl) record_low_hdl)); reflexivity.
Defined.

(** ** Risk factors *)

Definition well_formed (factors : list (string * value)) : Prop :=
  NoDup factors.*1 ∧
  Forall (λ lx, (num 0 <. lx.2) = true ∧ (lx.2 <=. num 1) = true) factors ∧
  ¬ ("Obesity" ∈ factors.*1 ∧ "Overweight" ∈ factors.*1) ∧
  ¬ ("High Blood Pressure" ∈ factors.*1 ∧ "Elevated Blood Pressure" ∈ factors.*1) ∧
  ¬ ("High Glucose" ∈ factors.*1 ∧ "Elevated Glucose" ∈ factors.*1).

#[local] Instance well_formed_dec (factors : list (string * value)) :
  Decision (well_formed factors).
Proof. unfold well_formed. apply _. Defined.

(** X3: [analyze_risk_factors] never raises; the labels it returns are
    pairwise distinct, every contribution lies in (0, 1], and of each pair
    Obesity/Overweight, High/Elevated Blood Pressure and High/Elevated Glucose
    at most one label is present. *)
Theorem risk_factors_well_formed (df : DataFrame) :
  ∃ factors,
    RiskAssessmentModel.analyze_risk_factors df = Ok factors ∧
    NoDup factors.*1 ∧
    Forall (λ lx, (num 0 <. lx.2) = true ∧ (lx.2 <=. num 1) = true) factors ∧
    ¬ ("Obesity" ∈ factors.*1 ∧ "Overweight" ∈ factors.*1) ∧
    ¬ ("High Blood Pressure" ∈ factors.*1 ∧ "Elevated Blood Pressure" ∈ factors.*1) ∧
    ¬ ("High Glucose" ∈ factors.*1 ∧ "Elevated Glucose" ∈ factors.*1).
Proof.
  unfold RiskAssessmentModel.analyze_risk_factors.
  destruct (empty df) eqn:He.
  { eexists. split; [reflexivity|]. compute_done. }
  destruct (empty_false_last df He) as (r & rs & _ & ->). cbn [rbind].
  set (s := mkSeries (columns df) r).
  eexists. split; [reflexivity|].
  match goal with |- NoDup (?factors.*1) ∧ _ => change (well_formed factors) end.
  (destruct (get s "bmi" 25 >. 30); [|destruct (get s "bmi" 25 >. 25)]);
  (destruct ((get s "systolic_bp" 120 >. 140) || (get s "diastolic_bp" 80 >. 90));
     [|destruct ((get s "systolic_bp" 120 >. 130) || (get s "diastolic_bp" 80 >. 80))]);
  (destruct (get s "glucose_fasting" 90 >. 126);
     [|destruct (get s "glucose_fasting" 90 >. 100)]);
  destruct (get s "total_cholesterol" 200 >. 240), (get s "hdl_cholesterol" 50 <. 40),
    (get s "exercise_minutes_per_week" 150 <. 75), (get s "smoking_status" 0 ==. 1);
    apply (bool_decide_unpack _); vm_compute; exact I.
Qed.

(** ** The merged alert list *)

Definition has_severity (s : string) (a : Alert) : bool := bool_decide (severity a = s).

Lemma severity_order_inj (a b : Alert) :
  severity a = severity b → severity_order (severity a) = severity_order (severity b).
Proof. by intros ->. Qed.

Lemma insert_alert_filter (s : string) (a : Alert) (l : list Alert) :
  StronglySorted by_severity l →
  List.filter (has_severity s) (insert_alert a l)
  = if has_severity s a then List.filter (has_severity s) l ++ [a]
    else List.filter (has_severity s) l.
Proof.
  induction l as [|b l IH]; intros Hs.
  - cbn. by destruct (has_severity s a).
  - apply StronglySorted_inv in Hs as [Hl Hb]. cbn [insert_alert].
    case_bool_decide as Hlt.
    + cbn [List.filter]. destruct (has_severity s a) eqn:Ha; [|done].
      assert (Hnone : List.filter (has_severity s) (b :: l) = []).
      { apply filter_nil_iff. intros x Hx. unfold has_severity in *.
        apply bool_decide_eq_true in Ha. apply bool_decide_eq_false. intros Hxs.
        assert ((severity_order (severity b) ≤ severity_order (severity x))%nat).
        { apply elem_of_cons in Hx as [->|Hx]; [done|].
          rewrite Forall_forall in Hb. by apply Hb. }
        rewrite Hxs, <- Ha in H. lia. }
      cbn [List.filter] in Hnone. by rewrite Hnone.
    + cbn [List.filter]. rewrite (IH Hl).
      by destruct (has_severity s b), (has_severity s a).
Qed.

Lemma sort_alerts_filter (s : string) (l : list Alert) :
  List.filter (has_severity s) (sort_alerts l) = List.filter (has_severity s) l.
Proof.
  unfold sort_alerts.
  assert (H : ∀ acc, StronglySorted by_severity acc →
            List.filter (has_severity s) (foldl (λ sorted a, insert_alert a sorted) acc l)
            = List.filter (has_severity s) acc ++ List.filter (has_severity s) l).
  { induction l as [|a l IH]; intros acc Hacc; cbn [foldl List.filter].
    - by rewrite app_nil_r.
    - rewrite IH by (by apply insert_alert_sorted).
      rewrite insert_alert_filter by done.
      destruct (has_severity s a); by rewrite <- ?app_assoc. }
  apply (H []). constructor.
Qed.

(** X4: on a history with the columns the checks need, [check_alerts]
    returns every alert of its four passes, none dropped and none merged;
    sorting only groups them by tier, so the alerts of one severity stand in
    the order value, trend, pattern, adherence. *)
Theorem check_alerts_keeps_every_alert (now : value) (df : DataFrame) :
  empty df = false →
  alert_columns df →
  ∃ va ta pa aa alerts,
    _check_value_alerts df = Ok va ∧ _check_trend_alerts df = Ok ta ∧
    _check_pattern_alerts now df = Ok pa ∧ _check_adherence_alerts df = Ok aa ∧
    check_alerts now df = Ok alerts ∧
    alerts ≡ₚ va ++ ta ++ pa ++ aa ∧
    length alerts = (length va + length ta + length pa + length aa)%nat ∧
    ∀ s, List.filter (has_severity s) alerts
         = List.filter (has_severity s) (va ++ ta ++ pa ++ aa).
Proof.
  intros He Hc.
  destruct (_check_value_alerts_ok df He) as [va Hva].
  destruct (_check_trend_alerts_ok df Hc) as [ta Hta].
  destruct (_check_pattern_alerts_ok now df Hc) as [pa Hpa].
  destruct (_check_adherence_alerts_ok df Hc) as [aa Haa].
  exists va, ta, pa, aa, (sort_alerts (va ++ ta ++ pa ++ aa)).
  split_and!; try done.
  - unfold check_alerts. rewrite He, Hva, Hta, Hpa, Haa. cbn [rbind app].
    by rewrite <- !app_assoc.
  - apply sort_alerts_perm.
  - rewrite sort_alerts_perm, !length_app. lia.
  - intros s. apply sort_alerts_filter.
Qed.

Lemma check_alerts_keeps_every_alert_witness :
  ∃ va ta pa aa alerts,
    _check_value_alerts history_systolic_185 = Ok va ∧
    _check_trend_alerts history_systolic_185 = Ok ta ∧
    _check_pattern_alerts (num 19001) history_systolic_185 = Ok pa ∧
    _check_adherence_alerts history_systolic_185 = Ok aa ∧
    check_alerts (num 19001) history_systolic_185 = Ok alerts ∧
    alerts ≡ₚ va ++ ta ++ pa ++ aa ∧
    length alerts = (length va + length ta + length pa + length aa)%nat ∧
    ∀ s, List.filter (has_severity s) alerts
         = List.filter (has_severity s) (va ++ ta ++ pa ++ aa).
Proof.
  apply (check_alerts_keeps_every_alert (num 19001) history_systolic_185).
  - reflexivity.
  - split_and!; [compute_done|intros H; exfalso; vm_compute in H; lia..].
Defined.

(** ** Severities and the summary *)

Definition tiers : list string := ["Critical"; "Warning"; "Info"].

Lemma concat_map_r_elem {A B} (f : A → result (list B)) (xs : list A)
    (l : list B) (b : B) :
  concat_map_r f xs = Ok l → b ∈ l → ∃ x ys, x ∈ xs ∧ f x = Ok ys ∧ b ∈ ys.
Proof.
  revert l. induction xs as [|x xs IH]; intros l; cbn [concat_map_r].
  - intros [= <-] Hb. by apply elem_of_nil in Hb.
  - destruct (f x) as [ys|e] eqn:Hfx; [|done]. cbn [rbind].
    destruct (concat_map_r f xs) as [zs|e] eqn:Hrest; [|done]. cbn [rbind].
    intros [= <-] Hb. apply elem_of_app in Hb as [Hb|Hb].
    + exists x, ys. split_and!; [by left|done..].
    + destruct (IH zs eq_refl Hb) as (x' & ys' & Hx' & Hf & Hin).
      exists x', ys'. split_and!; [by right|done..].
Qed.

Ltac single_alert H :=
  repeat case_match; 
  first [by apply elem_of_nil in H
        |apply list_elem_of_singleton in H; subst; cbn; compute_done].

Lemma value_alerts_tiers (df : DataFrame) (alerts : list Alert) :
  _check_value_alerts df = Ok alerts → Forall (λ a, severity a ∈ tiers) alerts.
Proof.
  unfold _check_value_alerts. destruct (iloc_last df) as [s|]; [|done].
  cbn [rbind app]. intros [= <-]. rewrite !Forall_app. split_and!;
    apply Forall_forall; intros a Ha; single_alert Ha.
Qed.

Lemma trend_alerts_tiers (df : DataFrame) (alerts : list Alert) :
  _check_trend_alerts df = Ok alerts →
  Forall (λ a, severity a ∈ ["Warning"; "Info"]) alerts.
Proof.
  unfold _check_trend_alerts. case_bool_decide; [by intros [= <-]|].
  match goal with
  | |- context [concat_map_r ?f ?xs] => destruct (concat_map_r f xs) as [rapid|] eqn:Hr
  end; [|done].
  cbn [rbind]. destruct (column df "exercise_minutes_per_week") as [ex|]; [|done].
  cbn [rbind]. intros [= <-]. rewrite Forall_app. split.
  - apply Forall_forall. intros x Hx.
    destruct (concat_map_r_elem _ _ _ _ Hr Hx) as ([m t] & ys & _ & Hf & Hin).
    cbn [fst snd] in Hf. clear Hr Hx.
    destruct (has_column df m); [|injection Hf as <-; by apply elem_of_nil in Hin].
    destruct (column df "date") as [dates|]; [|done]. cbn [rbind] in Hf.
    case_bool_decide; [|injection Hf as <-; by apply elem_of_nil in Hin].
    match goal with
    | H : rbind ?c _ = _ |- _ => destruct c as [vs|]; [|done]
    end.
    cbn [rbind] in Hf. case_match; injection Hf as <-.
    + apply list_elem_of_singleton in Hin as ->. compute_done.
    + by apply elem_of_nil in Hin.
  - apply Forall_forall. intros x Hx. single_alert Hx.
Qed.

Lemma pattern_alerts_tiers (now : value) (df : DataFrame) (alerts : list Alert) :
  _check_pattern_alerts now df = Ok alerts → Forall (λ a, severity a = "Info") alerts.
Proof.
  unfold _check_pattern_alerts. destruct (column df "date") as [dates|]; [|done].
  cbn [rbind app]. intros [= <-].
  repeat case_match; repeat (apply Forall_app; split); repeat constructor.
Qed.

Lemma adherence_alerts_tiers (df : DataFrame) (alerts : list Alert) :
  _check_adherence_alerts df = Ok alerts → Forall (λ a, severity a = "Info") alerts.
Proof.
  unfold _check_adherence_alerts. case_bool_decide; [|by intros [= <-]].
  destruct (column df "systolic_bp"); [|done]. cbn [rbind].
  destruct (column df "diastolic_bp"); [|done]. cbn [rbind].
  repeat case_match; intros [= <-]; repeat constructor.
Qed.

(** What a returned alert list is made of. *)
Lemma check_alerts_inv (now : value) (df : DataFrame) (alerts : list Alert) :
  check_alerts now df = Ok alerts →
  StronglySorted by_severity alerts ∧
  Forall (λ a, severity a ∈ tiers) alerts ∧
  (∀ a, a ∈ alerts → severity a = "Critical" →
        ∃ va, _check_value_alerts df = Ok va ∧ a ∈ va).
Proof.
  unfold check_alerts. destruct (empty df).
  { intros [= <-]. split_and!; [constructor|constructor|].
    intros a Ha. by apply elem_of_nil in Ha. }
  destruct (_check_value_alerts df) as [va|] eqn:Hva; [|done]. cbn [rbind].
  destruct (_check_trend_alerts df) as [ta|] eqn:Hta; [|done]. cbn [rbind].
  destruct (_check_pattern_alerts now df) as [pa|] eqn:Hpa; [|done]. cbn [rbind].
  destruct (_check_adherence_alerts df) as [aa|] eqn:Haa; [|done]. cbn [rbind app].
  intros [= <-].
  pose proof (value_alerts_tiers _ _ Hva) as Tva.
  pose proof (trend_alerts_tiers _ _ Hta) as Tta.
  pose proof (pattern_alerts_tiers _ _ _ Hpa) as Tpa.
  pose proof (adherence_alerts_tiers _ _ Haa) as Taa.
  rewrite Forall_forall in Tva, Tta, Tpa, Taa.
  split_and!.
  - apply sort_alerts_sorted.
  - apply Forall_forall. intros a Ha. apply (proj1 (sort_alerts_elem _ _)) in Ha.
    rewrite !elem_of_app in Ha. destruct Ha as [[[Ha|Ha]|Ha]|Ha].
    + by apply Tva.
    + specialize (Tta a Ha). unfold tiers. set_solver.
    + rewrite (Tpa a Ha). compute_done.
    + rewrite (Taa a Ha). compute_done.
  - intros a Ha Hs. apply (proj1 (sort_alerts_elem _ _)) in Ha.
    rewrite !elem_of_app in Ha. destruct Ha as [[[Ha|Ha]|Ha]|Ha].
    + by exists va.
    + specialize (Tta a Ha). rewrite Hs in Tta. exfalso. set_solver.
    + specialize (Tpa a Ha). congruence.
    + specialize (Taa a Ha). congruence.
Qed.

Lemma count_tiers (alerts : list Alert) :
  Forall (λ a, severity a ∈ tiers) alerts →
  length alerts
  = (count_severity "Critical" alerts + count_severity "Warning" alerts
     + count_severity "Info" alerts)%nat.
Proof.
  unfold count_severity. induction 1 as [|a l Ha _ IH]; [done|].
  cbn [List.filter length]. unfold tiers in Ha.
  repeat (apply elem_of_cons in Ha as [Ha|Ha];
          [rewrite Ha; repeat (case_bool_decide; try done); cbn [length]; lia|]).
  by apply elem_of_nil in Ha.
Qed.

Lemma severity_order_0 (s : string) : severity_order s = 0%nat → s = "Critical".
Proof. unfold severity_order. by repeat case_bool_decide. Qed.

(** X5: whenever [check_alerts] returns, [get_alert_summary] returns too;
    its total is the sum of its three tier counts, and the alert it shows as
    "most_recent" is the first of the sorted list, so a Critical one whenever
    there is any, and absent only when there are no alerts. *)
Theorem alert_summary_counts (now : value) (df : DataFrame) (alerts : list Alert) :
  check_alerts now df = Ok alerts →
  ∃ summary,
    get_alert_summary now df = Ok summary ∧
    total_alerts summary = length alerts ∧
    total_alerts summary
    = (critical_alerts summary + warning_alerts summary + info_alerts summary)%nat ∧
    ((0 < critical_alerts summary)%nat →
     ∃ a, most_recent summary = Some a ∧ severity a = "Critical") ∧
    (most_recent summary = None ↔ total_alerts summary = 0%nat).
Proof.
  intros Hrun. destruct (check_alerts_inv _ _ _ Hrun) as (Hsorted & Htiers & _).
  unfold get_alert_summary. rewrite Hrun. cbn [rbind].
  eexists. split; [reflexivity|]. cbn. split_and!.
  - done.
  - by apply count_tiers.
  - intros Hc. destruct alerts as [|a l]; [cbn in Hc; lia|].
    exists a. split; [done|].
    assert (∃ x, x ∈ a :: l ∧ severity x = "Critical") as (x & Hx & Hsx).
    { unfold count_severity in Hc.
      destruct (List.filter _ (a :: l)) as [|x f] eqn:Hf; [cbn in Hc; lia|].
      assert (Hin : In x (List.filter (λ a0, bool_decide (severity a0 = "Critical")) (a :: l)))
        by (rewrite Hf; by left).
      apply filter_In in Hin as [Hin Hp]. exists x.
      split; [by apply list_elem_of_In|by apply bool_decide_eq_true in Hp]. }
    apply severity_order_0.
    apply elem_of_cons in Hx as [->|Hx]; [by rewrite Hsx|].
    apply StronglySorted_inv in Hsorted as [_ Ha]. rewrite Forall_forall in Ha.
    specialize (Ha x Hx). unfold by_severity in Ha. rewrite Hsx in Ha.
    change (severity_order "Critical") with 0%nat in Ha. lia.
  - destruct alerts; cbn; split; intros; done || lia.
Qed.

(** The alerts of the one-record history with a systolic pressure of 185:
    the three value alerts of the reading and the notice of missing
    metrics. *)
Definition alerts_systolic_185 : list Alert := Eval vm_compute in
    match check_alerts (num 19001) history_systolic_185 with
    | Ok alerts => alerts
    | Raise _ => []
    end.

Lemma alert_summary_counts_witness :
  check_alerts (num 19001) history_systolic_185 = Ok alerts_systolic_185 ∧
  ∃ summary,
    get_alert_summary (num 19001) history_systolic_185 = Ok summary ∧
    total_alerts summary = 4%nat ∧
    critical_alerts summary = 1%nat ∧
    warning_alerts summary = 1%nat ∧
    info_alerts summary = 2%nat ∧
    ∃ a, most_recent summary = Some a ∧ severity a = "Critical".
Proof.
  assert (Hrun : check_alerts (num 19001) history_systolic_185 = Ok alerts_systolic_185)
    by (vm_compute; reflexivity).
  split; [exact Hrun|].
  destruct (alert_summary_counts (num 19001) history_systolic_185 alerts_systolic_185 Hrun)
    as (summary & Hs & Ht & Hsum & Hc & Hn).
  exists summary.
  assert (Hcrit : critical_alerts summary = 1%nat ∧ warning_alerts summary = 1%nat
                  ∧ info_alerts summary = 2%nat).
  { unfold get_alert_summary in Hs. rewrite Hrun in Hs. cbn [rbind] in Hs.
    injection Hs as <-. cbn [critical_alerts warning_alerts info_alerts].
    split_and!; reflexivity. }
  destruct Hcrit as (Hcr & Hw & Hi).
  split_and!; [exact Hs|rewrite Ht; reflexivity|exact Hcr|exact Hw|exact Hi|].
  apply Hc. rewrite Hcr. lia.
Defined.

(** ** Histories without a date column *)

Lemma column_missing (df : DataFrame) (k : string) :
  k ∉ columns df → column df k = Raise (KeyError k).
Proof. intros H. unfold column, has_column. by rewrite bool_decide_eq_false_2. Qed.

Lemma concat_map_r_nil_or_raise {A B} (f : A → result (list B)) (xs : list A) (e : exn) :
  (∀ x, f x = Ok [] ∨ f x = Raise e) →
  concat_map_r f xs = Ok [] ∨ concat_map_r f xs = Raise e.
Proof.
  intros Hf. induction xs as [|x xs IH]; cbn [concat_map_r]; [by left|].
  destruct (Hf x) as [->| ->]; [|by right]. cbn [rbind].
  destruct IH as [->| ->]; [by left|by right].
Qed.

(** X6: a non-empty history without a "date" column makes [check_alerts]
    raise a KeyError: for "date", or for "exercise_minutes_per_week" when
    that column is missing too and is read first. *)
Theorem check_alerts_without_date (now : value) (df : DataFrame) :
  empty df = false →
  "date" ∉ columns df →
  check_alerts now df = Raise (KeyError "date") ∨
  ("exercise_minutes_per_week" ∉ columns df ∧ (2 ≤ len df)%nat ∧
   check_alerts now df = Raise (KeyError "exercise_minutes_per_week")).
Proof.
  intros He Hd. unfold check_alerts. rewrite He.
  destruct (_check_value_alerts_ok df He) as [va ->]. cbn [rbind].
  assert (Hpattern : _check_pattern_alerts now df = Raise (KeyError "date")).
  { unfold _check_pattern_alerts. by rewrite (column_missing df "date"). }
  unfold _check_trend_alerts. case_bool_decide as Hlen.
  { cbn [rbind]. rewrite Hpattern. by left. }
  match goal with
  | |- context [concat_map_r ?f ?xs] =>
      destruct (concat_map_r_nil_or_raise f xs (KeyError "date")) as [-> | ->]
  end.
  - intros [m t]. cbn [fst snd]. destruct (has_column df m); [right|by left].
    by rewrite (column_missing df "date").
  - cbn [rbind]. destruct (decide ("exercise_minutes_per_week" ∈ columns df)) as [Hex|Hex].
    + rewrite (column_ok df _ Hex). cbn [rbind]. rewrite Hpattern. by left.
    + rewrite (column_missing df _ Hex). cbn [rbind]. right. split_and!; [done|lia|done].
  - by left.
Qed.

Lemma check_alerts_without_date_witness :
  check_alerts (num 19001) (mkDF {["systolic_bp"]} [{["systolic_bp" := num 185]}])
    = Raise (KeyError "date") ∨
  ("exercise_minutes_per_week" ∉ columns (mkDF {["systolic_bp"]} [{["systolic_bp" := num 185]}]) ∧
   (2 ≤ len (mkDF {["systolic_bp"]} [{["systolic_bp" := num 185]}]))%nat ∧
   check_alerts (num 19001) (mkDF {["systolic_bp"]} [{["systolic_bp" := num 185]}])
     = Raise (KeyError "exercise_minutes_per_week")).
Proof.
  apply (check_alerts_without_date (num 19001)
           (mkDF {["systolic_bp"]} [{["systolic_bp" := num 185]}])).
  - reflexivity.
  - compute_done.
Defined.

(** X7: [detect_trends] on a non-empty history of two or more records
    without a "date" column raises KeyError "date" and leaves the store as it
    was; with the column it returns, and it reports exactly the tracked
    metrics that are columns of the history. *)
Theorem detect_trends_date_column
    (sort_kind : string → list (gmap string value) → list (gmap string value))
    (series_mean : list value → value)
    (h : heap) (data : loc) (df : DataFrame) (window : nat) :
  ascending sort_kind →
  h !! data = Some df →
  empty df = false →
  (2 ≤ len df)%nat →
  ("date" ∉ columns df →
   detect_trends sort_kind series_mean data window h = (Raise (KeyError "date"), h)) ∧
  ("date" ∈ columns df →
   ∃ trends,
     (detect_trends sort_kind series_mean data window h).1 = Ok trends ∧
     ∀ m, is_Some (trends !! m) ↔ m ∈ metrics ∧ m ∈ columns df).
Proof.
  intros Hsort Hl He H2. split.
  - intros Hd. unfold detect_trends. rewrite (bind_run _ _ _ _ _ (load_ok _ _ _ Hl)).
    rewrite He. rewrite (bool_decide_eq_false_2 (len df < 2)%nat) by lia. cbn [orb].
    unfold sort_values, has_column. rewrite bool_decide_eq_false_2 by done.
    reflexivity.
  - intros Hd.
    destruct (detect_trends_run sort_kind series_mean h data df window Hsort Hl H2 Hd)
      as (trends & work & Hrun & Hlook).
    exists trends. rewrite Hrun. split; [done|].
    intros m. rewrite Hlook. case_bool_decide as Hm.
    + split; [done|by eexists].
    + split; [intros [? ?]; done|done].
Qed.

Lemma detect_trends_date_column_witness :
  ("date" ∉ columns history_100_110 →
   detect_trends sort_rows mean 0%nat 30 {[0%nat := history_100_110]}
   = (Raise (KeyError "date"), {[0%nat := history_100_110]})) ∧
  ("date" ∈ columns history_100_110 →
   ∃ trends,
     (detect_trends sort_rows mean 0%nat 30 {[0%nat := history_100_110]}).1 = Ok trends ∧
     ∀ m, is_Some (trends !! m) ↔ m ∈ metrics ∧ m ∈ columns history_100_110).
Proof.
  apply (detect_trends_date_column sort_rows mean {[0%nat := history_100_110]} 0%nat
           history_100_110 30).
  - exact sort_rows_ascending.
  - reflexivity.
  - reflexivity.
  - unfold len. simpl. lia.
Defined.

(** ** The stored history *)

Lemma cell_restrict (cols : gset string) (r : gmap string value) (k : string) :
  k ∈ cols → cell (restrict cols r) k = cell r k.
Proof.
  intros Hk. unfold cell, restrict. destruct (r !! k) as [v|] eqn:Hr.
  - by rewrite (map_lookup_filter_Some_2 _ _ k v).
  - by rewrite map_lookup_filter_None_2; [|left].
Qed.

(** What an ascending sort does with a record that sorts after all the
    others, and with records that are in strictly ascending order already:
    there the result does not depend on which ascending sort it is. *)
Lemma ascending_last
    (sort_kind : string → list (gmap string value) → list (gmap string value))
    (k : string) (old : list (gmap string value)) (r : gmap string value) :
  ascending sort_kind →
  Forall (λ r', sorts_before (cell r' k) (cell r k) = true) old →
  ∃ init, sort_kind k (old ++ [r]) = init ++ [r] ∧ init ≡ₚ old.
Proof.
  intros Hsort Hold. destruct (Hsort k (old ++ [r])) as [Hperm Hsorted].
  destruct (sort_kind k (old ++ [r])) as [|z0 l0 _] using rev_ind.
  { apply Permutation_nil_l in Hperm. by destruct old. }
  assert (z0 = r) as ->.
  { destruct (decide (z0 = r)) as [|Hne]; [done|exfalso].
    assert (Hz : z0 ∈ old).
    { assert (Hin : z0 ∈ old ++ [r]) by (rewrite <- Hperm; set_solver).
      apply elem_of_app in Hin as [?|Hin]; [done|].
      by apply list_elem_of_singleton in Hin. }
    assert (Hr : r ∈ l0).
    { assert (Hin : r ∈ l0 ++ [z0]) by (rewrite Hperm; set_solver).
      apply elem_of_app in Hin as [?|Hin]; [done|].
      apply list_elem_of_singleton in Hin. congruence. }
    pose proof (StronglySorted_app_1_elem_of _ l0 [z0] r z0 Hsorted Hr
                  ltac:(by left)) as Hna.
    rewrite Forall_forall in Hold. specialize (Hold z0 Hz).
    unfold not_after in Hna. congruence. }
  exists l0. split; [done|]. by apply Permutation_app_inv_r in Hperm.
Qed.

Lemma ascending_unique (k : string) (rs l : list (gmap string value)) :
  StronglySorted (λ a b, sorts_before (cell a k) (cell b k) = true) rs →
  l ≡ₚ rs → StronglySorted (not_after k) l → l = rs.
Proof.
  intros Hs. revert l. induction Hs as [|x xs Hs IH Hx]; intros l Hperm Hl.
  { by apply Permutation_nil_r in Hperm. }
  destruct l as [|y ys]; [by apply Permutation_nil_cons in Hperm|].
  apply StronglySorted_inv in Hl as [Hys Hy].
  assert (y = x) as ->.
  { assert (Hin : y ∈ x :: xs) by (rewrite <- Hperm; by left).
    apply elem_of_cons in Hin as [?|Hin]; [done|exfalso].
    rewrite Forall_forall in Hx. specialize (Hx y Hin).
    assert (Hin' : x ∈ y :: ys) by (rewrite Hperm; by left).
    apply elem_of_cons in Hin' as [->|Hin'].
    - pose proof (sorts_before_asym _ _ Hx). congruence.
    - rewrite Forall_forall in Hy. specialize (Hy x Hin').
      unfold not_after in Hy. congruence. }
  f_equal. apply IH; [|done]. by apply Permutation_cons_inv in Hperm.
Qed.

Lemma ascending_sorted_id
    (sort_kind : string → list (gmap string value) → list (gmap string value))
    (k : string) (rs : list (gmap string value)) :
  ascending sort_kind →
  StronglySorted (λ a b, sorts_before (cell a k) (cell b k) = true) rs →
  sort_kind k rs = rs.
Proof.
  intros Hsort Hs. destruct (Hsort k rs) as [Hperm Hsorted].
  by apply (ascending_unique k).
Qed.

(** X8: [add_health_data] answers what the save answers, gives the record
    a date when it has none and leaves a dated one as it is, and leaves a
    history that holds the old records and the new one, in date order
    whatever the order was before. *)
Theorem add_health_data_sorts (save : DataFrame → bool)
    (sort_kind : string → list (gmap string value) → list (gmap string value))
    (now : value) (data : gmap string value) (health_data : DataFrame) :
  ascending sort_kind →
  ∃ data' history,
    add_health_data save sort_kind now data health_data = (save history, history, data') ∧
    data' = (if bool_decide ("date" ∈ dom data) then data else <["date" := now]> data) ∧
    "date" ∈ dom data' ∧
    columns history = (if empty health_data then ∅ else columns health_data) ∪ dom data' ∧
    rows history ≡ₚ
      (if empty health_data then []
       else restrict (columns health_data) <$> rows health_data) ++ [data'] ∧
    StronglySorted (not_after "date") (rows history).
Proof.
  intros Hsort. unfold add_health_data.
  set (data' := if bool_decide ("date" ∈ dom data) then data else <["date" := now]> data).
  assert (Hd : "date" ∈ dom data').
  { unfold data'. case_bool_decide; [done|]. set_solver. }
  set (joined := if empty health_data then mkDF (dom data') [data']
                 else concat health_data (mkDF (dom data') [data'])).
  assert (Hcols : columns joined = (if empty health_data then ∅ else columns health_data) ∪ dom data').
  { unfold joined. destruct (empty health_data); cbn; set_solver. }
  assert (Hrows : rows joined ≡ₚ
    (if empty health_data then []
     else restrict (columns health_data) <$> rows health_data) ++ [data']).
  { unfold joined. destruct (empty health_data); cbn [rows columns concat fmap list_fmap app]; [done|].
    assert (restrict (dom data') data' = data') as ->; [|done].
    unfold restrict. apply map_filter_id. intros i x Hi. cbn. by apply elem_of_dom_2 in Hi. }
  unfold sort_values, has_column. rewrite bool_decide_eq_true_2 by (rewrite Hcols; set_solver).
  destruct (Hsort "date" (rows joined)) as [Hperm Hsorted].
  exists data', (mkDF (columns joined) (sort_kind "date" (rows joined))).
  split_and!; try done.
  cbn [rows]. by rewrite Hperm.
Qed.

Lemma add_health_data_sorts_witness :
  ∃ data' history,
    add_health_data (λ _, true) sort_rows (num 19010) {["systolic_bp" := num 120]}
      history_100_110 = (true, history, data') ∧
    data' = (if bool_decide ("date" ∈ dom ({["systolic_bp" := num 120]} : gmap string value))
             then {["systolic_bp" := num 120]}
             else <["date" := num 19010]> {["systolic_bp" := num 120]}) ∧
    "date" ∈ dom data' ∧
    columns history
    = (if empty history_100_110 then ∅ else columns history_100_110) ∪ dom data' ∧
    rows history ≡ₚ
      (if empty history_100_110 then []
       else restrict (columns history_100_110) <$> rows history_100_110) ++ [data'] ∧
    StronglySorted (not_after "date") (rows history).
Proof.
  apply (add_health_data_sorts (λ _, true) sort_rows (num 19010)
           {["systolic_bp" := num 120]} history_100_110).
  exact sort_rows_ascending.
Defined.

(** X9: a record dated after every record of a history that has a date
    column becomes the latest one: [get_latest_data] then gives that record
    alone, so every reading of the latest record sees it. *)
Theorem added_record_is_latest (save : DataFrame → bool)
    (sort_kind : string → list (gmap string value) → list (gmap string value))
    (now : value) (data : gmap string value) (health_data : DataFrame) :
  ascending sort_kind →
  "date" ∈ dom data →
  "date" ∈ columns health_data →
  Forall (λ r, sorts_before (cell r "date") (cell data "date") = true) (rows health_data) →
  ∃ history,
    add_health_data save sort_kind now data health_data = (save history, history, data) ∧
    list.last (rows history) = Some data ∧
    rows (get_latest_data history) = [data] ∧
    iloc_last history = Ok (mkSeries (columns history) data).
Proof.
  intros Hsort Hd Hc Hall. unfold add_health_data.
  rewrite bool_decide_eq_true_2 by done.
  set (joined := if empty health_data then mkDF (dom data) [data]
                 else concat health_data (mkDF (dom data) [data])).
  assert (Hin : "date" ∈ columns joined).
  { unfold joined. destruct (empty health_data); cbn; set_solver. }
  assert (Hrestrict : restrict (dom data) data = data).
  { unfold restrict. apply map_filter_id. intros i x Hi. cbn. by apply elem_of_dom_2 in Hi. }
  assert (Hrows : ∃ old, rows joined = old ++ [data] ∧
            Forall (λ r, sorts_before (cell r "date") (cell data "date") = true) old).
  { unfold joined. destruct (empty health_data).
    - by exists [].
    - exists (restrict (columns health_data) <$> rows health_data).
      cbn [rows columns concat fmap list_fmap]. rewrite Hrestrict. split; [done|].
      rewrite Forall_fmap. eapply Forall_impl; [exact Hall|].
      intros r Hr. cbn. by rewrite cell_restrict. }
  destruct Hrows as (old & Hrows & Hold).
  unfold sort_values, has_column. rewrite bool_decide_eq_true_2 by done.
  eexists. split; [reflexivity|]. cbn [rows columns].
  destruct (ascending_last sort_kind "date" old data Hsort Hold) as (init & Hsorted & _).
  rewrite <- Hrows in Hsorted.
  assert (Hne : empty (mkDF (columns joined) (sort_kind "date" (rows joined))) = false).
  { unfold empty. cbn [rows columns]. rewrite Hsorted.
    rewrite !bool_decide_eq_false_2; [done|by destruct init|set_solver]. }
  split_and!.
  - rewrite Hsorted. apply last_snoc.
  - unfold get_latest_data. rewrite Hne. cbn [rows columns]. rewrite Hsorted.
    unfold tail. rewrite length_app. cbn [length].
    replace (length init + 1 - 1)%nat with (length init) by lia.
    by rewrite drop_app_length.
  - unfold iloc_last. cbn [rows columns]. rewrite Hsorted. by rewrite last_snoc.
Qed.

Lemma added_record_is_latest_witness :
  ∃ history,
    add_health_data (λ _, true) sort_rows (num 19010)
      {["date" := num 19005; "systolic_bp" := num 120]} history_100_110
    = (true, history, {["date" := num 19005; "systolic_bp" := num 120]}) ∧
    list.last (rows history) = Some {["date" := num 19005; "systolic_bp" := num 120]} ∧
    rows (get_latest_data history) = [{["date" := num 19005; "systolic_bp" := num 120]}] ∧
    iloc_last history
    = Ok (mkSeries (columns history) {["date" := num 19005; "systolic_bp" := num 120]}).
Proof.
  apply (added_record_is_latest (λ _, true) sort_rows (num 19010)
           {["date" := num 19005; "systolic_bp" := num 120]} history_100_110).
  - exact sort_rows_ascending.
  - compute_done.
  - compute_done.
  - unfold history_100_110. cbn [rows]. repeat constructor.
Defined.

Lemma StronglySorted_delete {A} (R : A → A → Prop) (i : nat) (xs : list A) :
  StronglySorted R xs → StronglySorted R (delete i xs).
Proof.
  intros Hs. revert i. induction Hs as [|x xs Hs IH Hall]; intros [|i]; cbn;
    [constructor|constructor|done|].
  constructor; [apply IH|].
  eapply Forall_forall. intros y Hy. eapply Forall_forall; [exact Hall|].
  eapply elem_of_sublist; [exact Hy|]. apply sublist_delete.
Qed.

(** X10: [delete_health_data] with an index outside the history answers
    False and changes nothing; with an index inside it the record at that
    index goes, the records after it move up by one and the columns stay;
    either way a history in date order stays in date order. *)
Theorem delete_health_data_removes (save : DataFrame → bool) (index : Z)
    (health_data : DataFrame) :
  ∃ ok history,
    delete_health_data save index health_data = (ok, history) ∧
    columns history = columns health_data ∧
    (StronglySorted (not_after "date") (rows health_data) →
     StronglySorted (not_after "date") (rows history)) ∧
    if bool_decide (0 ≤ index < Z.of_nat (len health_data)) then
      ok = save history ∧
      len health_data = S (len history) ∧
      ∀ j : nat, rows history !! j
                 = rows health_data !! (if bool_decide (j < Z.to_nat index)%nat then j else S j)
    else ok = false ∧ history = health_data.
Proof.
  unfold delete_health_data.
  destruct (index <? 0) eqn:Hneg; [|destruct (Z.of_nat (len health_data) <=? index) eqn:Hbig];
    cbn [orb].
  - exists false, health_data. rewrite bool_decide_eq_false_2 by lia. done.
  - exists false, health_data. rewrite bool_decide_eq_false_2 by lia. done.
  - eexists _, _. split; [reflexivity|]. cbn [rows columns].
    rewrite bool_decide_eq_true_2 by lia.
    assert (Hi : (Z.to_nat index < length (rows health_data))%nat) by (unfold len in *; lia).
    split_and!; try done.
    + apply StronglySorted_delete.
    + unfold len. cbn [rows]. rewrite length_delete by (by apply lookup_lt_is_Some_2). lia.
    + intros j. case_bool_decide.
      * by apply list_lookup_delete_lt.
      * apply list_lookup_delete_ge. lia.
Qed.

(** A history that is not in date order: the later record stands first. *)
Definition history_110_100 : DataFrame :=
  mkDF {["date"; "systolic_bp"]}
    [list_to_map [("date", num 19001); ("systolic_bp", num 110)];
     list_to_map [("date", num 19000); ("systolic_bp", num 100)]].

Lemma delete_health_data_removes_witness :
  ¬ StronglySorted (not_after "date") (rows history_110_100) ∧
  ∃ ok history,
    delete_health_data (λ _, true) 0 history_110_100 = (ok, history) ∧
    columns history = columns history_110_100 ∧
    (StronglySorted (not_after "date") (rows history_110_100) →
     StronglySorted (not_after "date") (rows history)) ∧
    if bool_decide (0 ≤ 0 < Z.of_nat (len history_110_100)) then
      ok = true ∧
      len history_110_100 = S (len history) ∧
      ∀ j : nat, rows history !! j
                 = rows history_110_100 !! (if bool_decide (j < Z.to_nat 0)%nat then j else S j)
    else ok = false ∧ history = history_110_100.
Proof.
  split.
  - intros Hs. unfold history_110_100 in Hs. cbn [rows] in Hs.
    apply StronglySorted_inv in Hs as [_ Hs].
    apply Forall_cons in Hs as [Hs _]. vm_compute in Hs. discriminate Hs.
  - apply (delete_health_data_removes (λ _, true) 0 history_110_100).
Defined.

(** X11: adding a record dated after every record of a history with
    strictly increasing dates, and then deleting the last index, gives back
    the history (the record brings no column of its own). *)
Theorem add_then_delete (save : DataFrame → bool)
    (sort_kind : string → list (gmap string value) → list (gmap string value))
    (now : value) (data : gmap string value) (health_data : DataFrame) :
  ascending sort_kind →
  empty health_data = false →
  "date" ∈ dom data →
  dom data ⊆ columns health_data →
  Forall (λ r, dom r ⊆ columns health_data) (rows health_data) →
  StronglySorted (λ a b, sorts_before (cell a "date") (cell b "date") = true)
    (rows health_data) →
  Forall (λ r, sorts_before (cell r "date") (cell data "date") = true) (rows health_data) →
  ∃ history,
    add_health_data save sort_kind now data health_data = (save history, history, data) ∧
    len history = S (len health_data) ∧
    delete_health_data save (Z.of_nat (len health_data)) history
    = (save health_data, health_data).
Proof.
  intros Hsort He Hd Hsub Hdom Hs Hall. unfold add_health_data.
  rewrite bool_decide_eq_true_2 by done. rewrite He.
  assert (Hold : restrict (columns health_data) <$> rows health_data = rows health_data).
  { rewrite <- (list_fmap_id (rows health_data)) at 2. apply Forall_fmap_ext.
    eapply Forall_impl; [exact Hdom|]. intros r Hr. cbn. unfold restrict.
    apply map_filter_id. intros i x Hi. cbn. apply Hr. by apply elem_of_dom_2 in Hi. }
  assert (Hnew : restrict (dom data) data = data).
  { unfold restrict. apply map_filter_id. intros i x Hi. cbn. by apply elem_of_dom_2 in Hi. }
  unfold sort_values, has_column, concat. cbn [rows columns fmap list_fmap].
  rewrite bool_decide_eq_true_2 by set_solver.
  rewrite Hold, Hnew.
  assert (Hsorted : sort_kind "date" (rows health_data ++ [data])
                    = rows health_data ++ [data]).
  { apply ascending_sorted_id; [done|]. apply StronglySorted_app_2; [|done|].
    - intros x1 x2 Hx1 ->%list_elem_of_singleton.
      rewrite Forall_forall in Hall. by apply Hall.
    - repeat constructor. }
  rewrite Hsorted.
  assert (Hcols : columns health_data ∪ dom data = columns health_data) by set_solver.
  rewrite Hcols.
  eexists. split; [reflexivity|]. unfold len. cbn [rows]. split.
  { rewrite length_app. cbn. lia. }
  unfold delete_health_data, len. cbn [rows columns].
  rewrite length_app. cbn [length].
  rewrite (proj2 (Z.ltb_ge _ _)) by lia.
  rewrite (proj2 (Z.leb_gt _ _)) by lia.
  cbn [orb]. rewrite Nat2Z.id.
  assert (Hdel : delete (length (rows health_data)) (rows health_data ++ [data])
                 = rows health_data).
  { rewrite delete_take_drop. rewrite take_app_length.
    rewrite drop_ge by (rewrite length_app; cbn; lia). by rewrite app_nil_r. }
  rewrite Hdel. by destruct health_data.
Qed.

Lemma add_then_delete_witness :
  ∃ history,
    add_health_data (λ _, true) sort_rows (num 19010)
      {["date" := num 19005; "systolic_bp" := num 120]} history_100_110
    = (true, history, {["date" := num 19005; "systolic_bp" := num 120]}) ∧
    len history = S (len history_100_110) ∧
    delete_health_data (λ _, true) (Z.of_nat (len history_100_110)) history
    = (true, history_100_110).
Proof.
  apply (add_then_delete (λ _, true) sort_rows (num 19010)
           {["date" := num 19005; "systolic_bp" := num 120]} history_100_110).
  - exact sort_rows_ascending.
  - reflexivity.
  - compute_done.
  - compute_done.
  - unfold history_100_110. cbn [rows columns]. repeat constructor; compute_done.
  - unfold history_100_110. cbn [rows]. repeat constructor.
  - unfold history_100_110. cbn [rows]. repeat constructor.
Defined.

Lemma cell_insert (r : gmap string value) (k k' : string) (v : value) :
  cell (<[k:=v]> r) k' = if bool_decide (k' = k) then v else cell r k'.
Proof.
  unfold cell. case_bool_decide as Hk.
  - subst. by rewrite lookup_insert_eq.
  - by rewrite lookup_insert_ne.
Qed.

Lemma cell_delete (r : gmap string value) (k k' : string) :
  cell (delete k r) k' = if bool_decide (k' = k) then NaN else cell r k'.
Proof.
  unfold cell. case_bool_decide as Hk.
  - subst. by rewrite lookup_delete_eq.
  - by rewrite lookup_delete_ne.
Qed.

Lemma update_fold (i : nat) (data : list (string * value)) (df : DataFrame) :
  NoDup data.*1 →
  let df' := foldl (λ df kv, set_at i kv.1 kv.2 df) df data in
  columns df' = columns df ∪ list_to_set data.*1 ∧
  len df' = len df ∧
  ∀ j r, rows df !! j = Some r →
    ∃ r', rows df' !! j = Some r' ∧
      (j = i →
         (∀ k v, (k, v) ∈ data → cell r' k = v) ∧
         (∀ k, k ∉ data.*1 → cell r' k = cell r k)) ∧
      (j ≠ i →
         (∀ k, k ∈ columns df ∨ k ∉ data.*1 → cell r' k = cell r k) ∧
         (∀ k, k ∉ columns df → k ∈ data.*1 → cell r' k = NaN)).
Proof.
  induction data as [|[k0 v0] data IH] using rev_ind; intros Hnd; cbn zeta.
  { cbn. split_and!; [set_solver|done|]. intros j r Hr. exists r.
    split_and!; [done|intros _|intros _]; split; try done.
    - intros k v Hk. by apply elem_of_nil in Hk.
    - intros k _ Hk. by apply elem_of_nil in Hk. }
  rewrite fmap_app in Hnd. cbn in Hnd. apply NoDup_app in Hnd as (Hnd & Hk0 & _).
  assert (Hfresh : k0 ∉ data.*1).
  { intros Hin. apply (Hk0 _ Hin). by left. }
  destruct (IH Hnd) as (Hcols & Hlen & Hrows). clear IH Hk0.
  rewrite foldl_app. cbn [foldl fst snd].
  set (df' := foldl (λ df kv, set_at i kv.1 kv.2 df) df data) in *.
  split_and!.
  - cbn [set_at columns]. rewrite Hcols, fmap_app. cbn. set_solver.
  - unfold len in *. cbn [set_at rows]. by rewrite length_imap.
  - intros j r Hr. destruct (Hrows j r Hr) as (r' & Hr' & Hat & Hoff).
    cbn [set_at rows]. rewrite list_lookup_imap, Hr'. cbn [fmap option_fmap option_map].
    eexists. split; [reflexivity|]. split.
    + intros ->. rewrite bool_decide_eq_true_2 by done.
      destruct (Hat eq_refl) as [Hin Hout]. split.
      * intros k v Hk. rewrite cell_insert. apply elem_of_app in Hk as [Hk|Hk].
        -- rewrite bool_decide_eq_false_2; [by apply Hin|].
           intros ->. apply Hfresh. apply list_elem_of_fmap. by exists (k0, v).
        -- apply list_elem_of_singleton in Hk. injection Hk as -> ->.
           by rewrite bool_decide_eq_true_2.
      * intros k Hk. rewrite fmap_app in Hk. cbn in Hk.
        rewrite cell_insert, bool_decide_eq_false_2 by set_solver.
        apply Hout. set_solver.
    + intros Hj. rewrite (bool_decide_eq_false_2 (j = i)) by done.
      destruct (Hoff Hj) as [Hkeep Hnew]. rewrite fmap_app. cbn [fmap list_fmap fst].
      case_bool_decide as Hc; (split; [intros k Hk|intros k Hk1 Hk2]).
      * apply Hkeep. set_solver.
      * apply Hnew; [done|]. rewrite Hcols in Hc. set_solver.
      * rewrite cell_delete. rewrite Hcols in Hc.
        rewrite bool_decide_eq_false_2 by set_solver. apply Hkeep. set_solver.
      * rewrite cell_delete. case_bool_decide; [done|]. apply Hnew; [done|]. set_solver.
Qed.

(** The loop of [update_health_data] writes the items up to the first one
    that pandas refuses. *)
Lemma write_items_spec (accepts : DataFrame → nat → string → value → bool) (i : nat)
    (data : list (string * value)) (df : DataFrame) :
  ∃ written rest,
    data = written ++ rest ∧
    write_items accepts i data df
    = (bool_decide (rest = []), foldl (λ df kv, set_at i kv.1 kv.2 df) df written) ∧
    (∀ k v, (k, v) ∈ written → ∃ df', accepts df' i k v = true) ∧
    (∀ k v rest', rest = (k, v) :: rest' → ∃ df', accepts df' i k v = false).
Proof.
  revert df. induction data as [|[k v] data IH]; intros df; cbn [write_items].
  { exists [], []. split_and!; try done. intros k v Hin. by apply elem_of_nil in Hin. }
  destruct (accepts df i k v) eqn:Hacc.
  - destruct (IH (set_at i k v df)) as (written & rest & -> & Hrun & Hall & Hfirst).
    exists ((k, v) :: written), rest. split_and!; try done.
    intros k' v' [[= -> ->]|Hin]%elem_of_cons; [by exists df|by apply Hall].
  - exists [], ((k, v) :: data). split_and!; try done.
    + intros k' v' Hin. by apply elem_of_nil in Hin.
    + intros k' v' rest' [= <- <- <-]. by exists df.
Qed.

(** X12: [update_health_data] with an index outside the history answers
    False and changes nothing.  With an index inside it, the given values
    are written in their order until pandas refuses one: the record at the
    index takes every value written and keeps its other cells, the keys
    written become columns, the number of records stays, and the other
    records keep their cells, with a missing value in each column that is
    new.  When no value is refused all of them are written and the answer is
    the save's; when one is refused the answer is False, nothing is saved,
    and the values written before it stay in the history. *)
Theorem update_health_data_writes (save : DataFrame → bool)
    (accepts : DataFrame → nat → string → value → bool) (index : Z)
    (data : list (string * value)) (health_data : DataFrame) :
  NoDup data.*1 →
  ∃ ok history written rest,
    update_health_data save accepts index data health_data = (ok, history) ∧
    len history = len health_data ∧
    data = written ++ rest ∧
    if bool_decide (0 ≤ index < Z.of_nat (len health_data)) then
      ok = (if bool_decide (rest = []) then save history else false) ∧
      (∀ k v, (k, v) ∈ written → ∃ df', accepts df' (Z.to_nat index) k v = true) ∧
      (∀ k v rest', rest = (k, v) :: rest' →
         ∃ df', accepts df' (Z.to_nat index) k v = false) ∧
      columns history = columns health_data ∪ list_to_set written.*1 ∧
      ∀ (j : nat) r, rows health_data !! j = Some r →
        ∃ r', rows history !! j = Some r' ∧
          if bool_decide (j = Z.to_nat index) then
            (∀ k v, (k, v) ∈ written → cell r' k = v) ∧
            (∀ k, k ∉ written.*1 → cell r' k = cell r k)
          else
            (∀ k, k ∈ columns health_data ∨ k ∉ written.*1 → cell r' k = cell r k) ∧
            (∀ k, k ∉ columns health_data → k ∈ written.*1 → cell r' k = NaN)
    else ok = false ∧ history = health_data ∧ written = [] ∧ rest = data.
Proof.
  intros Hnd. unfold update_health_data.
  destruct (index <? 0) eqn:Hneg; [|destruct (Z.of_nat (len health_data) <=? index) eqn:Hbig];
    cbn [orb].
  - exists false, health_data, [], data. rewrite bool_decide_eq_false_2 by lia. done.
  - exists false, health_data, [], data. rewrite bool_decide_eq_false_2 by lia. done.
  - destruct (write_items_spec accepts (Z.to_nat index) data health_data)
      as (written & rest & Hdata & Hrun & Hacc & Hfirst).
    rewrite Hrun.
    assert (Hndw : NoDup written.*1).
    { rewrite Hdata, fmap_app in Hnd. by apply NoDup_app in Hnd as (? & _ & _). }
    destruct (update_fold (Z.to_nat index) written health_data Hndw)
      as (Hcols & Hlen & Hrows).
    set (history := foldl (λ df kv, set_at (Z.to_nat index) kv.1 kv.2 df)
                      health_data written) in *.
    exists (if bool_decide (rest = []) then save history else false), history,
      written, rest.
    rewrite (bool_decide_eq_true_2 (0 ≤ index < _)) by lia.
    split_and!; try done.
    + by destruct (bool_decide (rest = [])).
    + intros j r Hr. destruct (Hrows j r Hr) as (r' & Hr' & Hat & Hoff).
      exists r'. split; [done|].
      destruct (decide (j = Z.to_nat index)) as [Hj|Hj].
      * rewrite (bool_decide_eq_true_2 _ Hj). by apply Hat.
      * rewrite (bool_decide_eq_false_2 _ Hj). by apply Hoff.
Qed.

(** pandas refusing a value that is not a whole number, as it does for a
    column of integers. *)
Definition whole_numbers_only (df : DataFrame) (i : nat) (k : string) (v : value) : bool :=
  match v with
  | Fin q => bool_decide (Qden q = 1%positive)
  | _ => false
  end.

Lemma update_health_data_writes_witness :
  ∃ ok history,
    update_health_data (λ _, true) whole_numbers_only 1
      [("systolic_bp", num 115); ("bmi", dec 245 10); ("age", num 52)] history_100_110
    = (ok, history) ∧
    ok = false ∧
    len history = len history_100_110 ∧
    columns history = columns history_100_110 ∪ {["systolic_bp"]} ∧
    ∃ r', rows history !! 1%nat = Some r' ∧
          cell r' "systolic_bp" = num 115 ∧ cell r' "date" = num 19001 ∧
          cell r' "bmi" = NaN.
Proof.
  destruct (update_health_data_writes (λ _, true) whole_numbers_only 1
              [("systolic_bp", num 115); ("bmi", dec 245 10); ("age", num 52)]
              history_100_110)
    as (ok & history & written & rest & Hrun & Hlen & Hdata & Hin).
  { cbn. repeat constructor; set_solver. }
  rewrite bool_decide_eq_true_2 in Hin by (unfold len; cbn; lia).
  destruct Hin as (Hok & Hacc & Hfirst & Hcols & Hrows).
  assert (Hw : written = [("systolic_bp", num 115)]
               ∧ rest = [("bmi", dec 245 10); ("age", num 52)]).
  { destruct written as [|kv1 [|kv2 written]]; cbn in Hdata.
    - subst rest. destruct (Hfirst _ _ _ eq_refl) as [df' Hf].
      vm_compute in Hf. discriminate Hf.
    - by injection Hdata as <- <-.
    - exfalso. injection Hdata as <- <- _.
      destruct (Hacc "bmi" (dec 245 10)) as [df' Hf]; [set_solver|].
      vm_compute in Hf. discriminate Hf. }
  destruct Hw as [-> ->].
  exists ok, history. split_and!; [exact Hrun|exact Hok|exact Hlen| |].
  - rewrite Hcols. cbn. set_solver.
  - destruct (Hrows 1%nat _ eq_refl) as (r' & Hr' & Hcell).
    rewrite bool_decide_eq_true_2 in Hcell by reflexivity.
    destruct Hcell as [Hset Hkeep].
    exists r'. split_and!; [exact Hr'| | |].
    + apply Hset. by left.
    + rewrite Hkeep by (cbn; set_solver). reflexivity.
    + rewrite Hkeep by (cbn; set_solver). reflexivity.
Defined.

(** ** Tracked interventions *)

Section TrackingProperties.
Context {T : Type} (title_of : T → option string) (save_interventions : list T → bool).

Lemma replace_first_titled_spec (intervention : T) (active active' : list T) :
  replace_first_titled title_of intervention active = Some active' →
  ∃ before old after t,
    active = before ++ old :: after ∧
    active' = before ++ intervention :: after ∧
    title_of old = Some t ∧ title_of intervention = Some t ∧
    Forall (λ a, ∃ t', title_of a = Some t' ∧ t' ≠ t) before.
Proof.
  revert active'. induction active as [|a rest IH]; intros active'; cbn; [done|].
  destruct (title_of a) as [t|] eqn:Ha; [|done].
  destruct (title_of intervention) as [t'|] eqn:Hi; [|done].
  case_bool_decide as Ht.
  - intros [= <-]. subst t'. by exists [], a, rest, t.
  - destruct (replace_first_titled title_of intervention rest) as [rest'|] eqn:Hrest;
      [|done].
    intros [= <-].
    destruct (IH rest' eq_refl) as (before & old & after & t0 & -> & -> & Hold & Hnew & Hb).
    exists (a :: before), old, after, t0. split_and!; try done.
    constructor; [|done]. exists t. split; [done|]. congruence.
Qed.

(** X13: [update_intervention_progress] replaces the first tracked
    intervention that carries the title of the given one, and nothing else;
    the number of tracked interventions stays; when no tracked intervention
    carries the title, the answer is False and the list is as it was. *)
Theorem update_intervention_progress_first (intervention : T) (active : list T) (t : string) :
  title_of intervention = Some t →
  Forall (λ a, is_Some (title_of a)) active →
  ∃ ok active',
    update_intervention_progress title_of save_interventions intervention active
    = (ok, active') ∧
    length active' = length active ∧
    if bool_decide (Some t ∈ title_of <$> active) then
      ok = save_interventions active' ∧
      ∃ before old after,
        active = before ++ old :: after ∧
        active' = before ++ intervention :: after ∧
        title_of old = Some t ∧
        Some t ∉ title_of <$> before
    else ok = false ∧ active' = active.
Proof.
  intros Ht Hall. unfold update_intervention_progress.
  destruct (replace_first_titled title_of intervention active) as [active'|] eqn:Hr.
  - destruct (replace_first_titled_spec _ _ _ Hr)
      as (before & old & after & t0 & -> & -> & Hold & Hnew & Hb).
    assert (t0 = t) as -> by congruence.
    eexists _, _. split; [reflexivity|]. split; [by rewrite !length_app|].
    rewrite bool_decide_eq_true_2.
    2:{ rewrite fmap_app. apply elem_of_app. right. cbn. rewrite Hold. by left. }
    split; [done|]. exists before, old, after. split_and!; try done.
    intros Hin. apply list_elem_of_fmap in Hin as (a & Ha & Hin).
    rewrite Forall_forall in Hb. destruct (Hb a Hin) as (t' & Ht' & Hne). congruence.
  - eexists _, _. split; [reflexivity|]. split; [done|].
    rewrite bool_decide_eq_false_2; [done|].
    clear save_interventions. induction Hall as [|a rest [ta Ha] Hall IH]; cbn in *.
    { by intros ?%elem_of_nil. }
    rewrite Ha, Ht in Hr. case_bool_decide as Hne; [done|].
    destruct (replace_first_titled title_of intervention rest); [done|].
    intros [Heq|Hin]%elem_of_cons; [congruence|]. by apply IH.
Qed.

End TrackingProperties.

Lemma update_intervention_progress_first_witness :
  ∃ ok active',
    update_intervention_progress (λ i : string * nat, Some i.1) (λ _, true)
      ("Daily walk", 50%nat) [("Less salt", 10%nat); ("Daily walk", 20%nat)]
    = (ok, active') ∧
    length active' = length [("Less salt", 10%nat); ("Daily walk", 20%nat)] ∧
    if bool_decide (Some "Daily walk"
                    ∈ (λ i : string * nat, Some i.1)
                      <$> [("Less salt", 10%nat); ("Daily walk", 20%nat)]) then
      ok = true ∧
      ∃ before old after,
        [("Less salt", 10%nat); ("Daily walk", 20%nat)] = before ++ old :: after ∧
        active' = before ++ ("Daily walk", 50%nat) :: after ∧
        Some old.1 = Some "Daily walk" ∧
        Some "Daily walk" ∉ (λ i : string * nat, Some i.1) <$> before
    else ok = false ∧ active' = [("Less salt", 10%nat); ("Daily walk", 20%nat)].
Proof.
  apply (update_intervention_progress_first (λ i : string * nat, Some i.1) (λ _, true)
           ("Daily walk", 50%nat) [("Less salt", 10%nat); ("Daily walk", 20%nat)]
           "Daily walk").
  - reflexivity.
  - apply Forall_forall. intros a _. by eexists.
Defined.

(** ** Recommendations from alerts *)

Definition of_metric (m : string) (alerts : list Alert) : list Alert :=
  filter (λ a, metric a = m) alerts.

Lemma group_append_keys (m : string) (a : Alert) (g : list (string * list Alert)) :
  (group_append m a g).*1 = if bool_decide (m ∈ g.*1) then g.*1 else g.*1 ++ [m].
Proof.
  induction g as [|[m' l] g IH]; cbn [group_append fmap list_fmap fst]; [done|].
  destruct (decide (m' = m)) as [Hm|Hm].
  - subst. rewrite (bool_decide_eq_true_2 (m = m)) by done. cbn [fmap list_fmap fst].
    rewrite bool_decide_eq_true_2 by (apply elem_of_cons; by left). done.
  - rewrite (bool_decide_eq_false_2 (m' = m)) by done. cbn [fmap list_fmap fst].
    rewrite IH. destruct (decide (m ∈ g.*1)) as [Hin|Hin].
    + rewrite (bool_decide_eq_true_2 (m ∈ g.*1)) by done.
      rewrite bool_decide_eq_true_2 by (apply elem_of_cons; by right). done.
    + rewrite (bool_decide_eq_false_2 (m ∈ g.*1)) by done.
      rewrite bool_decide_eq_false_2; [done|].
      intros [?|?]%elem_of_cons; [congruence|done].
Qed.

Lemma group_append_elem (m : string) (a : Alert) (g : list (string * list Alert))
    (m' : string) (l' : list Alert) :
  NoDup g.*1 →
  (m', l') ∈ group_append m a g ↔
    (m' ≠ m ∧ (m', l') ∈ g) ∨
    (m' = m ∧ ((∃ l, (m, l) ∈ g ∧ l' = l ++ [a]) ∨ (m ∉ g.*1 ∧ l' = [a]))).
Proof.
  induction g as [|[m0 l0] g IH]; cbn [group_append fmap list_fmap fst]; intros Hnd.
  { rewrite list_elem_of_singleton. split.
    - intros [= -> ->]. right. split; [done|]. right. split; [|done]. by intros ?%elem_of_nil.
    - intros [[_ []%elem_of_nil]|[-> [(l & []%elem_of_nil & _)|[_ ->]]]]. done. }
  apply NoDup_cons in Hnd as [Hm0 Hnd]. specialize (IH Hnd).
  case_bool_decide as Hm.
  - subst m0. rewrite !elem_of_cons. split.
    + intros [[= -> ->]|Hin].
      * right. split; [done|]. left. exists l0. split; [by left|done].
      * left. split; [|by right]. intros ->. apply Hm0.
        apply list_elem_of_fmap. by exists (m, l').
    + intros [[Hne [[= ]|Hin]]|[-> [(l & [[= ->]|Hin]%elem_of_cons & ->)|[Hout _]]]].
      * congruence.
      * by right.
      * by left.
      * exfalso. apply Hm0. apply list_elem_of_fmap. by exists (m, l).
      * exfalso. apply Hout. by left.
  - rewrite elem_of_cons, IH. split.
    + intros [[= -> ->]|[[Hne Hin]|[-> [(l & Hin & ->)|[Hout ->]]]]].
      * left. split; [done|by left].
      * left. split; [done|by right].
      * right. split; [done|]. left. exists l. split; [by right|done].
      * right. split; [done|]. right. split; [|done].
        intros [?|?]%elem_of_cons; [congruence|done].
    + intros [[Hne [[= -> ->]|Hin]%elem_of_cons]|[-> [(l & [[= ]|Hin]%elem_of_cons & ->)|[Hout ->]]]].
      * by left.
      * right. left. done.
      * congruence.
      * right. right. split; [done|]. left. by exists l.
      * right. right. split; [done|]. right. split; [|done].
        intros Hin. apply Hout. by right.
Qed.

Lemma of_metric_snoc (m : string) (alerts : list Alert) (a : Alert) :
  of_metric m (alerts ++ [a])
  = of_metric m alerts ++ (if bool_decide (metric a = m) then [a] else []).
Proof.
  unfold of_metric. rewrite filter_app. f_equal.
  case_bool_decide; [by rewrite filter_cons_True|by rewrite filter_cons_False].
Qed.

Lemma group_by_metric_spec (alerts : list Alert) :
  NoDup (group_by_metric alerts).*1 ∧
  ∀ m l, (m, l) ∈ group_by_metric alerts ↔ l = of_metric m alerts ∧ l ≠ [].
Proof.
  induction alerts as [|a alerts [Hnd IH]] using rev_ind.
  { split; [constructor|]. intros m l. split; [by intros ?%elem_of_nil|by intros [-> ?]]. }
  unfold group_by_metric in *. rewrite foldl_app. cbn [foldl].
  set (g := foldl _ [] alerts) in *. split.
  - rewrite group_append_keys. case_bool_decide as Hin; [done|].
    apply NoDup_app. split_and!; [done| |apply NoDup_singleton].
    intros x Hx ->%list_elem_of_singleton. done.
  - intros m l. rewrite (group_append_elem _ _ _ _ _ Hnd), of_metric_snoc. split.
    + intros [[Hne Hin]|[-> [(l0 & Hin & ->)|[Hout ->]]]].
      * apply IH in Hin as [-> Hl]. rewrite bool_decide_eq_false_2 by done.
        by rewrite app_nil_r.
      * apply IH in Hin as [-> Hl]. rewrite bool_decide_eq_true_2 by done.
        split; [done|]. by destruct (of_metric (metric a) alerts).
      * rewrite bool_decide_eq_true_2 by done.
        destruct (of_metric (metric a) alerts) as [|b bs] eqn:Hb; [done|].
        exfalso. apply Hout. apply list_elem_of_fmap. exists (metric a, b :: bs).
        split; [done|]. apply IH. by rewrite Hb.
    + intros [-> Hl]. case_bool_decide as Hm.
      * right. subst m. split; [done|].
        destruct (of_metric (metric a) alerts) as [|b bs] eqn:Hb.
        -- right. split; [|done]. intros (ml & Hml & Hin)%list_elem_of_fmap.
           destruct ml as [m0 l0]. cbn in Hml. subst m0.
           apply IH in Hin as [-> Hne]. by rewrite Hb in Hne.
        -- left. exists (b :: bs). split; [|done]. apply IH. by rewrite Hb.
      * left. split; [done|]. rewrite app_nil_r in *. by apply IH.
Qed.

Lemma flat_map_keys_NoDup {A B} (key : B → string) (f : string * A → list B)
    (g : list (string * A)) :
  (∀ ma r, r ∈ f ma → key r = ma.1) →
  (∀ ma, length (f ma) ≤ 1)%nat →
  NoDup g.*1 → NoDup (key <$> flat_map f g).
Proof.
  intros Hkey Hlen. induction g as [|ma g IH]; cbn [flat_map fmap list_fmap]; intros Hnd.
  { constructor. }
  apply NoDup_cons in Hnd as [Hma Hnd]. rewrite fmap_app. apply NoDup_app. split_and!.
  - specialize (Hlen ma). destruct (f ma) as [|r [|]]; cbn in *; try lia.
    + constructor.
    + apply NoDup_singleton.
  - intros k (r & -> & Hr)%list_elem_of_fmap (r' & Heq & Hr')%list_elem_of_fmap.
    apply list_elem_of_In, in_flat_map in Hr' as (ma' & Hma' & Hr').
    apply list_elem_of_In in Hma', Hr'.
    apply Hma. rewrite <- (Hkey _ _ Hr), Heq, (Hkey _ _ Hr').
    apply list_elem_of_fmap. by exists ma'.
  - by apply IH.
Qed.

(** X14: [get_alert_recommendations] gives at most one recommendation per
    metric, each for a metric that has an alert; a metric with a Critical
    alert gets a recommendation of priority Critical and a metric with a
    Warning alert gets a recommendation; a metric that has two or more
    alerts, all of them Info, gets none. *)
Theorem alert_recommendations_by_metric (alerts : list Alert) :
  let recs := get_alert_recommendations alerts in
  NoDup (rec_metric <$> recs) ∧
  (∀ r, r ∈ recs → ∃ a, a ∈ alerts ∧ metric a = rec_metric r) ∧
  (∀ a, a ∈ alerts → severity a = "Critical" →
     ∃ r, r ∈ recs ∧ rec_metric r = metric a ∧ rec_priority r = "Critical") ∧
  (∀ a, a ∈ alerts → severity a = "Warning" →
     ∃ r, r ∈ recs ∧ rec_metric r = metric a) ∧
  (∀ m, (1 < length (of_metric m alerts))%nat →
     (∀ a, a ∈ alerts → metric a = m → severity a = "Info") →
     m ∉ rec_metric <$> recs).
Proof.
  cbn zeta. unfold get_alert_recommendations.
  destruct (group_by_metric_spec alerts) as [Hnd Hg].
  match goal with |- context [flat_map ?body _] => set (f := body) end.
  assert (Hkey : ∀ ma r, r ∈ f ma → rec_metric r = ma.1).
  { intros [m l] r. unfold f. cbn [fst snd].
    repeat case_bool_decide; try destruct l;
      rewrite ?list_elem_of_singleton; try (by intros ?%elem_of_nil); by intros ->. }
  assert (Hlen : ∀ ma, (length (f ma) ≤ 1)%nat).
  { intros [m l]. unfold f. cbn [fst snd].
    repeat case_bool_decide; try destruct l; cbn; lia. }
  assert (Hin : ∀ r, r ∈ flat_map f (group_by_metric alerts) ↔
                     ∃ m, of_metric m alerts ≠ [] ∧ r ∈ f (m, of_metric m alerts)).
  { intros r. rewrite list_elem_of_In, in_flat_map. split.
    - intros ([m l] & Hml & Hr). apply list_elem_of_In in Hml, Hr.
      apply Hg in Hml as [-> Hne]. by exists m.
    - intros (m & Hne & Hr). exists (m, of_metric m alerts).
      rewrite <- !list_elem_of_In. split; [|done]. by apply Hg. }
  assert (Hgroup : ∀ a, a ∈ alerts → a ∈ of_metric (metric a) alerts).
  { intros a Ha. unfold of_metric. by apply list_elem_of_filter. }
  split_and!.
  - by apply flat_map_keys_NoDup.
  - intros r (m & Hne & Hr)%Hin. apply Hkey in Hr. cbn in Hr.
    destruct (of_metric m alerts) as [|a l] eqn:Hl; [done|].
    assert (Ha : a ∈ of_metric m alerts) by (rewrite Hl; by left).
    unfold of_metric in Ha. apply list_elem_of_filter in Ha as [Hm Ha].
    exists a. split; [done|congruence].
  - intros a Ha Hsev. pose proof (Hgroup a Ha) as Hga.
    assert (Hne : of_metric (metric a) alerts ≠ []).
    { intros Heq. rewrite Heq in Hga. by apply elem_of_nil in Hga. }
    assert (Hex : ∃ r, r ∈ f (metric a, of_metric (metric a) alerts)
                       ∧ rec_priority r = "Critical").
    { unfold f. cbn [fst snd]. case_bool_decide as Hlong.
      - rewrite bool_decide_eq_true_2.
        2:{ apply list_elem_of_fmap. by exists a. }
        eexists. split; [by left|done].
      - destruct (of_metric (metric a) alerts) as [|b [|c l]]; [done| |cbn in Hlong; lia].
        apply list_elem_of_singleton in Hga as ->.
        eexists. split; [by left|done]. }
    destruct Hex as (r & Hr & Hp). exists r. split_and!; [|by apply Hkey in Hr|done].
    apply Hin. by exists (metric a).
  - intros a Ha Hsev. pose proof (Hgroup a Ha) as Hga.
    assert (Hne : of_metric (metric a) alerts ≠ []).
    { intros Heq. rewrite Heq in Hga. by apply elem_of_nil in Hga. }
    assert (Hex : ∃ r, r ∈ f (metric a, of_metric (metric a) alerts)).
    { unfold f. cbn [fst snd]. case_bool_decide as Hlong.
      - case_bool_decide; [eexists; by left|].
        rewrite bool_decide_eq_true_2.
        2:{ apply list_elem_of_fmap. by exists a. }
        eexists. by left.
      - destruct (of_metric (metric a) alerts) as [|b [|c l]]; [done| |cbn in Hlong; lia].
        eexists. by left. }
    destruct Hex as (r & Hr). exists r. split; [|by apply Hkey in Hr].
    apply Hin. by exists (metric a).
  - intros m Hlong Hinfo (r & Hm & (m' & Hne & Hr)%Hin)%list_elem_of_fmap.
    pose proof (Hkey _ _ Hr) as Hk. cbn in Hk. assert (m' = m) as -> by congruence.
    revert Hr. unfold f. cbn [fst snd]. rewrite bool_decide_eq_true_2 by done.
    assert (Hsev : ∀ s, s ∈ severity <$> of_metric m alerts → s = "Info").
    { intros s (a & -> & Ha)%list_elem_of_fmap. unfold of_metric in Ha.
      apply list_elem_of_filter in Ha as [Hma Ha]. by apply Hinfo. }
    rewrite !bool_decide_eq_false_2; [by intros ?%elem_of_nil| |].
    + intros Hw. by apply Hsev in Hw.
    + intros Hc. by apply Hsev in Hc.
Qed.
